(** * Production ML Pipeline Dashboard: entity store, sync reconciler,
      progress simulators and storage adapter

    A shallow embedding of the TypeScript sources

      - [src/hooks/useMockData.ts]             (entity store, storage helpers)
      - [src/context/DataSyncContext.tsx]      (sync reconciler)
      - [src/components/views/Monitoring.tsx]  (the Pipelines view: run simulator;
                                                the model comparison)
      - [src/components/views/Alerts.tsx], [src/components/modals/MergeDatasetModal.tsx],
        [src/components/layout/SyncStatusBar.tsx], [src/components/ui/ProgressBar.tsx]
        and the session provider                (the handlers of the views)

    React state is modelled by explicit state passing: a handler reads the
    state captured by the render it was created in (the "snapshot") and
    queues functional updates [setX(prev => ...)] that are applied to the
    latest state.  Sources of non-determinism ([Date.now()],
    [Math.random()], the outcome of a simulated remote call, a failing
    [localStorage]) are explicit arguments. *)

From Stdlib Require Import ZArith QArith Qminmax Qround Lqa Lia.
From Stdlib Require Import String Ascii DecimalString DecimalNat List Sorted Bool.
From stdpp Require Import base option gmap strings.
Import ListNotations.

Local Open Scope list_scope.
Local Open Scope string_scope.

(** ** JavaScript string primitives used by the sources

    Strings are sequences of 8-bit characters; [toLowerCase] is the ASCII
    restriction of the JavaScript method (the two agree on every string
    whose code units are below 128). *)
Module Js.

Definition lowerChar (c : ascii) : ascii :=
  let n := nat_of_ascii c in
  if (65 <=? n)%nat && (n <=? 90)%nat then ascii_of_nat (n + 32) else c.

(** [s.toLowerCase()] *)
Fixpoint toLowerCase (s : string) : string :=
  match s with
  | EmptyString => EmptyString
  | String c s' => String (lowerChar c) (toLowerCase s')
  end.

(** [s.includes(sub)] *)
Fixpoint includes (s sub : string) : bool :=
  String.prefix sub s ||
  match s with
  | EmptyString => false
  | String _ s' => includes s' sub
  end.

(** [s.split(sep)[0]] for a one-character separator: the part of [s] before
    the first [sep], all of [s] when there is none. *)
Fixpoint splitFirst (sep : ascii) (s : string) : string :=
  match s with
  | EmptyString => EmptyString
  | String c s' => if Ascii.eqb c sep then EmptyString else String c (splitFirst sep s')
  end.

(** A template literal: the concatenation of its pieces. *)
Definition template (pieces : list string) : string :=
  String.concat EmptyString pieces.

(** [parts.join(sep)] *)
Definition join (sep : string) (parts : list string) : string :=
  String.concat sep parts.

(** [`${n}`] for a non-negative integer. *)
Definition ofNat (n : nat) : string := NilEmpty.string_of_uint (Nat.to_uint n).
Definition ofN (n : N) : string := NilEmpty.string_of_uint (N.to_uint n).

Definition dquote : string := String (ascii_of_nat 34) EmptyString.
Definition space : ascii := ascii_of_nat 32.
Definition dot : ascii := ascii_of_nat 46.

(** A string is truthy unless it is empty. *)
Definition truthy (s : string) : bool :=
  match s with
  | EmptyString => false
  | String _ _ => true
  end.

(** [ids.includes(x)] on an array of strings. *)
Definition arrayIncludes (xs : list string) (x : string) : bool :=
  existsb (String.eqb x) xs.

(** [xs.filter(Boolean)] on an array of strings and [null]s. *)
Fixpoint filterBoolean (xs : list (option string)) : list string :=
  match xs with
  | [] => []
  | None :: r => filterBoolean r
  | Some EmptyString :: r => filterBoolean r
  | Some s :: r => s :: filterBoolean r
  end.

End Js.

(** ** JavaScript numbers of the dataset records

    Finite values are rationals and the operations on them are exact: the
    rounding of the program's binary64 arithmetic is not modelled.  What is
    proved about sums therefore takes them in the program's order and uses
    no law of addition but [0 + x = x], which rounding keeps.  The two
    non-finite results that [mergeDatasets] can produce ([Math.max()] of no
    argument, [0 / 0]) and their closure under the operations used are
    kept. *)
Module Num.

Inductive number : Type :=
| NaN
| NegInfinity
| PosInfinity
| Finite (q : Q).

Definition ofZ (z : Z) : number := Finite (inject_Z z).
Definition ofNat (n : nat) : number := ofZ (Z.of_nat n).

(** [a + b] *)
Definition add (a b : number) : number :=
  match a, b with
  | NaN, _ | _, NaN => NaN
  | NegInfinity, PosInfinity | PosInfinity, NegInfinity => NaN
  | NegInfinity, _ | _, NegInfinity => NegInfinity
  | PosInfinity, _ | _, PosInfinity => PosInfinity
  | Finite x, Finite y => Finite (x + y)
  end.

Definition max2 (a b : number) : number :=
  match a, b with
  | NaN, _ | _, NaN => NaN
  | PosInfinity, _ | _, PosInfinity => PosInfinity
  | NegInfinity, x | x, NegInfinity => x
  | Finite x, Finite y => Finite (Qmax x y)
  end.

(** [Math.max(...xs)]: [-Infinity] when [xs] is empty. *)
Definition Math_max (xs : list number) : number :=
  fold_left max2 xs NegInfinity.

(** [a / n] where [n] is an array length. *)
Definition divLength (a : number) (n : nat) : number :=
  match a, n with
  | NaN, _ => NaN
  | PosInfinity, _ => PosInfinity
  | NegInfinity, _ => NegInfinity
  | Finite x, O =>
      match Qcompare x 0 with
      | Eq => NaN
      | Gt => PosInfinity
      | Lt => NegInfinity
      end
  | Finite x, S _ => Finite (x / inject_Z (Z.of_nat n))
  end.

(** Equality of numbers as values ([Finite] up to equality of rationals;
    [NaN] is identified with itself, as one value of the model). *)
Definition eqv (a b : number) : Prop :=
  match a, b with
  | NaN, NaN | NegInfinity, NegInfinity | PosInfinity, PosInfinity => True
  | Finite x, Finite y => x == y
  | _, _ => False
  end.

(** The sum, the largest and the arithmetic mean of a list of numbers,
    as the specification of [mergeDatasets] names them.  The sum adds the
    numbers in the order of the list, starting from 0: with the rounding
    additions of the program the order of a sum matters, and this is the
    order in which a sum over an array is taken. *)
Definition sum (xs : list number) : number := fold_left add xs (ofZ 0).
Definition maximum (xs : list number) : number := fold_right max2 NegInfinity xs.
Definition mean (xs : list number) : number := divLength (sum xs) (length xs).

End Num.

(** ** The data model ([types/index.ts]) *)

Module Pipeline.
Inductive Status := idle | running | completed | failed.
Inductive Frequency := manual | hourly | daily | weekly.
Inductive Backoff := linear | exponential.
Record Notifications := { email : bool; slack : bool; webhook : option string }.
Record Schedule := { sched_enabled : bool; frequency : Frequency; time : option string }.
Record Retries := { retry_enabled : bool; maxRetries : nat; backoffStrategy : Backoff }.
Record t := {
  id : string;
  name : string;
  description : option string;
  status : Status;
  progress : Q;
  created_at : string;
  last_run : option string;
  model_accuracy : option Num.number;
  data_drift_score : option Q;
  algorithm : option string;
  dataset_id : option string;
  hyperparameters : option (list (string * Q));
  notifications : option Notifications;
  schedule : option Schedule;
  retries : option Retries
}.

(** [{ ...p, status, progress, model_accuracy, data_drift_score, last_run }] *)
Definition spread (p : t) (status' : Status) (progress' : Q)
    (model_accuracy' : option Num.number) (data_drift_score' : option Q)
    (last_run' : option string) : t :=
  {| id := id p; name := name p; description := description p;
     status := status'; progress := progress'; created_at := created_at p;
     last_run := last_run'; model_accuracy := model_accuracy';
     data_drift_score := data_drift_score'; algorithm := algorithm p;
     dataset_id := dataset_id p; hyperparameters := hyperparameters p;
     notifications := notifications p; schedule := schedule p;
     retries := retries p |}.
End Pipeline.

Module Dataset.
Record t := {
  id : string;
  name : string;
  size : Num.number;
  columns : Num.number;
  null_percentage : Num.number;
  created_at : string
}.
End Dataset.

Module Experiment.
Inductive Status := running | completed | failed.
(** [auc_roc] and [training_time] are declared as numbers, but the
    experiments the store is seeded with have neither: [None] is
    [undefined]. *)
Record ModelMetrics := {
  accuracy : Q;
  precision : Q;
  recall : Q;
  f1_score : Q;
  auc_roc : option Q;
  training_time : option Q
}.
Record t := {
  id : string;
  name : string;
  status : Status;
  algorithm : string;
  metrics : ModelMetrics;
  parameters : list (string * Q);
  start_time : string;
  duration : option Z;
  isNew : option bool
}.

(** [{ ...e, status, duration, metrics }] *)
Definition spread (e : t) (status' : Status) (duration' : option Z)
    (metrics' : ModelMetrics) : t :=
  {| id := id e; name := name e; status := status'; algorithm := algorithm e;
     metrics := metrics'; parameters := parameters e; start_time := start_time e;
     duration := duration'; isNew := isNew e |}.
End Experiment.

Module Alert.
Inductive Kind := performance | drift | error.
Inductive Severity := low | medium | high.
Record t := {
  id : string;
  type : Kind;
  severity : Severity;
  message : string;
  timestamp : string;
  acknowledged : bool
}.
End Alert.

Module ExternalConnection.
Inductive Kind := rest_api | database | webhook.
Inductive Status := connected | disconnected | error.
Record t := {
  id : string;
  name : string;
  type : Kind;
  url : string;
  status : Status;
  lastSync : string;
  recordCount : Z;
  syncFrequency : string;
  created_at : string
}.
End ExternalConnection.

(** What [Date.now()] and [new Date().toISOString()] return during one
    handler call. *)
Record Clock := { now_ms : N; now_iso : string }.

(** ** The entity store ([useMockData]) *)
Module Store.

(** The five [useState] collections of one [useMockData] instance. *)
Record t := {
  pipelines : list Pipeline.t;
  datasets : list Dataset.t;
  alerts : list Alert.t;
  experiments : list Experiment.t;
  externalConnections : list ExternalConnection.t
}.

Definition setPipelines (f : list Pipeline.t -> list Pipeline.t) (s : t) : t :=
  {| pipelines := f (pipelines s); datasets := datasets s; alerts := alerts s;
     experiments := experiments s; externalConnections := externalConnections s |}.
Definition setDatasets (f : list Dataset.t -> list Dataset.t) (s : t) : t :=
  {| pipelines := pipelines s; datasets := f (datasets s); alerts := alerts s;
     experiments := experiments s; externalConnections := externalConnections s |}.
Definition setAlerts (f : list Alert.t -> list Alert.t) (s : t) : t :=
  {| pipelines := pipelines s; datasets := datasets s; alerts := f (alerts s);
     experiments := experiments s; externalConnections := externalConnections s |}.
Definition setExperiments (f : list Experiment.t -> list Experiment.t) (s : t) : t :=
  {| pipelines := pipelines s; datasets := datasets s; alerts := alerts s;
     experiments := f (experiments s); externalConnections := externalConnections s |}.
Definition setExternalConnections
    (f : list ExternalConnection.t -> list ExternalConnection.t) (s : t) : t :=
  {| pipelines := pipelines s; datasets := datasets s; alerts := alerts s;
     experiments := experiments s; externalConnections := f (externalConnections s) |}.

(** The alert object every store operation builds:
    [{ id: `alert_${Date.now()}`, type: 'performance', severity, message,
       timestamp: new Date().toISOString(), acknowledged: false }]. *)
Definition newAlert (clk : Clock) (sev : Alert.Severity) (msg : string) : Alert.t :=
  {| Alert.id := Js.template ["alert_"; Js.ofN (now_ms clk)];
     Alert.type := Alert.performance;
     Alert.severity := sev;
     Alert.message := msg;
     Alert.timestamp := now_iso clk;
     Alert.acknowledged := false |}.

(** [p.dataset_id === datasetId] for the optional field. *)
Definition usesDataset (datasetId : string) (p : Pipeline.t) : bool :=
  match Pipeline.dataset_id p with
  | Some d => String.eqb d datasetId
  | None => false
  end.

(** The callback of [experiments.filter] in [deleteDataset]. *)
Definition experimentRelated
    (relatedPipelineNames : list string) (datasetToDelete : Dataset.t)
    (e : Experiment.t) : bool :=
  existsb (fun pipelineName =>
    Js.includes (Js.toLowerCase (Experiment.name e))
                (Js.splitFirst Js.space (Js.toLowerCase pipelineName)) ||
    Js.includes (Js.toLowerCase (Experiment.name e))
                (Js.splitFirst Js.dot (Js.toLowerCase (Dataset.name datasetToDelete))))
    relatedPipelineNames.

(** The callback of [alerts.filter] in [deleteDataset]. *)
Definition alertRelated
    (relatedPipelineNames : list string) (relatedExperiments : list Experiment.t)
    (datasetToDelete : Dataset.t) (a : Alert.t) : bool :=
  Js.includes (Js.toLowerCase (Alert.message a))
              (Js.toLowerCase (Dataset.name datasetToDelete)) ||
  existsb (fun name =>
    Js.includes (Js.toLowerCase (Alert.message a)) (Js.toLowerCase name))
    relatedPipelineNames ||
  existsb (fun exp =>
    Js.includes (Js.toLowerCase (Alert.message a))
                (Js.toLowerCase (Experiment.name exp)))
    relatedExperiments.

(** The callback of [externalConnections.filter] in [deleteDataset]. *)
Definition connectionRelated (datasetToDelete : Dataset.t)
    (c : ExternalConnection.t) : bool :=
  Js.includes (Dataset.name datasetToDelete)
              (Js.template [ExternalConnection.name c; " (External)"]).

(** One entry of [deletionSummary]:
    [n > 0 ? `${n} related ...` : null]. *)
Definition countPart (n : nat) (what : string) : option string :=
  if (0 <? n)%nat then Some (Js.template [Js.ofNat n; what]) else None.

Definition deletionSummary (datasetToDelete : Dataset.t)
    (nPipelines nExperiments nAlerts nConnections : nat) : string :=
  Js.join ", " (Js.filterBoolean
    [ Some (Js.template ["Dataset "; Js.dquote; Dataset.name datasetToDelete;
                         Js.dquote; " deleted"]);
      countPart nPipelines " related pipeline(s) removed";
      countPart nExperiments " related model(s) removed";
      countPart nAlerts " related alert(s) cleared";
      countPart nConnections " related connection(s) removed" ]).

(** The four [related...] constants of [deleteDataset], computed from the
    state the handler closed over. *)
Definition relatedPipelines (datasetId : string) (snap : t) : list Pipeline.t :=
  List.filter (usesDataset datasetId) (pipelines snap).

Definition relatedExperiments (datasetId : string) (datasetToDelete : Dataset.t)
    (snap : t) : list Experiment.t :=
  List.filter
    (experimentRelated (map Pipeline.name (relatedPipelines datasetId snap))
                       datasetToDelete)
    (experiments snap).

Definition relatedAlerts (datasetId : string) (datasetToDelete : Dataset.t)
    (snap : t) : list Alert.t :=
  List.filter
    (alertRelated (map Pipeline.name (relatedPipelines datasetId snap))
                  (relatedExperiments datasetId datasetToDelete snap)
                  datasetToDelete)
    (alerts snap).

Definition relatedConnections (datasetToDelete : Dataset.t) (snap : t)
    : list ExternalConnection.t :=
  List.filter (connectionRelated datasetToDelete) (externalConnections snap).

(** [prev.filter(x => !ids.includes(x.id))] *)
Definition withoutIds {A : Type} (key : A -> string) (ids : list string)
    (prev : list A) : list A :=
  List.filter (fun x => negb (Js.arrayIncludes ids (key x))) prev.

(** [deleteDataset(datasetId)].  [snap] is the state the handler closed
    over (it decides what is related); the queued updates act on [prev]. *)
Definition deleteDataset (clk : Clock) (datasetId : string) (snap prev : t) : t :=
  match List.find (fun d => String.eqb (Dataset.id d) datasetId) (datasets snap) with
  | None => prev
  | Some datasetToDelete =>
    let relatedPipelineIds := map Pipeline.id (relatedPipelines datasetId snap) in
    let relatedExperimentIds :=
      map Experiment.id (relatedExperiments datasetId datasetToDelete snap) in
    let relatedAlertIds :=
      map Alert.id (relatedAlerts datasetId datasetToDelete snap) in
    let relatedConnectionIds :=
      map ExternalConnection.id (relatedConnections datasetToDelete snap) in
    let s1 :=
      if (0 <? length relatedPipelineIds)%nat
      then setPipelines (withoutIds Pipeline.id relatedPipelineIds) prev
      else prev in
    let s2 :=
      if (0 <? length relatedExperimentIds)%nat
      then setExperiments (withoutIds Experiment.id relatedExperimentIds) s1
      else s1 in
    let s3 :=
      if (0 <? length relatedAlertIds)%nat
      then setAlerts (withoutIds Alert.id relatedAlertIds) s2
      else s2 in
    let s4 :=
      if (0 <? length relatedConnectionIds)%nat
      then setExternalConnections
             (withoutIds ExternalConnection.id relatedConnectionIds) s3
      else s3 in
    let s5 :=
      setDatasets (List.filter (fun d => negb (String.eqb (Dataset.id d) datasetId))) s4 in
    let summary :=
      deletionSummary datasetToDelete
        (length relatedPipelineIds) (length relatedExperimentIds)
        (length relatedAlertIds) (length relatedConnectionIds) in
    setAlerts (fun prevAlerts => newAlert clk Alert.medium summary :: prevAlerts) s5
  end.

(** [mergeDatasets(datasetIds, newName)]: the created dataset and the
    store after the two queued updates. *)
Definition selectedDatasets (datasetIds : list string) (snap : t) : list Dataset.t :=
  List.filter (fun d => Js.arrayIncludes datasetIds (Dataset.id d)) (datasets snap).

Definition mergedDataset (clk : Clock) (newName : string)
    (selected : list Dataset.t) : Dataset.t :=
  {| Dataset.id := Js.template ["dataset_"; Js.ofN (now_ms clk)];
     Dataset.name := newName;
     Dataset.size :=
       fold_left (fun sum d => Num.add sum (Dataset.size d)) selected (Num.ofZ 0);
     Dataset.columns := Num.Math_max (map Dataset.columns selected);
     Dataset.null_percentage :=
       Num.divLength
         (fold_left (fun sum d => Num.add sum (Dataset.null_percentage d))
                    selected (Num.ofZ 0))
         (length selected);
     Dataset.created_at := now_iso clk |}.

Definition mergeDatasets (clk : Clock) (datasetIds : list string) (newName : string)
    (snap prev : t) : Dataset.t * t :=
  let selected := selectedDatasets datasetIds snap in
  let merged := mergedDataset clk newName selected in
  let s1 := setDatasets (fun prevDatasets => merged :: prevDatasets) prev in
  let s2 := setAlerts (fun prevAlerts =>
      newAlert clk Alert.low
        (Js.template ["Successfully merged "; Js.ofNat (length selected);
                      " datasets into "; Js.dquote; newName; Js.dquote])
      :: prevAlerts) s1 in
  (merged, s2).

End Store.

(** ** The cascade of [deleteDataset], stated on the data

    What "related to the dataset" means for each collection, written as
    relations on the store (no id lists, no booleans).  [contains s sub]
    is the substring relation. *)
Module Cascade.

Definition contains (s sub : string) : Prop :=
  exists pre post : string, s = pre ++ sub ++ post.

(** Case-insensitive containment, as every name comparison of the cascade
    lower-cases both sides. *)
Definition mentions (text name : string) : Prop :=
  contains (Js.toLowerCase text) (Js.toLowerCase name).

Definition firstWord (name : string) : string :=
  Js.splitFirst Js.space (Js.toLowerCase name).

Definition baseName (name : string) : string :=
  Js.splitFirst Js.dot (Js.toLowerCase name).

(** Pipelines whose [dataset_id] is the deleted dataset. *)
Definition pipeline (datasetId : string) (p : Pipeline.t) : Prop :=
  Pipeline.dataset_id p = Some datasetId.

(** Experiments: some removed pipeline exists, and the experiment's
    lower-cased name contains that pipeline's first word or the part of the
    dataset's name before its first dot. *)
Definition experiment (st : Store.t) (datasetId : string) (d : Dataset.t)
    (e : Experiment.t) : Prop :=
  exists p, In p (Store.pipelines st) /\ pipeline datasetId p /\
    (contains (Js.toLowerCase (Experiment.name e)) (firstWord (Pipeline.name p)) \/
     contains (Js.toLowerCase (Experiment.name e)) (baseName (Dataset.name d))).

(** Alerts whose message mentions the dataset, a removed pipeline or a
    removed experiment by name. *)
Definition alert (st : Store.t) (datasetId : string) (d : Dataset.t)
    (a : Alert.t) : Prop :=
  mentions (Alert.message a) (Dataset.name d) \/
  (exists p, In p (Store.pipelines st) /\ pipeline datasetId p /\
             mentions (Alert.message a) (Pipeline.name p)) \/
  (exists e, In e (Store.experiments st) /\ experiment st datasetId d e /\
             mentions (Alert.message a) (Experiment.name e)).

(** Connections [c] such that the dataset's name contains
    ["{c.name} (External)"]. *)
Definition connection (d : Dataset.t) (c : ExternalConnection.t) : Prop :=
  contains (Dataset.name d) (ExternalConnection.name c ++ " (External)").

(** The cascade predicate as the specification words it: for experiments
    the dataset-name test stands beside the pipeline test, not under it. *)
Definition experiment_as_specified (st : Store.t) (datasetId : string)
    (d : Dataset.t) (e : Experiment.t) : Prop :=
  (exists p, In p (Store.pipelines st) /\ pipeline datasetId p /\
     contains (Js.toLowerCase (Experiment.name e)) (firstWord (Pipeline.name p))) \/
  contains (Js.toLowerCase (Experiment.name e)) (baseName (Dataset.name d)).

Definition alert_as_specified (st : Store.t) (datasetId : string) (d : Dataset.t)
    (a : Alert.t) : Prop :=
  mentions (Alert.message a) (Dataset.name d) \/
  (exists p, In p (Store.pipelines st) /\ pipeline datasetId p /\
             mentions (Alert.message a) (Pipeline.name p)) \/
  (exists e, In e (Store.experiments st) /\ experiment_as_specified st datasetId d e /\
             mentions (Alert.message a) (Experiment.name e)).

(** The first dataset of the store with the given id, as [Array.find]. *)
Definition lookupDataset (st : Store.t) (datasetId : string) : option Dataset.t :=
  List.find (fun d => String.eqb (Dataset.id d) datasetId) (Store.datasets st).

End Cascade.

(** ** What a list of ids selects

    The selection of [mergeDatasets], said without the filter: the
    datasets whose id is listed, each as often as it occurs among the
    datasets and in their order; the order and the repetitions of the ids
    do not matter. *)
Module Selection.

Inductive Selects (ids : list string) : list Dataset.t -> list Dataset.t -> Prop :=
| Selects_nil : Selects ids [] []
| Selects_take (d : Dataset.t) (all chosen : list Dataset.t) :
    In (Dataset.id d) ids -> Selects ids all chosen ->
    Selects ids (d :: all) (d :: chosen)
| Selects_skip (d : Dataset.t) (all chosen : list Dataset.t) :
    ~ In (Dataset.id d) ids -> Selects ids all chosen ->
    Selects ids (d :: all) chosen.

End Selection.

(** ** The persistent store adapter ([saveToStorage], [loadFromStorage])

    A JavaScript computation either returns or throws; [try { } catch { }]
    is [try_catch].  [localStorage] holds strings under string keys and may
    refuse a call: the host can block every access ([SecurityError]) and
    [setItem] can run out of quota ([QuotaExceededError]).  [JSON.stringify]
    and [JSON.parse] are the platform's: they are parameters of the model. *)
Module Storage.

Inductive result (A : Type) : Type :=
| Ok (a : A)
| Throw (error : string).
Arguments Ok {A} a.
Arguments Throw {A} error.

Definition bind {A B : Type} (c : result A) (k : A -> result B) : result B :=
  match c with
  | Ok a => k a
  | Throw e => Throw e
  end.

Definition try_catch {A : Type} (body : result A) (handler : string -> result A)
    : result A :=
  match body with
  | Ok a => Ok a
  | Throw e => handler e
  end.

Record LocalStorage := {
  items : gmap string string;
  blocked : bool;
  full : string -> string -> bool
}.

(** [localStorage.getItem(key)]: the stored string or [null]. *)
Definition getItem (key : string) (ls : LocalStorage) : result (option string) :=
  if blocked ls then Throw "SecurityError" else Ok (items ls !! key).

(** [localStorage.setItem(key, value)] *)
Definition setItem (key value : string) (ls : LocalStorage) : result LocalStorage :=
  if blocked ls then Throw "SecurityError"
  else if full ls key value then Throw "QuotaExceededError"
  else Ok {| items := <[key := value]> (items ls);
             blocked := blocked ls; full := full ls |}.

(** The browser state the two helpers touch: the storage and what
    [console.warn] has printed. *)
Record World := { localStorage : LocalStorage; console : list (string * string) }.

Definition warn (message error : string) (w : World) : World :=
  {| localStorage := localStorage w; console := console w ++ [(message, error)] |}.

Definition truthy := Js.truthy.

Section Adapter.
Variable JSON : Type.
Variable stringify : JSON -> result string.
Variable parse : string -> result JSON.

Definition saveToStorage (key : string) (data : JSON) (w : World) : result World :=
  try_catch
    (bind (stringify data) (fun text =>
     bind (setItem key text (localStorage w)) (fun ls =>
     Ok {| localStorage := ls; console := console w |})))
    (fun error => Ok (warn "Failed to save to localStorage:" error w)).

Definition loadFromStorage (key : string) (defaultValue : JSON) (w : World)
    : result (JSON * World) :=
  try_catch
    (bind (getItem key (localStorage w)) (fun saved =>
     match saved with
     | Some text =>
         if truthy text
         then bind (parse text) (fun value => Ok (value, w))
         else Ok (defaultValue, w)
     | None => Ok (defaultValue, w)
     end))
    (fun error => Ok (defaultValue, warn "Failed to load from localStorage:" error w)).

(** [X] is JSON-serializable: [JSON.stringify] returns a text that
    [JSON.parse] reads back as [X].  (A JSON text is never empty.) *)
Definition serializable (X : JSON) : Prop :=
  exists text, stringify X = Ok text /\ truthy text = true /\ parse text = Ok X.

(** The storage takes the write of [X] under [key] and allows reads. *)
Definition accepts (w : World) (key : string) (X : JSON) : Prop :=
  blocked (localStorage w) = false /\
  forall text, stringify X = Ok text -> full (localStorage w) key text = false.

End Adapter.

(** The fragment of JSON made of the literals [true] and [false], used to
    run the adapter. *)
Definition stringifyBool (b : bool) : result string :=
  Ok (if b then "true" else "false").

Definition parseBool (text : string) : result bool :=
  if String.eqb text "true" then Ok true
  else if String.eqb text "false" then Ok false
  else Throw "SyntaxError".

Definition emptyWorld : World :=
  {| localStorage := {| items := ∅; blocked := false; full := fun _ _ => false |};
     console := [] |}.

(** A storage out of quota that still holds an older item. *)
Definition fullWorld : World :=
  {| localStorage :=
       {| items := {[ "ml_dashboard_datasets" := "false" ]};
          blocked := false; full := fun _ _ => true |};
     console := [] |}.

End Storage.

(** ** The sync reconciler ([DataSyncProvider])

    One cycle of [triggerSync] runs in two synchronous stretches: up to
    [await Promise.allSettled(...)], and from there to the end.  What
    happens in between (other handlers updating [syncStatus]) is a list of
    events.  Each simulated call draws two random numbers: one for its
    latency, one for its failure. *)
Module Sync.
Import Storage.

Record SyncStatus := {
  isOnline : bool;
  lastSync : string;
  isSyncing : bool;
  pendingChanges : nat;
  syncErrors : list string
}.

(** The five collections, by the [dataType] string passed to
    [simulateServerSync], in the order [triggerSync] goes through them. *)
Inductive Collection := pipelines | datasets | alerts | experiments | external_connections.

Definition dataType (c : Collection) : string :=
  match c with
  | pipelines => "pipelines"
  | datasets => "datasets"
  | alerts => "alerts"
  | experiments => "experiments"
  | external_connections => "external_connections"
  end.

(** [mockData.<collection>.length] *)
Definition lengthOf (c : Collection) (mockData : Store.t) : nat :=
  match c with
  | pipelines => length (Store.pipelines mockData)
  | datasets => length (Store.datasets mockData)
  | alerts => length (Store.alerts mockData)
  | experiments => length (Store.experiments mockData)
  | external_connections => length (Store.externalConnections mockData)
  end.

(** The two [Math.random()] results of one [simulateServerSync] call. *)
Record Draw := { latency : Q; failure : Q }.

(** [simulateServerSync(dataType, data)]: the delay of its timer in
    milliseconds, and how the promise settles. *)
Definition simulateServerSync (c : Collection) (d : Draw) : Z * result unit :=
  (Qfloor (500 + latency d * 1000)%Q,
   if negb (Qle_bool (5 # 100) (failure d))
   then Throw (Js.template ["Failed to sync "; dataType c; ": Network timeout"])
   else Ok tt).

(** The calls pushed on [syncPromises]: one per non-empty collection. *)
Definition issuedCalls (mockData : Store.t) : list Collection :=
  List.filter (fun c => (0 <? lengthOf c mockData)%nat)
    [pipelines; datasets; alerts; experiments; external_connections].

(** Timers fire by increasing delay, and in creation order when delays are
    equal. *)
Fixpoint insertByDelay (x : Z * result unit) (l : list (Z * result unit))
    : list (Z * result unit) :=
  match l with
  | [] => [x]
  | y :: r => if (fst x <? fst y)%Z then x :: l else y :: insertByDelay x r
  end.

Definition completionOrder (settlements : list (Z * result unit))
    : list (Z * result unit) :=
  fold_left (fun done x => insertByDelay x done) settlements [].

(** What the [.catch(err => errors.push(err.message))] handlers leave in
    [errors] once [Promise.allSettled] resolves. *)
Definition collectErrors (settlements : list (Z * result unit)) : list string :=
  flat_map (fun x => match snd x with Throw message => [message] | Ok _ => [] end)
           (completionOrder settlements).

Definition cycleErrors (draws : Collection -> Draw) (mockData : Store.t) : list string :=
  collectErrors (map (fun c => simulateServerSync c (draws c)) (issuedCalls mockData)).

(** The host's clock and [new Date(text).getTime()] ([None] is [NaN]). *)
Record Host := { clock : Clock; getTime : string -> option Z }.

Definition lastAlertKey : string := "ml_dashboard_last_sync_alert".

Definition shouldShowSyncAlert (host : Host) (ls : LocalStorage) : result bool :=
  bind (getItem lastAlertKey ls) (fun lastSyncAlert =>
    match lastSyncAlert with
    | None => Ok true
    | Some text =>
        if truthy text then
          match getTime host text with
          | Some lastAlertTime =>
              Ok (24 * 60 * 60 * 1000 <=? Z.of_N (now_ms (clock host)) - lastAlertTime)%Z
          | None => Ok false
          end
        else Ok true
    end).

Definition markSyncAlertShown (host : Host) (ls : LocalStorage) : result LocalStorage :=
  setItem lastAlertKey (now_iso (clock host)) ls.

(** The provider's state: [syncStatus], its own [useMockData] instance and
    the browser's storage. *)
Record State := {
  syncStatus : SyncStatus;
  mockData : Store.t;
  browser : LocalStorage
}.

Definition setSyncStatus (f : SyncStatus -> SyncStatus) (st : State) : State :=
  {| syncStatus := f (syncStatus st); mockData := mockData st; browser := browser st |}.

(** [markDataChanged], [handleOnline] and [handleOffline] as updates of
    [syncStatus]. *)
Inductive Event := DataChanged | WentOnline | WentOffline.

Definition handle (e : Event) (prev : SyncStatus) : SyncStatus :=
  match e with
  | DataChanged =>
      {| isOnline := isOnline prev; lastSync := lastSync prev;
         isSyncing := isSyncing prev; pendingChanges := pendingChanges prev + 1;
         syncErrors := syncErrors prev |}
  | WentOnline =>
      {| isOnline := true; lastSync := lastSync prev; isSyncing := isSyncing prev;
         pendingChanges := pendingChanges prev; syncErrors := syncErrors prev |}
  | WentOffline =>
      {| isOnline := false; lastSync := lastSync prev; isSyncing := isSyncing prev;
         pendingChanges := pendingChanges prev; syncErrors := syncErrors prev |}
  end.

Definition during (events : list Event) (st : State) : State :=
  setSyncStatus (fun prev => fold_left (fun s e => handle e s) events prev) st.

(** How often [markDataChanged] ran among [events]. *)
Definition dataChanges (events : list Event) : nat :=
  length (List.filter (fun e => match e with DataChanged => true | _ => false end) events).

(** [setSyncStatus(prev => ({ ...prev, isSyncing: true, syncErrors: [] }))] *)
Definition started (prev : SyncStatus) : SyncStatus :=
  {| isOnline := isOnline prev; lastSync := lastSync prev; isSyncing := true;
     pendingChanges := pendingChanges prev; syncErrors := [] |}.

(** The update queued after [await Promise.allSettled(syncPromises)]. *)
Definition settled (host : Host) (errors : list string) (prev : SyncStatus) : SyncStatus :=
  {| isOnline := isOnline prev; lastSync := now_iso (clock host); isSyncing := false;
     pendingChanges := if (0 <? length errors)%nat then pendingChanges prev else 0%nat;
     syncErrors := errors |}.

(** The update queued by the [catch] block. *)
Definition caught (message : string) (prev : SyncStatus) : SyncStatus :=
  {| isOnline := isOnline prev; lastSync := lastSync prev; isSyncing := false;
     pendingChanges := pendingChanges prev;
     syncErrors := (syncErrors prev ++ [Js.template ["Sync failed: "; message]])%list |}.

Definition syncAlert (host : Host) : Alert.t :=
  {| Alert.id := Js.template ["sync_"; Js.ofN (now_ms (clock host))];
     Alert.type := Alert.performance;
     Alert.severity := Alert.low;
     Alert.message := "All data synchronized successfully";
     Alert.timestamp := now_iso (clock host);
     Alert.acknowledged := false |}.

(** The part of the [try] block after the [await]: an exception leaves the
    updates queued so far in place. *)
Definition afterSettled (host : Host) (errors : list string) (st : State)
    : State * option string :=
  let st1 := setSyncStatus (settled host errors) st in
  if (length errors =? 0)%nat then
    match shouldShowSyncAlert host (browser st1) with
    | Throw message => (st1, Some message)
    | Ok false => (st1, None)
    | Ok true =>
        let st2 :=
          {| syncStatus := syncStatus st1;
             mockData := Store.setAlerts (fun prev => syncAlert host :: prev) (mockData st1);
             browser := browser st1 |} in
        match markSyncAlertShown host (browser st2) with
        | Throw message => (st2, Some message)
        | Ok ls =>
            ({| syncStatus := syncStatus st2; mockData := mockData st2; browser := ls |},
             None)
        end
    end
  else (st1, None).

Definition completeSync (host : Host) (errors : list string) (st : State) : State :=
  match afterSettled host errors st with
  | (st', None) => st'
  | (st', Some message) => setSyncStatus (caught message) st'
  end.

(** [triggerSync()], called on the state [st] it closed over, with
    [events] arriving while the calls are in flight. *)
Definition triggerSync (host : Host) (draws : Collection -> Draw)
    (events : list Event) (st : State) : State :=
  if isSyncing (syncStatus st) then st
  else
    let errors := cycleErrors draws (mockData st) in
    completeSync host errors (during events (setSyncStatus started st)).

(** The state of [syncStatus] at the moment the cycle completes. *)
Definition beforeCompletion (events : list Event) (st : State) : SyncStatus :=
  syncStatus (during events (setSyncStatus started st)).

(** [simulateServerSync] rejects for this collection. *)
Definition fails (draws : Collection -> Draw) (c : Collection) : bool :=
  match snd (simulateServerSync c (draws c)) with
  | Throw _ => true
  | Ok _ => false
  end.

Definition failureMessage (c : Collection) : string :=
  Js.template ["Failed to sync "; dataType c; ": Network timeout"].

(** The order in which the calls of a cycle complete, said without the
    timer queue: by the delay of the call's timer, and for equal delays in
    the order in which [triggerSync] issued the calls. *)
Definition delay (draws : Collection -> Draw) (c : Collection) : Z :=
  fst (simulateServerSync c (draws c)).

Definition issueRank (c : Collection) : nat :=
  match c with
  | pipelines => 0
  | datasets => 1
  | alerts => 2
  | experiments => 3
  | external_connections => 4
  end.

Definition completesBefore (draws : Collection -> Draw) (c c' : Collection) : Prop :=
  (delay draws c < delay draws c')%Z \/
  (delay draws c = delay draws c' /\ (issueRank c < issueRank c')%nat).

End Sync.

(** ** The pipeline run simulator (the [Pipelines] view)

    The view keeps no record of its interval timers: the handle returned by
    [setInterval] lives in the closure of [handleStartPipeline] only.  The
    model lists the active timers so that [clearInterval] can be observed.
    One tick draws up to four random numbers for each pipeline it
    advances. *)
Module Simulator.
Local Open Scope Q_scope.

(** [timers !! h] is the interval with handle [h]: [Some (Some id)] while it
    runs for pipeline [id], [Some None] once cleared.  [setInterval]
    returns the next free handle. *)
Record View := {
  store : Store.t;
  timers : list (option string)
}.

Record TickDraws := { advance : Q; variability : Q; finalNoise : Q; drift : Q }.

(** The property names that every object inherits from [Object.prototype]
    (ECMAScript, Annex B included).  Looked up in an object literal they
    yield a function, or for [__proto__] the prototype object: a truthy
    value that is not a number. *)
Definition inheritedNames : list string :=
  ["constructor"; "__proto__"; "hasOwnProperty"; "isPrototypeOf";
   "propertyIsEnumerable"; "toLocaleString"; "toString"; "valueOf";
   "__defineGetter__"; "__defineSetter__"; "__lookupGetter__"; "__lookupSetter__"].

(** [p.algorithm || 'random_forest'] *)
Definition algorithmKey (algorithm : option string) : string :=
  match algorithm with
  | Some a => if Js.truthy a then a else "random_forest"
  | None => "random_forest"
  end.

(** The key names something that object literals inherit. *)
Definition inherited (algorithm : option string) : bool :=
  Js.arrayIncludes inheritedNames (algorithmKey algorithm).

(** [{ 'random_forest': ..., ... }[p.algorithm || 'random_forest'] || fallback]:
    the number of the table, the fallback for a key that the literal does
    not answer, and [None] for an inherited name, where the value is the
    inherited function or object and every arithmetic on it gives [NaN]
    (its product with a number; its sum with a number is a string, which
    [Math.min] turns into [NaN]). *)
Definition accuracyFor (table : list (string * Q)) (fallback : Q)
    (algorithm : option string) : option Q :=
  match List.find (fun entry => String.eqb (fst entry) (algorithmKey algorithm)) table with
  | Some (_, value) => Some (if Qeq_bool value 0 then fallback else value)
  | None => if inherited algorithm then None else Some fallback
  end.

Definition baseAccuracy : option string -> option Q :=
  accuracyFor
    [("random_forest", 85 # 100); ("logistic_regression", 78 # 100); ("svm", 82 # 100);
     ("gradient_boosting", 87 # 100); ("neural_network", 89 # 100);
     ("decision_tree", 76 # 100); ("naive_bayes", 73 # 100)]
    (8 # 10).

Definition finalBaseAccuracy : option string -> option Q :=
  accuracyFor
    [("random_forest", 89 # 100); ("logistic_regression", 82 # 100); ("svm", 85 # 100);
     ("gradient_boosting", 91 # 100); ("neural_network", 93 # 100);
     ("decision_tree", 79 # 100); ("naive_bayes", 76 # 100)]
    (85 # 100).

Definition isRunning (p : Pipeline.t) : bool :=
  match Pipeline.status p with
  | Pipeline.running => true
  | _ => false
  end.

(** The body of the [map] callback of a tick for a pipeline that is
    running and has the timer's id: the new record, and whether
    [clearInterval(interval)] was called. *)
Definition advancePipeline (clk : Clock) (d : TickDraws) (p : Pipeline.t)
    : Pipeline.t * bool :=
  let newProgress := Qmin 100 (Pipeline.progress p + advance d * 10) in
  let newAccuracy :=
    if negb (Qle_bool newProgress 20) then
      let progressFactor := (newProgress - 20) / 80 in
      let noise := (variability d - (5 # 10)) * (1 # 10) in
      match baseAccuracy (Pipeline.algorithm p) with
      | Some base =>
          Some (Num.Finite
                  (Qmax (5 # 10)
                     (Qmin (98 # 100)
                        (base * ((7 # 10) + (3 # 10) * progressFactor) + noise))))
      | None => Some Num.NaN
      end
    else Pipeline.model_accuracy p in
  if Qle_bool 100 newProgress then
    let finalAccuracy :=
      match finalBaseAccuracy (Pipeline.algorithm p) with
      | Some base =>
          Num.Finite
            (Qmax (75 # 100)
               (Qmin (98 # 100) (base + (finalNoise d - (5 # 10)) * (8 # 100))))
      | None => Num.NaN
      end in
    let driftScore := Qmax (2 # 100) (Qmin (35 # 100) (drift d * (25 # 100))) in
    (Pipeline.spread p Pipeline.completed 100 (Some finalAccuracy) (Some driftScore)
       (Some (now_iso clk)),
     true)
  else
    (Pipeline.spread p (Pipeline.status p) newProgress newAccuracy
       (Pipeline.data_drift_score p) (Pipeline.last_run p),
     false).

(** The [map] callback of a tick of the timer started for [id]. *)
Definition tickPipeline (clk : Clock) (id : string) (d : TickDraws) (p : Pipeline.t)
    : Pipeline.t * bool :=
  if String.eqb (Pipeline.id p) id && isRunning p then advancePipeline clk d p
  else (p, false).

(** One firing of the interval timer [h]: nothing when the timer has been
    cleared; otherwise [setPipelines(prev => prev.map(...))], where
    [rng i] are the draws for the pipeline at position [i]. *)
Definition tick (clk : Clock) (rng : nat -> TickDraws) (h : nat) (v : View) : View :=
  match timers v !! h with
  | Some (Some id) =>
      let results :=
        imap (fun i p => tickPipeline clk id (rng i) p) (Store.pipelines (store v)) in
      {| store := Store.setPipelines (fun _ => fst <$> results) (store v);
         timers := if existsb snd results then <[h := None]> (timers v) else timers v |}
  | _ => v
  end.

(** [handleStartPipeline(id)]: [snap] is the pipeline list of the render
    the handler closed over. *)
Definition handleStartPipeline (id : string) (snap : list Pipeline.t) (v : View) : View :=
  match List.find (fun p => String.eqb (Pipeline.id p) id) snap with
  | None => v
  | Some _ =>
      {| store :=
           Store.setPipelines
             (fmap (fun p =>
                if String.eqb (Pipeline.id p) id
                then Pipeline.spread p Pipeline.running 0 None
                       (Pipeline.data_drift_score p) (Pipeline.last_run p)
                else p))
             (store v);
         timers := (timers v ++ [Some id])%list |}
  end.

(** [handleStopPipeline(id)] *)
Definition handleStopPipeline (id : string) (v : View) : View :=
  {| store :=
       Store.setPipelines
         (fmap (fun p =>
            if String.eqb (Pipeline.id p) id
            then Pipeline.spread p Pipeline.idle (Pipeline.progress p)
                   (Pipeline.model_accuracy p) (Pipeline.data_drift_score p)
                   (Pipeline.last_run p)
            else p))
         (store v);
     timers := timers v |}.

(** [n] successive firings of timer [h]; firing number [k] uses the draws
    [rng k]. *)
Fixpoint run (clk : Clock) (rng : nat -> nat -> TickDraws) (h : nat) (k n : nat)
    (v : View) : View :=
  match n with
  | O => v
  | S n' => run clk rng h (S k) n' (tick clk (rng k) h v)
  end.





(** [Math.random()] returns a number in [0, 1). *)
Definition unit_interval (r : Q) : Prop := (0 <= r /\ r < 1)%Q.

Definition validDraws (d : TickDraws) : Prop :=
  unit_interval (advance d) /\ unit_interval (variability d) /\
  unit_interval (finalNoise d) /\ unit_interval (drift d).

(** The pipeline at position [i] is the only one with id [id]. *)
Definition onlyAt (id : string) (i : nat) (ps : list Pipeline.t) : Prop :=
  forall j q, ps !! j = Some q -> Pipeline.id q = id -> j = i.

(** The two states of a started simulator: timer [h] still drives the
    running pipeline at position [i], whose progress is at least [lo] and
    below 100; or the pipeline is completed and the timer cleared. *)
Definition Running (id : string) (i h : nat) (lo : Q) (v : View) : Prop :=
  exists p, Store.pipelines (store v) !! i = Some p /\ Pipeline.id p = id /\
    Pipeline.status p = Pipeline.running /\
    lo <= Pipeline.progress p /\ Pipeline.progress p < 100 /\
    timers v !! h = Some (Some id).



(** As [Running], with the progress bounded from above. *)
Definition RunningBelow (id : string) (i h : nat) (hi : Q) (v : View) : Prop :=
  exists p, Store.pipelines (store v) !! i = Some p /\ Pipeline.id p = id /\
    Pipeline.status p = Pipeline.running /\
    0 <= Pipeline.progress p /\ Pipeline.progress p <= hi /\
    timers v !! h = Some (Some id).

(** Draws that advance by [1 / (N + 2)] of the full step. *)
Definition slowDraws (N : nat) (k i : nat) : TickDraws :=
  {| advance := 1 # Pos.of_succ_nat (S N); variability := 0;
     finalNoise := 0; drift := 0 |}.

(** The handles of the timers still running for the pipeline [id]. *)
Definition activeTimers (id : string) (v : View) : list nat :=
  List.filter (fun h =>
      match timers v !! h with
      | Some (Some id') => String.eqb id' id
      | _ => false
      end)
    (seq 0 (length (timers v))).

End Simulator.

(** ** The experiment training simulator ([startModelTraining]) *)
Module Training.
Local Open Scope Q_scope.

Record Draws := { durationDraw : Q; accuracyDraw : Q; precisionDraw : Q; recallDraw : Q }.

(** [Math.max(0.7, Math.min(0.95, x + (r - 0.5) * spread))] *)
Definition perturb (x r spread : Q) : Q :=
  Qmax (7 # 10) (Qmin (95 # 100) (x + (r - (5 # 10)) * spread)).

(** [Math.round(x)]: the nearest integer, halves up. *)
Definition Math_round (x : Q) : Z := Qfloor (x + (1 # 2)).

(** The synchronous part of [startModelTraining(experimentId)]. *)
Definition startModelTraining (experimentId : string) (prev : Store.t) : Store.t :=
  Store.setExperiments
    (fmap (fun e =>
       if String.eqb (Experiment.id e) experimentId
       then Experiment.spread e Experiment.running (Experiment.duration e)
              (Experiment.metrics e)
       else e))
    prev.

(** The callback of its [setTimeout]. *)
Definition trainingCompleted (clk : Clock) (d : Draws) (experimentId : string)
    (prev : Store.t) : Store.t :=
  let s1 :=
    Store.setExperiments
      (fmap (fun e =>
         if String.eqb (Experiment.id e) experimentId
         then
           let m := Experiment.metrics e in
           Experiment.spread e Experiment.completed
             (Some (Math_round (180 + durationDraw d * 120)))
             {| Experiment.accuracy :=
                  perturb (Experiment.accuracy m) (accuracyDraw d) (1 # 10);
                Experiment.precision :=
                  perturb (Experiment.precision m) (precisionDraw d) (8 # 100);
                Experiment.recall :=
                  perturb (Experiment.recall m) (recallDraw d) (8 # 100);
                Experiment.f1_score := Experiment.f1_score m;
                Experiment.auc_roc := Experiment.auc_roc m;
                Experiment.training_time := Experiment.training_time m |}
         else e))
      prev in
  Store.setAlerts
    (fun prevAlerts =>
       Store.newAlert clk Alert.low "Model training completed successfully"
       :: prevAlerts)
    s1.

End Training.

(** ** Concrete stores used to exercise the model *)
Module Examples.

Definition clk0 : Clock :=
  {| now_ms := 1705827600000%N; now_iso := "2024-01-21T09:00:00.000Z" |}.

Definition pipeline (id name : string) (dataset_id : option string) : Pipeline.t :=
  {| Pipeline.id := id; Pipeline.name := name; Pipeline.description := None;
     Pipeline.status := Pipeline.idle; Pipeline.progress := 0%Q;
     Pipeline.created_at := "2024-01-19T16:20:00Z"; Pipeline.last_run := None;
     Pipeline.model_accuracy := None; Pipeline.data_drift_score := None;
     Pipeline.algorithm := Some "gradient_boosting"; Pipeline.dataset_id := dataset_id;
     Pipeline.hyperparameters := None; Pipeline.notifications := None;
     Pipeline.schedule := None; Pipeline.retries := None |}.

Definition dataset (id name : string) (size columns : Z) (null_percentage : Q)
    : Dataset.t :=
  {| Dataset.id := id; Dataset.name := name; Dataset.size := Num.ofZ size;
     Dataset.columns := Num.ofZ columns;
     Dataset.null_percentage := Num.Finite null_percentage;
     Dataset.created_at := "2024-01-15T10:30:00Z" |}.

Definition experiment (id name : string) : Experiment.t :=
  {| Experiment.id := id; Experiment.name := name;
     Experiment.status := Experiment.completed;
     Experiment.algorithm := "random_forest";
     Experiment.metrics :=
       {| Experiment.accuracy := 912 # 1000; Experiment.precision := 889 # 1000;
          Experiment.recall := 934 # 1000; Experiment.f1_score := 911 # 1000;
          Experiment.auc_roc := Some (95 # 100);
          Experiment.training_time := Some 245%Q |};
     Experiment.parameters := [("n_estimators", 150%Q)];
     Experiment.start_time := "2024-01-18T10:00:00Z";
     Experiment.duration := Some 245%Z; Experiment.isNew := None |}.

Definition alert (id message : string) : Alert.t :=
  {| Alert.id := id; Alert.type := Alert.performance; Alert.severity := Alert.low;
     Alert.message := message; Alert.timestamp := "2024-01-20T12:00:00Z";
     Alert.acknowledged := false |}.

Definition connection (id name : string) : ExternalConnection.t :=
  {| ExternalConnection.id := id; ExternalConnection.name := name;
     ExternalConnection.type := ExternalConnection.rest_api;
     ExternalConnection.url := "https://example.org/api";
     ExternalConnection.status := ExternalConnection.connected;
     ExternalConnection.lastSync := "2024-01-20T12:00:00Z";
     ExternalConnection.recordCount := 4200%Z;
     ExternalConnection.syncFrequency := "hourly";
     ExternalConnection.created_at := "2024-01-20T12:00:00Z" |}.

Definition sales : Dataset.t := dataset "dataset_1" "sales.csv" 1000 5 (25 # 10).
Definition customers : Dataset.t := dataset "dataset_2" "customer_data.csv" 125000 18 (32 # 10).
Definition forecasting : Pipeline.t :=
  pipeline "pipeline_1" "Sales Forecasting" (Some "dataset_1").
Definition churn : Pipeline.t :=
  pipeline "pipeline_2" "Customer Churn Prediction" (Some "dataset_2").
Definition salesModel : Experiment.t := experiment "experiment_1" "Sales model v1".
Definition churnModel : Experiment.t := experiment "experiment_2" "Customer Churn v2.1".

(** The alert [addDataset] wrote for [sales.csv], and an unrelated one. *)
Definition uploaded : Alert.t :=
  alert "alert_1"
    (Js.template ["Dataset "; Js.dquote; "sales.csv"; Js.dquote; " uploaded successfully"]).
Definition maintenance : Alert.t :=
  alert "alert_2" "Scheduled maintenance completed successfully".

(** A store in which every id is used once. *)
Definition shop : Store.t :=
  {| Store.pipelines := [forecasting; churn];
     Store.datasets := [sales; customers];
     Store.alerts := [uploaded; maintenance];
     Store.experiments := [salesModel; churnModel];
     Store.externalConnections := [connection "conn_1" "crm"] |}.

(** A dataset that no pipeline uses, next to an experiment named after it. *)
Definition unusedDataset : Store.t :=
  {| Store.pipelines := [churn];
     Store.datasets := [sales; customers];
     Store.alerts := [maintenance];
     Store.experiments := [salesModel];
     Store.externalConnections := [] |}.

(** The two alerts the pipeline creation form leaves behind: [addPipeline]
    and the form's own toast read [Date.now()] in the same millisecond. *)
Definition created : Alert.t :=
  alert "alert_1705827000000"
    (Js.template ["Pipeline "; Js.dquote; "Sales Forecasting"; Js.dquote;
                  " created successfully"]).
Definition toast : Alert.t :=
  alert "alert_1705827000000" "Pipeline created successfully!".

Definition sharedAlertId : Store.t :=
  {| Store.pipelines := [forecasting];
     Store.datasets := [sales];
     Store.alerts := [toast; created];
     Store.experiments := [];
     Store.externalConnections := [] |}.

(** A reconciler with three pending changes and an error left by the
    previous cycle. *)
Definition host0 : Sync.Host :=
  {| Sync.clock := clk0;
     Sync.getTime := fun text =>
       if String.eqb text "2024-01-21T09:00:00.000Z" then Some 1705827600000%Z
       else None |}.

Definition pending3 : Sync.SyncStatus :=
  {| Sync.isOnline := true; Sync.lastSync := "2024-01-21T08:00:00.000Z";
     Sync.isSyncing := false; Sync.pendingChanges := 3;
     Sync.syncErrors := ["Failed to sync alerts: Network timeout"] |}.

Definition reconciler : Sync.State :=
  {| Sync.syncStatus := pending3; Sync.mockData := shop;
     Sync.browser := Storage.localStorage Storage.emptyWorld |}.

(** The same reconciler in a browser that blocks [localStorage]. *)
Definition blockedReconciler : Sync.State :=
  {| Sync.syncStatus := pending3; Sync.mockData := shop;
     Sync.browser :=
       {| Storage.items := ∅; Storage.blocked := true;
          Storage.full := fun _ _ => false |} |}.

(** Draws under which every call succeeds, and draws under which the
    [datasets] and [alerts] calls fail, [alerts] first. *)
Definition calm (c : Sync.Collection) : Sync.Draw :=
  {| Sync.latency := 1 # 2; Sync.failure := 1 # 2 |}.

Definition flaky (c : Sync.Collection) : Sync.Draw :=
  match c with
  | Sync.datasets => {| Sync.latency := 9 # 10; Sync.failure := 1 # 100 |}
  | Sync.alerts => {| Sync.latency := 1 # 10; Sync.failure := 4 # 100 |}
  | _ => {| Sync.latency := 1 # 2; Sync.failure := 1 # 2 |}
  end.

(** The Pipelines view on the [shop] store, no timer running. *)
Definition view0 : Simulator.View :=
  {| Simulator.store := shop; Simulator.timers := [] |}.

(** [Sales Forecasting] started from [view0]: timer 0 drives it. *)
Definition started : Simulator.View :=
  Simulator.handleStartPipeline "pipeline_1" (Store.pipelines shop) view0.

(** Draws that advance by 9.5 points a tick, and draws that do not advance
    at all. *)
Definition brisk (k i : nat) : Simulator.TickDraws :=
  {| Simulator.advance := 95 # 100; Simulator.variability := 1 # 2;
     Simulator.finalNoise := 1 # 2; Simulator.drift := 1 # 2 |}.


Definition trainingDraws : Training.Draws :=
  {| Training.durationDraw := 1 # 2; Training.accuracyDraw := 1 # 2;
     Training.precisionDraw := 1 # 2; Training.recallDraw := 1 # 2 |}.

End Examples.

(** ** The other operations of the entity store ([useMockData])

    As before, [snap] is the state the handler closed over and [prev] the
    state its queued updates act on.  Writing the collections to
    [localStorage] is the work of the effects modelled in [Storage]; it does
    not change the collections. *)
Module Crud.
Import Store.
Local Open Scope Q_scope.

(** [!pipeline.dataset_id]: the field is absent or the empty string. *)
Definition noDataset (p : Pipeline.t) : bool :=
  match Pipeline.dataset_id p with
  | Some d => negb (Js.truthy d)
  | None => true
  end.

Definition withDataset (p : Pipeline.t) (dataset_id' : option string) : Pipeline.t :=
  {| Pipeline.id := Pipeline.id p; Pipeline.name := Pipeline.name p;
     Pipeline.description := Pipeline.description p;
     Pipeline.status := Pipeline.status p; Pipeline.progress := Pipeline.progress p;
     Pipeline.created_at := Pipeline.created_at p;
     Pipeline.last_run := Pipeline.last_run p;
     Pipeline.model_accuracy := Pipeline.model_accuracy p;
     Pipeline.data_drift_score := Pipeline.data_drift_score p;
     Pipeline.algorithm := Pipeline.algorithm p;
     Pipeline.dataset_id := dataset_id';
     Pipeline.hyperparameters := Pipeline.hyperparameters p;
     Pipeline.notifications := Pipeline.notifications p;
     Pipeline.schedule := Pipeline.schedule p;
     Pipeline.retries := Pipeline.retries p |}.

(** [addPipeline(pipeline)]: the pipeline it returns (the argument, after
    the assignment to its [dataset_id]) and the store. *)
Definition addPipeline (clk : Clock) (pipeline : Pipeline.t) (snap prev : t)
    : Pipeline.t * t :=
  let pipeline' :=
    match datasets snap with
    | first :: _ =>
        if noDataset pipeline then withDataset pipeline (Some (Dataset.id first))
        else pipeline
    | [] => pipeline
    end in
  let s1 := setPipelines (fun prevPipelines => pipeline' :: prevPipelines) prev in
  let s2 :=
    setAlerts (fun prevAlerts =>
      newAlert clk Alert.low
        (Js.template ["Pipeline "; Js.dquote; Pipeline.name pipeline'; Js.dquote;
                      " created successfully"])
      :: prevAlerts) s1 in
  (pipeline', s2).

(** [deletePipeline(pipelineId)] *)
Definition deletePipeline (clk : Clock) (pipelineId : string) (prev : t) : t :=
  setAlerts (fun prevAlerts =>
      newAlert clk Alert.low "Pipeline deleted successfully" :: prevAlerts)
    (setPipelines
       (List.filter (fun p => negb (String.eqb (Pipeline.id p) pipelineId))) prev).

(** [deleteExperiment(experimentId)] *)
Definition deleteExperiment (clk : Clock) (experimentId : string) (prev : t) : t :=
  setAlerts (fun prevAlerts =>
      newAlert clk Alert.low "Model deleted successfully" :: prevAlerts)
    (setExperiments
       (List.filter (fun e => negb (String.eqb (Experiment.id e) experimentId))) prev).

(** [Math.round(x)] and [Math.floor(x)] *)
Definition Math_round (x : Q) : Z := Qfloor (x + (1 # 2)).
Definition Math_floor (x : Q) : Z := Qfloor x.

(** [useDataSync()]: the value of the enclosing [DataSyncProvider], and an
    exception where there is none ([useContext] returns [undefined]).  Of
    the context only [markDataChanged] is used here, an update of the
    provider's [syncStatus]. *)
Record DataSyncContext := { markDataChanged : Sync.SyncStatus -> Sync.SyncStatus }.

Definition provided : DataSyncContext :=
  {| markDataChanged := Sync.handle Sync.DataChanged |}.

Definition useDataSync (context : option DataSyncContext)
    : Storage.result DataSyncContext :=
  match context with
  | Some c => Storage.Ok c
  | None => Storage.Throw "useDataSync must be used within DataSyncProvider"
  end.

(** The [try { dataSync = useDataSync() } catch { dataSync = null }] at the
    head of [useMockData]. *)
Definition dataSync (context : option DataSyncContext) : option DataSyncContext :=
  match useDataSync context with
  | Storage.Ok c => Some c
  | Storage.Throw _ => None
  end.

(** [addDataset(newDataset)]: the upload form passes a name, a row count and
    a column count; [nullDraw] is the result of [Math.random()], [context]
    what [useContext] finds and [sync] the provider's [syncStatus], on
    which [if (dataSync) dataSync.markDataChanged()] acts. *)
Record NewDataset := { nd_name : string; nd_size : Num.number; nd_columns : Num.number }.

Definition addDataset (clk : Clock) (nullDraw : Q) (context : option DataSyncContext)
    (newDataset : NewDataset) (prev : t) (sync : Sync.SyncStatus)
    : Dataset.t * t * Sync.SyncStatus :=
  let dataset :=
    {| Dataset.id := Js.template ["dataset_"; Js.ofN (now_ms clk)];
       Dataset.name := nd_name newDataset;
       Dataset.size := nd_size newDataset;
       Dataset.columns := nd_columns newDataset;
       Dataset.null_percentage :=
         Num.Finite (inject_Z (Math_round (nullDraw * 10 * 100)) / 100);
       Dataset.created_at := now_iso clk |} in
  let s1 := setDatasets (fun prevDatasets => dataset :: prevDatasets) prev in
  let sync' :=
    match dataSync context with
    | Some c => markDataChanged c sync
    | None => sync
    end in
  let s2 :=
    setAlerts (fun prevAlerts =>
      newAlert clk Alert.low
        (Js.template ["Dataset "; Js.dquote; nd_name newDataset; Js.dquote;
                      " uploaded successfully"])
      :: prevAlerts) s1 in
  (dataset, s2, sync').

(** The fields of [connectionData] that [addExternalConnection] reads, and
    its three [Math.random()] results. *)
Record ConnectionData := {
  cd_name : string;
  cd_type : ExternalConnection.Kind;
  cd_url : string;
  cd_syncFrequency : string
}.

Record ConnectionDraws := { recordDraw : Q; columnsDraw : Q; nullDraw : Q }.

(** The name of the dataset that stands for a connection. *)
Definition shadowName (connectionName : string) : string :=
  Js.template [connectionName; " (External)"].

Definition newConnection (clk : Clock) (d : ConnectionDraws) (connectionData : ConnectionData)
    : ExternalConnection.t :=
  {| ExternalConnection.id := Js.template ["conn_"; Js.ofN (now_ms clk)];
     ExternalConnection.name := cd_name connectionData;
     ExternalConnection.type := cd_type connectionData;
     ExternalConnection.url := cd_url connectionData;
     ExternalConnection.status := ExternalConnection.connected;
     ExternalConnection.lastSync := now_iso clk;
     ExternalConnection.recordCount := (Math_floor (recordDraw d * 100000) + 1000)%Z;
     ExternalConnection.syncFrequency := cd_syncFrequency connectionData;
     ExternalConnection.created_at := now_iso clk |}.

Definition shadowDataset (clk : Clock) (d : ConnectionDraws) (connectionData : ConnectionData)
    : Dataset.t :=
  {| Dataset.id := Js.template ["dataset_"; Js.ofN (now_ms clk)];
     Dataset.name := shadowName (cd_name connectionData);
     Dataset.size :=
       Num.ofZ (ExternalConnection.recordCount (newConnection clk d connectionData));
     Dataset.columns := Num.ofZ (Math_floor (columnsDraw d * 20) + 5);
     Dataset.null_percentage := Num.Finite (nullDraw d * 5);
     Dataset.created_at := now_iso clk |}.

(** [addExternalConnection(connectionData)] *)
Definition addExternalConnection (clk : Clock) (d : ConnectionDraws)
    (connectionData : ConnectionData) (prev : t) : ExternalConnection.t * t :=
  let connection := newConnection clk d connectionData in
  let s1 := setExternalConnections (fun prevConnections => connection :: prevConnections) prev in
  let s2 :=
    setDatasets (fun prevDatasets => shadowDataset clk d connectionData :: prevDatasets) s1 in
  let s3 :=
    setAlerts (fun prevAlerts =>
      newAlert clk Alert.low
        (Js.template ["External connection "; Js.dquote; cd_name connectionData;
                      Js.dquote; " created successfully"])
      :: prevAlerts) s2 in
  (connection, s3).

(** [deleteExternalConnection(connectionId)] *)
Definition deleteExternalConnection (clk : Clock) (connectionId : string) (snap prev : t)
    : t :=
  let s1 :=
    setExternalConnections
      (List.filter (fun c => negb (String.eqb (ExternalConnection.id c) connectionId)))
      prev in
  match List.find (fun c => String.eqb (ExternalConnection.id c) connectionId)
                  (externalConnections snap) with
  | None => s1
  | Some connection =>
      let s2 :=
        setDatasets
          (List.filter (fun d =>
             negb (String.eqb (Dataset.name d)
                              (shadowName (ExternalConnection.name connection)))))
          s1 in
      setAlerts (fun prevAlerts =>
          newAlert clk Alert.low
            (Js.template ["External connection "; Js.dquote;
                          ExternalConnection.name connection; Js.dquote;
                          " deleted successfully"])
          :: prevAlerts) s2
  end.

(** The settings object of the pipeline settings form and
    [updatePipelineSettings(pipelineId, settings)]:
    [{ ...p, ...settings }] for the pipelines with that id. *)
Record Settings := {
  set_name : string;
  set_description : string;
  set_algorithm : string;
  set_hyperparameters : list (string * Q);
  set_notifications : Pipeline.Notifications;
  set_schedule : Pipeline.Schedule;
  set_retries : Pipeline.Retries
}.

Definition applySettings (settings : Settings) (p : Pipeline.t) : Pipeline.t :=
  {| Pipeline.id := Pipeline.id p; Pipeline.name := set_name settings;
     Pipeline.description := Some (set_description settings);
     Pipeline.status := Pipeline.status p; Pipeline.progress := Pipeline.progress p;
     Pipeline.created_at := Pipeline.created_at p;
     Pipeline.last_run := Pipeline.last_run p;
     Pipeline.model_accuracy := Pipeline.model_accuracy p;
     Pipeline.data_drift_score := Pipeline.data_drift_score p;
     Pipeline.algorithm := Some (set_algorithm settings);
     Pipeline.dataset_id := Pipeline.dataset_id p;
     Pipeline.hyperparameters := Some (set_hyperparameters settings);
     Pipeline.notifications := Some (set_notifications settings);
     Pipeline.schedule := Some (set_schedule settings);
     Pipeline.retries := Some (set_retries settings) |}.

Definition updatePipelineSettings (clk : Clock) (pipelineId : string)
    (settings : Settings) (prev : t) : t :=
  setAlerts (fun prevAlerts =>
      newAlert clk Alert.low "Pipeline settings updated successfully" :: prevAlerts)
    (setPipelines
       (fmap (fun p =>
          if String.eqb (Pipeline.id p) pipelineId then applySettings settings p else p))
       prev).

End Crud.

(** ** Column-name inference ([analyzeDatasetColumns])

    The function's result after its 500 ms delay.  [hash << 5] works on
    32-bit integers; the additions around it are exact on the integers the
    loop can reach (texts shorter than two million characters keep the hash
    below 2^53).  [Number.prototype.toString] is the platform's: a
    parameter. *)
Module Columns.

(** [ToInt32] *)
Definition toInt32 (z : Z) : Z :=
  let m := (z mod 2 ^ 32)%Z in
  if (m <? 2 ^ 31)%Z then m else (m - 2 ^ 32)%Z.

(** [((hash << 5) - hash) + char.charCodeAt(0)] *)
Definition hashStep (hash : Z) (char : ascii) : Z :=
  (toInt32 (toInt32 hash * 32) - hash + Z.of_nat (nat_of_ascii char))%Z.

(** [text.split('').reduce(step, hash)] *)
Fixpoint hashFrom (hash : Z) (text : string) : Z :=
  match text with
  | EmptyString => hash
  | String char rest => hashFrom (hashStep hash char) rest
  end.

Definition customer : list string :=
  ["customer_id"; "name"; "email"; "age"; "created_at"; "last_login";
   "purchase_amount"; "category"; "status"; "location"; "score"; "loyalty_tier";
   "churn_risk"; "lifetime_value"].
Definition sales : list string :=
  ["order_id"; "product_id"; "customer_id"; "quantity"; "price"; "discount";
   "total_amount"; "order_date"; "category"; "region"; "sales_rep"; "payment_method"].
Definition financial : list string :=
  ["transaction_id"; "account_id"; "amount"; "transaction_type"; "timestamp";
   "merchant"; "category"; "balance"; "risk_score"; "fraud_flag"; "location"].
Definition product : list string :=
  ["product_id"; "name"; "description"; "category"; "price"; "cost"; "inventory";
   "supplier"; "rating"; "reviews_count"; "launch_date"; "status"].
Definition marketing : list string :=
  ["campaign_id"; "user_id"; "impression_id"; "click_through"; "conversion";
   "cost_per_click"; "channel"; "device"; "demographics"; "engagement_score"].
Definition sensor : list string :=
  ["sensor_id"; "timestamp"; "temperature"; "humidity"; "pressure"; "vibration";
   "status"; "location"; "device_type"; "battery_level"].
Definition default : list string :=
  ["id"; "name"; "value"; "category"; "timestamp"; "status"; "type"; "description";
   "score"; "level"].

Definition columnSets : list (list string) :=
  [customer; sales; financial; product; marketing; sensor; default].

(** The [if ... else if ...] chain over [dataset.name.toLowerCase()]. *)
Definition selectedColumns (datasetName : string) : list string :=
  let name := Js.toLowerCase datasetName in
  if Js.includes name "customer" || Js.includes name "user" || Js.includes name "churn"
  then customer
  else if Js.includes name "sales" || Js.includes name "order"
          || Js.includes name "revenue"
  then sales
  else if Js.includes name "financial" || Js.includes name "transaction"
          || Js.includes name "fraud"
  then financial
  else if Js.includes name "product" || Js.includes name "inventory"
  then product
  else if Js.includes name "marketing" || Js.includes name "campaign"
          || Js.includes name "ad"
  then marketing
  else if Js.includes name "sensor" || Js.includes name "iot"
          || Js.includes name "device"
  then sensor
  else default.

Definition suffixVariants : list string :=
  ["_score"; "_rate"; "_count"; "_flag"; "_level"; "_index"; "_value"; "_code"].

(** The name pushed at step [i] of the loop. *)
Definition columnName (bank : list string) (datasetHash : Z) (i : nat) : string :=
  match nth_error bank i with
  | Some name => name
  | None =>
      let suffix :=
        nth (Z.to_nat (Z.abs (datasetHash + Z.of_nat i) mod 8)) suffixVariants
            EmptyString in
      Js.template ["feature_"; Js.ofNat (i + 1); suffix]
  end.

(** How often [for (let i = 0; i < columns; i++)] runs: [None] when it
    never stops. *)
Definition iterations (columns : Num.number) : option nat :=
  match columns with
  | Num.NaN | Num.NegInfinity => Some 0%nat
  | Num.PosInfinity => None
  | Num.Finite q => Some (Z.to_nat (Qceiling q))
  end.

Section Analyze.
Variable toString : Num.number -> string.

Definition datasetHash (dataset : Dataset.t) : Z :=
  hashFrom 0
    (Js.template [Dataset.id dataset; Dataset.name dataset;
                  toString (Dataset.size dataset)]).

Definition analyzeDatasetColumns (dataset : Dataset.t) : option (list string) :=
  match iterations (Dataset.columns dataset) with
  | Some n =>
      Some (map (columnName (selectedColumns (Dataset.name dataset))
                            (datasetHash dataset))
                (seq 0 n))
  | None => None
  end.

End Analyze.

(** [toString] on the integers (all that the examples need); other
    finite values are printed by their integer part. *)
Definition integerToString (x : Num.number) : string :=
  match x with
  | Num.NaN => "NaN"
  | Num.PosInfinity => "Infinity"
  | Num.NegInfinity => "-Infinity"
  | Num.Finite q =>
      if (Qfloor q <? 0)%Z
      then Js.template ["-"; Js.ofN (Z.to_N (- Qfloor q))]
      else Js.ofN (Z.to_N (Qfloor q))
  end.

End Columns.

(** ** The reconciler's other triggers ([DataSyncProvider])

    The effect that watches the five collection lengths, the 30-second
    interval and the [online] listener. *)
Module Reconciler.
Import Sync.

Definition collections : list Collection :=
  [pipelines; datasets; alerts; experiments; external_connections].

(** The dependency array of the watching effect. *)
Definition lengths (mockData : Store.t) : list nat :=
  map (fun c => lengthOf c mockData) collections.

Definition sameLengths (before after : Store.t) : bool :=
  forallb (fun c => Nat.eqb (lengthOf c before) (lengthOf c after)) collections.

(** The watching effect between two renders: [markDataChanged()] runs when
    one of the lengths differs. *)
Definition watcher (before after : Store.t) (prev : SyncStatus) : SyncStatus :=
  if sameLengths before after then prev else handle DataChanged prev.

(** The callback of the 30-second interval. *)
Definition autoSync (host : Host) (draws : Collection -> Draw) (events : list Event)
    (st : State) : State :=
  if (0 <? pendingChanges (syncStatus st))%nat
     && negb (isSyncing (syncStatus st)) && isOnline (syncStatus st)
  then triggerSync host draws events st
  else st.

(** [handleOnline]: its update of [isOnline], then [triggerSync()] when the
    render it closed over had pending changes. *)
Definition handleOnline (host : Host) (draws : Collection -> Draw) (events : list Event)
    (st : State) : State :=
  let st1 := setSyncStatus (handle WentOnline) st in
  if (0 <? pendingChanges (syncStatus st))%nat
  then triggerSync host draws events st1
  else st1.

(** One firing of the interval followed by the render in which the
    watching effect sees what the cycle did to the collections. *)
Definition autoSyncRound (host : Host) (draws : Collection -> Draw) (st : State) : State :=
  let st' := autoSync host draws [] st in
  setSyncStatus (watcher (mockData st) (mockData st')) st'.

(** The storage lets the reconciler read and write. *)
Definition storageWorks (st : State) : Prop :=
  Storage.blocked (browser st) = false /\
  forall key value, Storage.full (browser st) key value = false.

End Reconciler.

(** ** The status bar ([formatLastSync])

    [date.toLocaleDateString()] is the platform's: a parameter. *)
Module StatusBar.

Inductive Age :=
| JustNow
| MinutesAgo (diffMins : Z)
| HoursAgo (hours : Z)
| OnDate.

(** The branch [formatLastSync] takes, from the two [getTime()] values. *)
Definition age (now date : Z) : Age :=
  let diffMs := (now - date)%Z in
  let diffMins := (diffMs / 60000)%Z in
  if (diffMins <? 1)%Z then JustNow
  else if (diffMins <? 60)%Z then MinutesAgo diffMins
  else if (diffMins <? 1440)%Z then HoursAgo (diffMins / 60)
  else OnDate.

Definition formatLastSync (toLocaleDateString : Z -> string) (now date : Z) : string :=
  match age now date with
  | JustNow => "Just now"
  | MinutesAgo diffMins => Js.template [Js.ofN (Z.to_N diffMins); "m ago"]
  | HoursAgo hours => Js.template [Js.ofN (Z.to_N hours); "h ago"]
  | OnDate => toLocaleDateString date
  end.

End StatusBar.

(** ** The model comparison ([getBestModel]) *)
Module Comparison.
Local Open Scope Q_scope.

Inductive Metric := accuracy | precision | recall | f1_score | auc_roc | training_time.

(** [model.metrics[metric]]: [None] is [undefined]. *)
Definition metricOf (metric : Metric) (model : Experiment.t) : option Q :=
  match metric with
  | accuracy => Some (Experiment.accuracy (Experiment.metrics model))
  | precision => Some (Experiment.precision (Experiment.metrics model))
  | recall => Some (Experiment.recall (Experiment.metrics model))
  | f1_score => Some (Experiment.f1_score (Experiment.metrics model))
  | auc_roc => Experiment.auc_roc (Experiment.metrics model)
  | training_time => Experiment.training_time (Experiment.metrics model)
  end.

Definition Qlt_bool (x y : Q) : bool := negb (Qle_bool y x).

(** [x < y] on values that may be [undefined]: a comparison with
    [undefined] is false. *)
Definition lessThan (x y : option Q) : bool :=
  match x, y with
  | Some a, Some b => Qlt_bool a b
  | _, _ => false
  end.

(** The callback of [reduce]: lower is better for the training time,
    higher for the other metrics. *)
Definition pick (metric : Metric) (best model : Experiment.t) : Experiment.t :=
  match metric with
  | training_time =>
      if lessThan (metricOf metric model) (metricOf metric best) then model else best
  | _ =>
      if lessThan (metricOf metric best) (metricOf metric model) then model else best
  end.

(** [getBestModel(metric)] on the array [selectedModels] as it stands at
    the call: [None] is [null]. *)
Definition getBestModel (metric : Metric) (selectedModels : list Experiment.t)
    : option Experiment.t :=
  match selectedModels with
  | [] => None
  | first :: rest => Some (fold_left (pick metric) rest first)
  end.

(** Both models have the metric, and [a] is at least as good as [b] on
    it. *)
Definition atLeastAsGood (metric : Metric) (a b : Experiment.t) : Prop :=
  exists x y, metricOf metric a = Some x /\ metricOf metric b = Some y /\
    match metric with
    | training_time => x <= y
    | _ => y <= x
    end.

Definition strictlyBetter (metric : Metric) (a b : Experiment.t) : Prop :=
  exists x y, metricOf metric a = Some x /\ metricOf metric b = Some y /\
    match metric with
    | training_time => x < y
    | _ => y < x
    end.

End Comparison.

(** ** The alerts view ([handleAcknowledge], [handleDismiss]) *)
Module AlertsView.

Definition acknowledge (a : Alert.t) : Alert.t :=
  {| Alert.id := Alert.id a; Alert.type := Alert.type a;
     Alert.severity := Alert.severity a; Alert.message := Alert.message a;
     Alert.timestamp := Alert.timestamp a; Alert.acknowledged := true |}.

Definition handleAcknowledge (alertId : string) (prev : list Alert.t) : list Alert.t :=
  fmap (fun alert => if String.eqb (Alert.id alert) alertId then acknowledge alert else alert)
       prev.

Definition handleDismiss (alertId : string) (prev : list Alert.t) : list Alert.t :=
  List.filter (fun alert => negb (String.eqb (Alert.id alert) alertId)) prev.

Definition activeAlerts (alerts : list Alert.t) : list Alert.t :=
  List.filter (fun alert => negb (Alert.acknowledged alert)) alerts.

Definition acknowledgedAlerts (alerts : list Alert.t) : list Alert.t :=
  List.filter (fun alert => Alert.acknowledged alert) alerts.

End AlertsView.

(** ** The session ([AuthProvider]: [login], [logout])

    [login] as the state it leaves and how its promise settles. *)
Module Auth.
Import Storage.

Inductive Role := admin | viewer.
Record User := {
  id : string;
  email : string;
  name : string;
  role : Role;
  avatar : option string
}.

Definition mockUsers : list User :=
  [ {| id := "1"; email := "admin@mlpipeline.com"; name := "Admin User"; role := admin;
       avatar := Some "https://images.pexels.com/photos/220453/pexels-photo-220453.jpeg?w=100&h=100&fit=crop&crop=face" |};
    {| id := "2"; email := "viewer@mlpipeline.com"; name := "Jane Smith"; role := viewer;
       avatar := Some "https://images.pexels.com/photos/415829/pexels-photo-415829.jpeg?w=100&h=100&fit=crop&crop=face" |} ].

Record Session := { user : option User; isLoading : bool; storage : LocalStorage }.

Definition userKey : string := "ml_dashboard_user".

(** [localStorage.removeItem(key)] *)
Definition removeItem (key : string) (ls : LocalStorage) : result LocalStorage :=
  if blocked ls then Throw "SecurityError"
  else Ok {| items := delete key (items ls); blocked := blocked ls; full := full ls |}.

Definition acceptedPassword (password : string) : bool :=
  String.eqb password "admin123" || String.eqb password "viewer123".

Section Login.
Variable stringify : User -> string.

(** [login(email, password)]: the session afterwards, and [true], [false]
    or the exception of the promise. *)
Definition login (email password : string) (s : Session) : Session * result bool :=
  match List.find (fun u => String.eqb (Auth.email u) email) mockUsers with
  | Some foundUser =>
      if acceptedPassword password then
        match setItem userKey (stringify foundUser) (storage s) with
        | Ok ls =>
            ({| user := Some foundUser; isLoading := false; storage := ls |}, Ok true)
        | Throw error =>
            ({| user := Some foundUser; isLoading := true; storage := storage s |},
             Throw error)
        end
      else ({| user := user s; isLoading := false; storage := storage s |}, Ok false)
  | None => ({| user := user s; isLoading := false; storage := storage s |}, Ok false)
  end.

End Login.

(** [logout()] *)
Definition logout (s : Session) : Session * result unit :=
  match removeItem userKey (storage s) with
  | Ok ls => ({| user := None; isLoading := isLoading s; storage := ls |}, Ok tt)
  | Throw error =>
      ({| user := None; isLoading := isLoading s; storage := storage s |}, Throw error)
  end.

End Auth.

(** ** The progress bar ([ProgressBar])

    [Math.min(100, Math.max(0, (value / max) * 100))], with the division by
    zero of JavaScript written out. *)
Module ProgressBar.
Local Open Scope Q_scope.

Definition percentage (value max : Q) : Num.number :=
  if Qeq_bool max 0 then
    match value ?= 0 with
    | Gt => Num.Finite 100
    | Lt => Num.Finite 0
    | Eq => Num.NaN
    end
  else Num.Finite (Qmin 100 (Qmax 0 (value / max * 100))).

End ProgressBar.

(** ** The merge dialog ([MergeDatasetModal]) and its caller

    The data view passes [datasets.filter(d => selectedDatasets.has(d.id))]
    and [mergeDatasets]; the dialog previews three totals and, on
    confirmation, calls [onMerge(selectedDatasets.map(d => d.id), name)]. *)
Module MergeModal.

(** The dialog's [selectedDatasets] property, for the selection [has]. *)
Definition selection (has : string -> bool) (st : Store.t) : list Dataset.t :=
  List.filter (fun d => has (Dataset.id d)) (Store.datasets st).

Definition totalRows (selected : list Dataset.t) : Num.number :=
  fold_left (fun sum d => Num.add sum (Dataset.size d)) selected (Num.ofZ 0).

Definition totalColumns (selected : list Dataset.t) : Num.number :=
  Num.Math_max (map Dataset.columns selected).

Definition avgMissingData (selected : list Dataset.t) : Num.number :=
  Num.divLength
    (fold_left (fun sum d => Num.add sum (Dataset.null_percentage d)) selected (Num.ofZ 0))
    (length selected).

(** The call at the end of [handleStartMerge]: the dialog's properties are
    those of the render [snap] in which the merge was started, the
    functional updates apply to the state [prev] six seconds later. *)
Definition handleStartMerge (clk : Clock) (has : string -> bool) (name : string)
    (snap prev : Store.t) : Dataset.t * Store.t :=
  Store.mergeDatasets clk (map Dataset.id (selection has snap)) name snap prev.

End MergeModal.

(** ** The Pipelines view's other handlers

    [confirmDelete] calls the store's [deletePipeline] from the view that
    also owns the timers. *)
Module PipelinesView.
Import Simulator.

(** [confirmDelete()], with the state [pipelineToDelete]. *)
Definition confirmDelete (clk : Clock) (pipelineToDelete : option string) (v : View) : View :=
  match pipelineToDelete with
  | Some id =>
      if Js.truthy id
      then {| store := Crud.deletePipeline clk id (store v); timers := timers v |}
      else v
  | None => v
  end.

End PipelinesView.

(** ** The Data view's selection

    The view keeps a [Set] of selected dataset ids beside its instance of
    the store.  As elsewhere, [snap] is the store of the render whose
    handler runs. *)
Module DataView.

Record View := {
  store : Store.t;
  selectedDatasets : gset string
}.

(** [handleSelectDataset(datasetId)] *)
Definition handleSelectDataset (datasetId : string) (v : View) : View :=
  {| store := store v;
     selectedDatasets :=
       if decide (datasetId ∈ selectedDatasets v)
       then selectedDatasets v ∖ {[ datasetId ]}
       else selectedDatasets v ∪ {[ datasetId ]} |}.

(** [handleSelectAll()] *)
Definition handleSelectAll (v : View) : View :=
  {| store := store v;
     selectedDatasets :=
       if (size (selectedDatasets v) =? length (Store.datasets (store v)))%nat
       then ∅
       else list_to_set (map Dataset.id (Store.datasets (store v))) |}.

(** [confirmDelete()], with the state [datasetToDelete]. *)
Definition confirmDelete (clk : Clock) (datasetToDelete : option string)
    (snap : Store.t) (v : View) : View :=
  match datasetToDelete with
  | Some id =>
      if Js.truthy id
      then {| store := Store.deleteDataset clk id snap (store v);
              selectedDatasets := selectedDatasets v ∖ {[ id ]} |}
      else v
  | None => v
  end.

(** [confirmDeleteConnection()], with the state [connectionToDelete]. *)
Definition confirmDeleteConnection (clk : Clock) (connectionToDelete : option string)
    (snap : Store.t) (v : View) : View :=
  match connectionToDelete with
  | Some id =>
      if Js.truthy id
      then {| store := Crud.deleteExternalConnection clk id snap (store v);
              selectedDatasets := selectedDatasets v |}
      else v
  | None => v
  end.

(** The selection counts only datasets of the store. *)
Definition selectionWithin (v : View) : Prop :=
  forall id, id ∈ selectedDatasets v ->
    exists d, In d (Store.datasets (store v)) /\ Dataset.id d = id.

End DataView.

(** ** Further inputs used to exercise the model *)
Module Scenarios.

Definition clk1 : Clock :=
  {| now_ms := 1705831200000%N; now_iso := "2024-01-21T10:00:00.000Z" |}.

(** A warehouse connection and the draws of its creation. *)
Definition warehouse : Crud.ConnectionData :=
  {| Crud.cd_name := "warehouse"; Crud.cd_type := ExternalConnection.database;
     Crud.cd_url := "postgres://warehouse.example.org/orders";
     Crud.cd_syncFrequency := "daily" |}.

Definition halves : Crud.ConnectionDraws :=
  {| Crud.recordDraw := 1 # 2; Crud.columnsDraw := 1 # 2; Crud.nullDraw := 1 # 2 |}.

Definition upload : Crud.NewDataset :=
  {| Crud.nd_name := "orders.csv"; Crud.nd_size := Num.ofZ 52000;
     Crud.nd_columns := Num.ofZ 12 |}.

(** The administrator's account, a serialization of users that keeps the
    id, and two sessions: signed out with a working storage, and signed out
    where the storage refuses access. *)
Definition administrator : Auth.User :=
  {| Auth.id := "1"; Auth.email := "admin@mlpipeline.com"; Auth.name := "Admin User";
     Auth.role := Auth.admin;
     Auth.avatar := Some "https://images.pexels.com/photos/220453/pexels-photo-220453.jpeg?w=100&h=100&fit=crop&crop=face" |}.

Definition userText (u : Auth.User) : string :=
  Js.template ["{"; Js.dquote; "id"; Js.dquote; ":"; Js.dquote; Auth.id u; Js.dquote; "}"].

Definition signedOut : Auth.Session :=
  {| Auth.user := None; Auth.isLoading := false;
     Auth.storage := Storage.localStorage Storage.emptyWorld |}.

Definition privateMode : Auth.Session :=
  {| Auth.user := None; Auth.isLoading := false;
     Auth.storage := {| Storage.items := ∅; Storage.blocked := true;
                        Storage.full := fun _ _ => false |} |}.

(** The reconciler of [Examples.reconciler] after the cycle of 09:00 that
    showed its alert, and the host an hour later. *)
Definition host1 : Sync.Host :=
  {| Sync.clock := clk1; Sync.getTime := Sync.getTime Examples.host0 |}.

(** The host exactly a day after the cycle of 09:00. *)
Definition nextDay : Sync.Host :=
  {| Sync.clock :=
       {| now_ms := 1705914000000%N; now_iso := "2024-01-22T09:00:00.000Z" |};
     Sync.getTime := Sync.getTime Examples.host0 |}.

Definition synced : Sync.State :=
  {| Sync.syncStatus :=
       {| Sync.isOnline := true; Sync.lastSync := "2024-01-21T09:00:00.000Z";
          Sync.isSyncing := false; Sync.pendingChanges := 1; Sync.syncErrors := [] |};
     Sync.mockData :=
       Store.setAlerts (fun prev => Sync.syncAlert Examples.host0 :: prev) Examples.shop;
     Sync.browser :=
       {| Storage.items := {[ Sync.lastAlertKey := "2024-01-21T09:00:00.000Z" ]};
          Storage.blocked := false; Storage.full := fun _ _ => false |} |}.

(** The Data view on the [shop] store with the customers dataset
    selected. *)
Definition dataView : DataView.View :=
  {| DataView.store := Examples.shop;
     DataView.selectedDatasets := {[ Dataset.id Examples.customers ]} |}.





End Scenarios.

(** * Verification *)

(** ** String primitives *)
Module JsFacts.

Lemma prefix_spec (a s : string) :
  String.prefix a s = true <-> exists post, s = a ++ post.
Proof.
  revert s. induction a as [|c a IH]; intros s; simpl.
  - split; [intros _; exists s; reflexivity | intros _; destruct s; reflexivity].
  - destruct s as [|c' s]; simpl.
    + split; [discriminate | intros [post H]; discriminate].
    + destruct (ascii_dec c c') as [->|Hne].
      * rewrite IH. split; intros [post H]; exists post.
        -- now rewrite H.
        -- now injection H.
      * split; [discriminate | intros [post H]; injection H; congruence].
Qed.

Lemma includes_nil (sub : string) :
  Js.includes EmptyString sub = String.prefix sub EmptyString || false.
Proof. reflexivity. Qed.

Lemma includes_cons (c : ascii) (s sub : string) :
  Js.includes (String c s) sub = String.prefix sub (String c s) || Js.includes s sub.
Proof. reflexivity. Qed.

Lemma includes_spec (s sub : string) :
  Js.includes s sub = true <-> Cascade.contains s sub.
Proof.
  unfold Cascade.contains. induction s as [|c s IH].
  - rewrite includes_nil, orb_false_r, prefix_spec. split.
    + intros [post H]. exists EmptyString, post. exact H.
    + intros [pre [post H]]. destruct pre; simpl in H; [|discriminate].
      exists post. exact H.
  - rewrite includes_cons, orb_true_iff, prefix_spec, IH. split.
    + intros [[post H]|[pre [post H]]].
      * exists EmptyString, post. exact H.
      * exists (String c pre), post. simpl. now rewrite H.
    + intros [pre [post H]]. destruct pre as [|c' pre]; simpl in H.
      * left. exists post. exact H.
      * right. injection H as _ H. exists pre, post. exact H.
Qed.

Lemma includes_false (s sub : string) :
  Js.includes s sub = false <-> ~ Cascade.contains s sub.
Proof.
  rewrite <- includes_spec. destruct (Js.includes s sub); split; congruence.
Qed.

Lemma arrayIncludes_spec (xs : list string) (x : string) :
  Js.arrayIncludes xs x = true <-> In x xs.
Proof.
  unfold Js.arrayIncludes. rewrite existsb_exists. split.
  - intros [y [Hy Heq]]. apply String.eqb_eq in Heq. now subst.
  - intros H. exists x. split; [exact H | apply String.eqb_refl].
Qed.

End JsFacts.

(** ** Numbers *)
Module NumFacts.
Import Num.
Local Open Scope Q_scope.

Lemma eqv_refl (a : number) : eqv a a.
Proof. destruct a; simpl; auto. reflexivity. Qed.

Lemma eqv_sym (a b : number) : eqv a b -> eqv b a.
Proof. destruct a, b; simpl; auto. intros H. now symmetry. Qed.

Lemma eqv_trans (a b c : number) : eqv a b -> eqv b c -> eqv a c.
Proof.
  destruct a, b, c; simpl; auto; try contradiction.
  intros H1 H2. now rewrite H1.
Qed.

Lemma add_compat (a a' b b' : number) :
  eqv a a' -> eqv b b' -> eqv (add a b) (add a' b').
Proof.
  destruct a, a', b, b'; simpl; auto; try contradiction.
  intros H1 H2. now rewrite H1, H2.
Qed.

Lemma add_0_l (a : number) : eqv (add (ofZ 0) a) a.
Proof. destruct a; simpl; auto. ring. Qed.

Lemma max2_compat (a a' b b' : number) :
  eqv a a' -> eqv b b' -> eqv (max2 a b) (max2 a' b').
Proof.
  destruct a, a', b, b'; simpl; auto; try contradiction.
  intros H1 H2. now rewrite H1, H2.
Qed.

Lemma max2_assoc (a b c : number) : eqv (max2 (max2 a b) c) (max2 a (max2 b c)).
Proof.
  destruct a, b, c; simpl; auto; try reflexivity.
  symmetry. apply Q.max_assoc.
Qed.

Lemma max2_NegInfinity_l (a : number) : max2 NegInfinity a = a.
Proof. now destruct a. Qed.

Lemma max2_NegInfinity_r (a : number) : max2 a NegInfinity = a.
Proof. now destruct a. Qed.

Lemma divLength_compat (a b : number) (n : nat) :
  eqv a b -> eqv (divLength a n) (divLength b n).
Proof.
  destruct a, b; simpl; auto; try contradiction. intros H.
  destruct n; simpl.
  - rewrite H. destruct (q0 ?= 0); exact I.
  - now rewrite H.
Qed.

(** [reduce((sum, d) => sum + f(d), a)] adds the [f d] to [a] one after the
    other, whatever the addition [op] is. *)
Lemma reduce_add {A : Type} (op : number -> number -> number) (f : A -> number)
    (l : list A) (a : number) :
  fold_left (fun acc d => op acc (f d)) l a = fold_left op (map f l) a.
Proof. revert a. induction l as [|x l IH]; intros a; [reflexivity | apply IH]. Qed.

Lemma Math_max_from (l : list number) (a : number) :
  eqv (fold_left max2 l a) (max2 a (maximum l)).
Proof.
  revert a. induction l as [|x l IH]; intros a; simpl.
  - rewrite max2_NegInfinity_r. apply eqv_refl.
  - eapply eqv_trans; [apply IH|]. apply max2_assoc.
Qed.

Lemma Math_max_maximum (l : list number) : eqv (Math_max l) (maximum l).
Proof.
  unfold Math_max. eapply eqv_trans; [apply Math_max_from|].
  rewrite max2_NegInfinity_l. apply eqv_refl.
Qed.

(** On finite numbers [maximum] is the largest element. *)
Lemma maximum_finite (qs : list Q) :
  qs <> [] ->
  exists m, maximum (map Finite qs) = Finite m /\
            (forall q, In q qs -> q <= m) /\ (exists q, In q qs /\ q == m).
Proof.
  induction qs as [|x qs IH]; [congruence|]. intros _.
  destruct qs as [|y qs].
  - exists x. simpl. repeat split.
    + intros q [<-|[]]. apply Qle_refl.
    + exists x. split; [now left | reflexivity].
  - destruct IH as [m [Hm [Hub [q [Hq Hqm]]]]]; [congruence|].
    exists (Qmax x m). split; [|split].
    + change (maximum (map Finite (x :: y :: qs)))
        with (max2 (Finite x) (maximum (map Finite (y :: qs)))).
      now rewrite Hm.
    + intros z [<-|Hz].
      * apply Q.le_max_l.
      * eapply Qle_trans; [apply Hub, Hz | apply Q.le_max_r].
    + destruct (Q.max_spec x m) as [[_ Heq]|[_ Heq]].
      * exists q. split; [now right | now rewrite Heq].
      * exists x. split; [now left | now rewrite Heq].
Qed.

End NumFacts.

(** ** The entity store: cascade delete *)
Module StoreFacts.
Import Store.

Section RemoveByIds.
Context {A : Type} (key : A -> string).

Lemma key_injective_on (l : list A) (x y : A) :
  List.NoDup (map key l) -> In x l -> In y l -> key x = key y -> x = y.
Proof.
  induction l as [|a l IH]; simpl; [tauto|].
  intros Hnd Hx Hy Hk. apply NoDup_cons_iff in Hnd as [Hnotin Hnd].
  destruct Hx as [->|Hx], Hy as [->|Hy]; auto.
  - exfalso. apply Hnotin. rewrite Hk. now apply in_map.
  - exfalso. apply Hnotin. rewrite <- Hk. now apply in_map.
Qed.

Lemma withoutIds_nil (l : list A) : withoutIds key [] l = l.
Proof.
  unfold withoutIds. induction l as [|a l IH]; simpl; [reflexivity|].
  now f_equal.
Qed.

(** The guard [ids.length > 0] changes nothing: filtering on no id keeps
    the whole list. *)
Lemma guarded_withoutIds (ids : list string) (l : list A) :
  (if (0 <? length ids)%nat then withoutIds key ids l else l) = withoutIds key ids l.
Proof.
  destruct ids as [|i ids]; simpl; [now rewrite withoutIds_nil | reflexivity].
Qed.

(** Membership after removal by id. *)
Lemma in_withoutIds (f : A -> bool) (l : list A) (x : A) :
  In x (withoutIds key (map key (List.filter f l)) l) <->
  In x l /\ ~ exists y, In y l /\ f y = true /\ key y = key x.
Proof.
  unfold withoutIds. rewrite filter_In, negb_true_iff.
  rewrite <- not_true_iff_false, JsFacts.arrayIncludes_spec, in_map_iff.
  split; intros [Hx Hn]; split; auto; intros [y Hy]; apply Hn; exists y.
  - rewrite filter_In. tauto.
  - rewrite filter_In in Hy. tauto.
Qed.

(** With unique ids, removal by id is removal of the selected elements. *)
Lemma withoutIds_unique (f : A -> bool) (l : list A) :
  List.NoDup (map key l) ->
  withoutIds key (map key (List.filter f l)) l = List.filter (fun x => negb (f x)) l.
Proof.
  intros Hnd. unfold withoutIds. apply filter_ext_in. intros x Hx. f_equal.
  apply eq_true_iff_eq. rewrite JsFacts.arrayIncludes_spec, in_map_iff. split.
  - intros [y [Hk Hy]]. apply filter_In in Hy as [Hy Hf].
    now rewrite <- (key_injective_on l y x Hnd Hy Hx Hk).
  - intros Hf. exists x. split; [reflexivity|]. apply filter_In. tauto.
Qed.

Lemma removed_count (f : A -> bool) (l : list A) :
  length (List.filter f l) =
  (length l - length (List.filter (fun x => negb (f x)) l))%nat.
Proof.
  induction l as [|a l IH]; simpl; [reflexivity|].
  assert (Hle : (length (List.filter (fun x => negb (f x)) l) <= length l)%nat)
    by apply filter_length_le.
  destruct (f a); simpl; lia.
Qed.

End RemoveByIds.

(** *** The boolean callbacks decide the cascade relations *)

Lemma usesDataset_spec (datasetId : string) (p : Pipeline.t) :
  usesDataset datasetId p = true <-> Cascade.pipeline datasetId p.
Proof.
  unfold usesDataset, Cascade.pipeline. destruct (Pipeline.dataset_id p) as [d|].
  - rewrite String.eqb_eq. split; congruence.
  - split; discriminate.
Qed.

Lemma in_relatedPipelines (datasetId : string) (st : t) (p : Pipeline.t) :
  In p (relatedPipelines datasetId st) <->
  In p (pipelines st) /\ Cascade.pipeline datasetId p.
Proof. unfold relatedPipelines. now rewrite filter_In, usesDataset_spec. Qed.

Lemma experimentRelated_spec (st : t) (datasetId : string) (d : Dataset.t)
    (e : Experiment.t) :
  experimentRelated (map Pipeline.name (relatedPipelines datasetId st)) d e = true
  <-> Cascade.experiment st datasetId d e.
Proof.
  unfold experimentRelated, Cascade.experiment, Cascade.firstWord, Cascade.baseName.
  rewrite existsb_exists. split.
  - intros [n [Hn Hb]]. apply in_map_iff in Hn as [p [<- Hp]].
    apply in_relatedPipelines in Hp as [Hin Hp]. exists p. split; [|split]; auto.
    apply orb_true_iff in Hb. now rewrite !JsFacts.includes_spec in Hb.
  - intros [p [Hin [Hp Hc]]]. exists (Pipeline.name p). split.
    + apply in_map, in_relatedPipelines. tauto.
    + apply orb_true_iff. now rewrite !JsFacts.includes_spec.
Qed.

Lemma in_relatedExperiments (datasetId : string) (d : Dataset.t) (st : t)
    (e : Experiment.t) :
  In e (relatedExperiments datasetId d st) <->
  In e (experiments st) /\ Cascade.experiment st datasetId d e.
Proof. unfold relatedExperiments. now rewrite filter_In, experimentRelated_spec. Qed.

Lemma alertRelated_spec (st : t) (datasetId : string) (d : Dataset.t) (a : Alert.t) :
  alertRelated (map Pipeline.name (relatedPipelines datasetId st))
               (relatedExperiments datasetId d st) d a = true
  <-> Cascade.alert st datasetId d a.
Proof.
  unfold alertRelated, Cascade.alert, Cascade.mentions.
  rewrite !orb_true_iff, !existsb_exists, JsFacts.includes_spec. split.
  - intros [[H|[n [Hn Hb]]]|[e [He Hb]]].
    + now left.
    + right; left. apply in_map_iff in Hn as [p [<- Hp]].
      apply in_relatedPipelines in Hp as [Hin Hp].
      exists p. now rewrite <- JsFacts.includes_spec.
    + right; right. apply in_relatedExperiments in He as [Hin He].
      exists e. now rewrite <- JsFacts.includes_spec.
  - intros [H|[[p [Hin [Hp Hc]]]|[e [Hin [He Hc]]]]].
    + now left; left.
    + left; right. exists (Pipeline.name p). split.
      * apply in_map, in_relatedPipelines. tauto.
      * now apply JsFacts.includes_spec.
    + right. exists e. split.
      * apply in_relatedExperiments. tauto.
      * now apply JsFacts.includes_spec.
Qed.

Lemma connectionRelated_spec (d : Dataset.t) (c : ExternalConnection.t) :
  connectionRelated d c = true <-> Cascade.connection d c.
Proof.
  unfold connectionRelated, Cascade.connection, Js.template. simpl.
  rewrite JsFacts.includes_spec.
  now replace (ExternalConnection.name c ++ " (External)" ++ EmptyString)
    with (ExternalConnection.name c ++ " (External)").
Qed.

(** *** What [deleteDataset] leaves in each collection *)

Lemma deleteDataset_found (clk : Clock) (datasetId : string) (snap prev : t)
    (d : Dataset.t) :
  Cascade.lookupDataset snap datasetId = Some d ->
  deleteDataset clk datasetId snap prev =
  {| pipelines :=
       withoutIds Pipeline.id
         (map Pipeline.id (relatedPipelines datasetId snap)) (pipelines prev);
     datasets :=
       List.filter (fun x => negb (String.eqb (Dataset.id x) datasetId)) (datasets prev);
     alerts :=
       newAlert clk Alert.medium
         (deletionSummary d
            (length (relatedPipelines datasetId snap))
            (length (relatedExperiments datasetId d snap))
            (length (relatedAlerts datasetId d snap))
            (length (relatedConnections d snap)))
       :: withoutIds Alert.id
            (map Alert.id (relatedAlerts datasetId d snap)) (alerts prev);
     experiments :=
       withoutIds Experiment.id
         (map Experiment.id (relatedExperiments datasetId d snap)) (experiments prev);
     externalConnections :=
       withoutIds ExternalConnection.id
         (map ExternalConnection.id (relatedConnections d snap))
         (externalConnections prev) |}.
Proof.
  unfold Cascade.lookupDataset, deleteDataset. intros ->.
  rewrite !length_map. destruct prev as [ps ds als es cs].
  destruct (relatedPipelines datasetId snap) as [|p rp];
  destruct (relatedExperiments datasetId d snap) as [|e re];
  destruct (relatedAlerts datasetId d snap) as [|a ra];
  destruct (relatedConnections d snap) as [|c rc];
  cbn -[withoutIds deletionSummary newAlert]; rewrite ?withoutIds_nil; reflexivity.
Qed.

(** Without any assumption on ids: an entity goes exactly when it shares
    its id with a related entity of the same collection. *)
Lemma deleteDataset_removes_by_id (clk : Clock) (datasetId : string) (st : t)
    (d : Dataset.t) :
  Cascade.lookupDataset st datasetId = Some d ->
  (forall p, In p (pipelines (deleteDataset clk datasetId st st)) <->
     In p (pipelines st) /\
     ~ exists q, In q (pipelines st) /\ Cascade.pipeline datasetId q /\
                 Pipeline.id q = Pipeline.id p) /\
  (forall e, In e (experiments (deleteDataset clk datasetId st st)) <->
     In e (experiments st) /\
     ~ exists q, In q (experiments st) /\ Cascade.experiment st datasetId d q /\
                 Experiment.id q = Experiment.id e) /\
  (forall a, In a (tl (alerts (deleteDataset clk datasetId st st))) <->
     In a (alerts st) /\
     ~ exists q, In q (alerts st) /\ Cascade.alert st datasetId d q /\
                 Alert.id q = Alert.id a) /\
  (forall c, In c (externalConnections (deleteDataset clk datasetId st st)) <->
     In c (externalConnections st) /\
     ~ exists q, In q (externalConnections st) /\ Cascade.connection d q /\
                 ExternalConnection.id q = ExternalConnection.id c).
Proof.
  intros Hd. rewrite (deleteDataset_found _ _ _ _ _ Hd).
  cbn [pipelines experiments alerts externalConnections tl].
  unfold relatedPipelines, relatedExperiments, relatedAlerts, relatedConnections.
  split; [|split; [|split]]; intros x; split; intros H.
  all: try (apply in_withoutIds in H as [Hin Hn]; split; [exact Hin|];
            intros [q [Hq [Hc Hk]]]; apply Hn; exists q; repeat split; auto).
  all: try (apply in_withoutIds; destruct H as [Hin Hn]; split; [exact Hin|];
            intros [q [Hq [Hc Hk]]]; apply Hn; exists q; repeat split; auto).
  - now apply usesDataset_spec.
  - now apply usesDataset_spec.
  - now apply experimentRelated_spec.
  - now apply experimentRelated_spec.
  - now apply alertRelated_spec.
  - now apply alertRelated_spec.
  - now apply connectionRelated_spec.
  - now apply connectionRelated_spec.
Qed.

Lemma in_filter_not {A : Type} (f : A -> bool) (P : A -> Prop) (l : list A) :
  (forall x, f x = true <-> P x) ->
  forall x, In x (List.filter (fun y => negb (f y)) l) <-> In x l /\ ~ P x.
Proof.
  intros Hf x. rewrite filter_In, negb_true_iff, <- not_true_iff_false, Hf. tauto.
Qed.

(** C1 (as amended).  In a store whose ids are unique within each
    collection, [deleteDataset id] for a present id removes every dataset
    with that id and exactly the entities related by the cascade: pipelines
    whose [dataset_id] is [id]; experiments for which some removed pipeline
    exists such that the experiment's lower-cased name contains that
    pipeline's lower-cased first word or the lower-cased dataset name up to
    its first dot; alerts whose lower-cased message contains the lower-cased
    name of the dataset, of a removed pipeline or of a removed experiment;
    connections [c] with ["{c.name} (External)"] inside the dataset's name.
    Everything else stays, and the alerts gain exactly one new entry, at
    the head: the summary whose message is built from the numbers of
    removed pipelines, experiments, alerts and connections. *)
Theorem deleteDataset_cascade (clk : Clock) (datasetId : string) (st : t)
    (d : Dataset.t) :
  Cascade.lookupDataset st datasetId = Some d ->
  List.NoDup (map Pipeline.id (pipelines st)) ->
  List.NoDup (map Experiment.id (experiments st)) ->
  List.NoDup (map Alert.id (alerts st)) ->
  List.NoDup (map ExternalConnection.id (externalConnections st)) ->
  (forall x, In x (datasets (deleteDataset clk datasetId st st)) <->
     In x (datasets st) /\ Dataset.id x <> datasetId) /\
  (forall p, In p (pipelines (deleteDataset clk datasetId st st)) <->
     In p (pipelines st) /\ ~ Cascade.pipeline datasetId p) /\
  (forall e, In e (experiments (deleteDataset clk datasetId st st)) <->
     In e (experiments st) /\ ~ Cascade.experiment st datasetId d e) /\
  (forall c, In c (externalConnections (deleteDataset clk datasetId st st)) <->
     In c (externalConnections st) /\ ~ Cascade.connection d c) /\
  exists kept : list Alert.t,
    alerts (deleteDataset clk datasetId st st) =
      newAlert clk Alert.medium
        (deletionSummary d
           (length (pipelines st)
            - length (pipelines (deleteDataset clk datasetId st st)))
           (length (experiments st)
            - length (experiments (deleteDataset clk datasetId st st)))
           (length (alerts st) - length kept)
           (length (externalConnections st)
            - length (externalConnections (deleteDataset clk datasetId st st))))
      :: kept /\
    (forall a, In a kept <-> In a (alerts st) /\ ~ Cascade.alert st datasetId d a).
Proof.
  intros Hd Hp He Ha Hc. rewrite (deleteDataset_found _ _ _ _ _ Hd).
  cbn [pipelines datasets experiments alerts externalConnections].
  unfold relatedPipelines, relatedExperiments, relatedAlerts, relatedConnections.
  rewrite (withoutIds_unique Pipeline.id _ _ Hp),
          (withoutIds_unique Experiment.id _ _ He),
          (withoutIds_unique Alert.id _ _ Ha),
          (withoutIds_unique ExternalConnection.id _ _ Hc).
  split; [|split; [|split; [|split]]].
  - intros x. rewrite filter_In, negb_true_iff, String.eqb_neq. tauto.
  - apply in_filter_not. intros p. apply usesDataset_spec.
  - apply in_filter_not. intros e. apply experimentRelated_spec.
  - apply in_filter_not. intros c. apply connectionRelated_spec.
  - eexists. split.
    + rewrite <- !removed_count. reflexivity.
    + apply in_filter_not. intros a. apply alertRelated_spec.
Qed.

Lemma deleteDataset_cascade_witness :
  (Cascade.lookupDataset Examples.shop "dataset_1" = Some Examples.sales /\
   List.NoDup (map Pipeline.id (pipelines Examples.shop)) /\
   List.NoDup (map Experiment.id (experiments Examples.shop)) /\
   List.NoDup (map Alert.id (alerts Examples.shop)) /\
   List.NoDup (map ExternalConnection.id (externalConnections Examples.shop))) /\
  (forall p,
     In p (pipelines (deleteDataset Examples.clk0 "dataset_1" Examples.shop Examples.shop))
     <-> In p (pipelines Examples.shop) /\ ~ Cascade.pipeline "dataset_1" p).
Proof.
  assert (Hd : Cascade.lookupDataset Examples.shop "dataset_1" = Some Examples.sales)
    by reflexivity.
  assert (Hp : List.NoDup (map Pipeline.id (pipelines Examples.shop)))
    by (repeat constructor; simpl; intuition discriminate).
  assert (He : List.NoDup (map Experiment.id (experiments Examples.shop)))
    by (repeat constructor; simpl; intuition discriminate).
  assert (Ha : List.NoDup (map Alert.id (alerts Examples.shop)))
    by (repeat constructor; simpl; intuition discriminate).
  assert (Hc : List.NoDup (map ExternalConnection.id (externalConnections Examples.shop)))
    by (repeat constructor; simpl; intuition discriminate).
  split; [repeat split; assumption|].
  exact (proj1 (proj2
    (deleteDataset_cascade Examples.clk0 "dataset_1" Examples.shop Examples.sales
       Hd Hp He Ha Hc))).
Defined.

(** The summary of the scenario "add sales.csv, add a pipeline on it,
    delete the dataset", evaluated. *)
Example deleteDataset_shop_summary :
  map Alert.message
    (alerts (deleteDataset Examples.clk0 "dataset_1" Examples.shop Examples.shop)) =
  [ Js.template ["Dataset "; Js.dquote; "sales.csv"; Js.dquote;
                 " deleted, 1 related pipeline(s) removed, ";
                 "1 related model(s) removed, 1 related alert(s) cleared"];
    "Scheduled maintenance completed successfully" ].
Proof. vm_compute. reflexivity. Qed.

(** C1 as stated fails in two ways.  (1) An experiment whose name contains
    the dataset's base name is kept when no pipeline uses the dataset: the
    dataset-name test is evaluated once per removed pipeline.  (2) Entities
    are removed by id, so an alert that mentions nothing of the cascade goes
    when it shares its id with one that does. *)
Lemma deleteDataset_not_the_specified_cascade :
  (Cascade.lookupDataset Examples.unusedDataset "dataset_1" = Some Examples.sales /\
   Cascade.experiment_as_specified Examples.unusedDataset "dataset_1"
     Examples.sales Examples.salesModel /\
   In Examples.salesModel
      (experiments (deleteDataset Examples.clk0 "dataset_1"
                      Examples.unusedDataset Examples.unusedDataset))) /\
  (Cascade.lookupDataset Examples.sharedAlertId "dataset_1" = Some Examples.sales /\
   In Examples.toast (alerts Examples.sharedAlertId) /\
   ~ Cascade.alert_as_specified Examples.sharedAlertId "dataset_1"
       Examples.sales Examples.toast /\
   ~ In Examples.toast
       (alerts (deleteDataset Examples.clk0 "dataset_1"
                  Examples.sharedAlertId Examples.sharedAlertId))).
Proof.
  split; [split; [reflexivity|split]|split; [reflexivity|split; [|split]]].
  - right. apply JsFacts.includes_spec. vm_compute. reflexivity.
  - vm_compute. left. reflexivity.
  - left. reflexivity.
  - intros [H|[[p [Hin [_ H]]]|[e [[] _]]]].
    + apply JsFacts.includes_spec in H. vm_compute in H. discriminate.
    + destruct Hin as [<-|[]]. apply JsFacts.includes_spec in H.
      vm_compute in H. discriminate.
  - vm_compute. intros [H|[]]. discriminate.
Qed.

Lemma lookupDataset_absent (st : t) (datasetId : string) :
  (forall d, In d (datasets st) -> Dataset.id d <> datasetId) ->
  Cascade.lookupDataset st datasetId = None.
Proof.
  unfold Cascade.lookupDataset. induction (datasets st) as [|a l IH]; intros H.
  - reflexivity.
  - simpl. destruct (String.eqb_spec (Dataset.id a) datasetId) as [Heq|_].
    + exfalso. apply (H a); [now left | exact Heq].
    + apply IH. intros d Hin. apply H. now right.
Qed.

(** C10.  [deleteDataset id] for an id that no dataset carries changes
    nothing: the five collections are returned as they were, so no summary
    alert is added. *)
Theorem deleteDataset_absent_noop (clk : Clock) (datasetId : string) (snap prev : t) :
  (forall d, In d (datasets snap) -> Dataset.id d <> datasetId) ->
  deleteDataset clk datasetId snap prev = prev.
Proof.
  intros H. apply lookupDataset_absent in H.
  unfold Cascade.lookupDataset in H. unfold deleteDataset. now rewrite H.
Qed.

Lemma deleteDataset_absent_noop_witness :
  (forall d, In d (datasets Examples.shop) -> Dataset.id d <> "dataset_9") /\
  deleteDataset Examples.clk0 "dataset_9" Examples.shop Examples.shop = Examples.shop.
Proof.
  assert (H : forall d, In d (datasets Examples.shop) -> Dataset.id d <> "dataset_9").
  { intros d [<-|[<-|[]]]; discriminate. }
  split; [exact H|].
  exact (deleteDataset_absent_noop Examples.clk0 "dataset_9" Examples.shop Examples.shop H).
Defined.

End StoreFacts.

(** ** The entity store: merging datasets *)
Module MergeFacts.
Import Store.

(** [ids] selects the datasets of the store whose id it lists, each once
    and in store order. *)
Lemma in_selectedDatasets (ids : list string) (st : t) (d : Dataset.t) :
  In d (selectedDatasets ids st) <-> In d (datasets st) /\ In (Dataset.id d) ids.
Proof.
  unfold selectedDatasets. now rewrite filter_In, JsFacts.arrayIncludes_spec.
Qed.

Lemma selectedDatasets_selects (ids : list string) (all chosen : list Dataset.t) :
  Selection.Selects ids all chosen ->
  List.filter (fun d => Js.arrayIncludes ids (Dataset.id d)) all = chosen.
Proof.
  induction 1 as [|d all chosen Hin _ IH|d all chosen Hout _ IH]; cbn [List.filter].
  - reflexivity.
  - apply JsFacts.arrayIncludes_spec in Hin. rewrite Hin. now f_equal.
  - destruct (Js.arrayIncludes ids (Dataset.id d)) eqn:Hd; [|exact IH].
    apply JsFacts.arrayIncludes_spec in Hd. contradiction.
Qed.

(** C4.  Let [chosen] be the datasets of the render whose id is listed in
    [ids].  The dataset that [mergeDatasets] creates has the sum of their
    sizes, the largest of their column counts and the arithmetic mean of
    their null percentages; for two chosen datasets [A] and [B] these are
    [A.size + B.size], [max(A.columns, B.columns)] and
    [(A.null_percentage + B.null_percentage) / 2].  Sums are taken in the
    order of the datasets, and the only law of addition used is
    [0 + x = x]: nothing here depends on additions being exact. *)
Theorem mergeDatasets_metadata (clk : Clock) (ids : list string) (newName : string)
    (snap prev : t) (chosen : list Dataset.t) :
  Selection.Selects ids (datasets snap) chosen ->
  Dataset.size (fst (mergeDatasets clk ids newName snap prev))
    = Num.sum (map Dataset.size chosen) /\
  Num.eqv (Dataset.columns (fst (mergeDatasets clk ids newName snap prev)))
          (Num.maximum (map Dataset.columns chosen)) /\
  Dataset.null_percentage (fst (mergeDatasets clk ids newName snap prev))
    = Num.mean (map Dataset.null_percentage chosen) /\
  forall A B : Dataset.t,
    chosen = [A; B] ->
    Num.eqv (Dataset.size (fst (mergeDatasets clk ids newName snap prev)))
            (Num.add (Dataset.size A) (Dataset.size B)) /\
    Num.eqv (Dataset.columns (fst (mergeDatasets clk ids newName snap prev)))
            (Num.max2 (Dataset.columns A) (Dataset.columns B)) /\
    Num.eqv (Dataset.null_percentage (fst (mergeDatasets clk ids newName snap prev)))
            (Num.divLength
               (Num.add (Dataset.null_percentage A) (Dataset.null_percentage B)) 2).
Proof.
  intros Hsel. unfold mergeDatasets, mergedDataset, selectedDatasets.
  rewrite (selectedDatasets_selects ids (datasets snap) chosen Hsel).
  cbn [fst Dataset.size Dataset.columns Dataset.null_percentage].
  split; [|split; [|split]].
  - apply (NumFacts.reduce_add Num.add).
  - apply NumFacts.Math_max_maximum.
  - unfold Num.mean, Num.sum. now rewrite length_map, (NumFacts.reduce_add Num.add).
  - intros A B ->. cbn [fold_left map length]. split; [|split].
    + apply NumFacts.add_compat; [apply NumFacts.add_0_l | apply NumFacts.eqv_refl].
    + unfold Num.Math_max. cbn [fold_left]. rewrite NumFacts.max2_NegInfinity_l.
      apply NumFacts.eqv_refl.
    + apply NumFacts.divLength_compat.
      apply NumFacts.add_compat; [apply NumFacts.add_0_l | apply NumFacts.eqv_refl].
Qed.

Lemma mergeDatasets_metadata_witness :
  Selection.Selects ["dataset_2"; "dataset_1"] (datasets Examples.shop)
    [Examples.sales; Examples.customers] /\
  Dataset.size
    (fst (mergeDatasets Examples.clk0 ["dataset_2"; "dataset_1"] "all.csv"
            Examples.shop Examples.shop))
  = Num.sum (map Dataset.size [Examples.sales; Examples.customers]).
Proof.
  assert (H : Selection.Selects ["dataset_2"; "dataset_1"] (datasets Examples.shop)
                [Examples.sales; Examples.customers]).
  { apply Selection.Selects_take; [right; left; reflexivity|].
    apply Selection.Selects_take; [left; reflexivity|].
    apply Selection.Selects_nil. }
  split; [exact H|].
  exact (proj1 (mergeDatasets_metadata Examples.clk0 ["dataset_2"; "dataset_1"]
                  "all.csv" Examples.shop Examples.shop
                  [Examples.sales; Examples.customers] H)).
Defined.

(** Merging [sales.csv] (1000 rows, 5 columns, 2.5% nulls) with
    [customer_data.csv] (125000 rows, 18 columns, 3.2% nulls). *)
Example mergeDatasets_shop :
  let m := fst (mergeDatasets Examples.clk0 ["dataset_1"; "dataset_2"] "all.csv"
                  Examples.shop Examples.shop) in
  Num.eqv (Dataset.size m) (Num.ofZ 126000) /\
  Num.eqv (Dataset.columns m) (Num.ofZ 18) /\
  Num.eqv (Dataset.null_percentage m) (Num.Finite (285 # 100)).
Proof. vm_compute. repeat split. Qed.

(** Outside the claim: with nothing selected the created dataset has 0
    rows, [-Infinity] columns and a [NaN] null percentage. *)
Example mergeDatasets_nothing_selected :
  let m := fst (mergeDatasets Examples.clk0 ["dataset_9"] "none.csv"
                  Examples.shop Examples.shop) in
  Dataset.size m = Num.ofZ 0 /\ Dataset.columns m = Num.NegInfinity /\
  Dataset.null_percentage m = Num.NaN.
Proof. vm_compute. repeat split. Qed.

End MergeFacts.

(** ** The persistent store adapter *)
Module StorageFacts.
Import Storage.

Section Adapter.
Variable JSON : Type.
Variable stringify : JSON -> result string.
Variable parse : string -> result JSON.

(** [save] always returns, and what it returns depends only on whether the
    write went through. *)
Lemma saveToStorage_cases (key : string) (X : JSON) (w : World) :
  (exists text ls, stringify X = Ok text /\ setItem key text (localStorage w) = Ok ls /\
     saveToStorage JSON stringify key X w = Ok {| localStorage := ls; console := console w |}) \/
  (exists error, saveToStorage JSON stringify key X w = Ok (warn "Failed to save to localStorage:" error w)).
Proof.
  unfold saveToStorage. destruct (stringify X) as [text|e]; simpl.
  - destruct (setItem key text (localStorage w)) as [ls|e] eqn:Hset; simpl.
    + left. now exists text, ls.
    + right. now exists e.
  - right. now exists e.
Qed.

(** [load] always returns, with the parsed text or with the default. *)
Lemma loadFromStorage_cases (key : string) (def : JSON) (w : World) :
  (exists text, getItem key (localStorage w) = Ok (Some text) /\
     truthy text = true /\ exists X, parse text = Ok X /\ loadFromStorage JSON parse key def w = Ok (X, w)) \/
  (exists w', loadFromStorage JSON parse key def w = Ok (def, w') /\ localStorage w' = localStorage w).
Proof.
  unfold loadFromStorage.
  destruct (getItem key (localStorage w)) as [[text|]|e]; simpl.
  - destruct (truthy text) eqn:Ht.
    + destruct (parse text) as [X|e] eqn:Hp; simpl.
      * left. exists text. repeat split; auto. now exists X.
      * right. eexists. split; reflexivity.
    + right. eexists. split; reflexivity.
  - right. eexists. split; reflexivity.
  - right. eexists. split; reflexivity.
Qed.

Lemma save_then_load (key : string) (X def : JSON) (w : World) :
  serializable JSON stringify parse X -> accepts JSON stringify w key X ->
  exists w1, saveToStorage JSON stringify key X w = Ok w1 /\ loadFromStorage JSON parse key def w1 = Ok (X, w1).
Proof.
  intros [text [Hs [Ht Hp]]] [Hb Hf]. specialize (Hf text Hs).
  unfold saveToStorage, loadFromStorage, setItem, getItem.
  exists {| localStorage :=
              {| items := <[key := text]> (items (localStorage w));
                 blocked := blocked (localStorage w);
                 full := full (localStorage w) |};
            console := console w |}.
  rewrite Hs. cbn [bind try_catch localStorage blocked items].
  rewrite Hb, Hf. cbn [bind try_catch]. split; [reflexivity|].
  rewrite lookup_insert_eq, Ht, Hp. reflexivity.
Qed.

Lemma load_missing (key : string) (def : JSON) (w : World) :
  items (localStorage w) !! key = None ->
  exists w', loadFromStorage JSON parse key def w = Ok (def, w') /\ localStorage w' = localStorage w.
Proof.
  intros Hnone. unfold loadFromStorage, getItem.
  destruct (blocked (localStorage w)); simpl.
  - eexists. split; reflexivity.
  - rewrite Hnone. simpl. eexists. split; reflexivity.
Qed.

Lemma save_failure_noop (key : string) (X : JSON) (w : World) :
  (forall text ls, stringify X = Ok text -> setItem key text (localStorage w) <> Ok ls) ->
  exists w', saveToStorage JSON stringify key X w = Ok w' /\ localStorage w' = localStorage w.
Proof.
  intros Hfail. destruct (saveToStorage_cases key X w) as [[text [ls [Hs [Hset _]]]]|[e He]].
  - exfalso. exact (Hfail text ls Hs Hset).
  - eexists. split; [exact He | reflexivity].
Qed.

Lemma load_failure_default (key : string) (def : JSON) (w : World) :
  (forall text, getItem key (localStorage w) = Ok (Some text) ->
     forall X, parse text <> Ok X) ->
  exists w', loadFromStorage JSON parse key def w = Ok (def, w').
Proof.
  intros Hfail. destruct (loadFromStorage_cases key def w)
    as [[text [Hg [_ [X [Hp _]]]]]|[w' [Hl _]]].
  - exfalso. exact (Hfail text Hg X Hp).
  - now exists w'.
Qed.

(** C7.  For every key: saving a JSON-serializable [X] into a storage that
    takes the write and then loading returns [X]; loading a key that holds
    no item returns the default; both helpers always return normally; and
    when the write does not go through [save] leaves the storage as it was,
    when the read or the parse does not go through [load] returns the
    default. *)
Theorem storage_round_trip (key : string) (X def : JSON) (w : World) :
  (serializable JSON stringify parse X -> accepts JSON stringify w key X ->
   exists w1, saveToStorage JSON stringify key X w = Ok w1 /\ loadFromStorage JSON parse key def w1 = Ok (X, w1)) /\
  (items (localStorage w) !! key = None ->
   exists w', loadFromStorage JSON parse key def w = Ok (def, w') /\ localStorage w' = localStorage w) /\
  (exists w', saveToStorage JSON stringify key X w = Ok w') /\
  (exists v w', loadFromStorage JSON parse key def w = Ok (v, w')) /\
  ((forall text ls, stringify X = Ok text -> setItem key text (localStorage w) <> Ok ls) ->
   exists w', saveToStorage JSON stringify key X w = Ok w' /\ localStorage w' = localStorage w) /\
  ((forall text, getItem key (localStorage w) = Ok (Some text) ->
      forall Y, parse text <> Ok Y) ->
   exists w', loadFromStorage JSON parse key def w = Ok (def, w')).
Proof.
  split; [apply save_then_load|].
  split; [apply load_missing|].
  split.
  { destruct (saveToStorage_cases key X w) as [[text [ls [_ [_ H]]]]|[e H]];
      eexists; exact H. }
  split.
  { destruct (loadFromStorage_cases key def w) as [[text [_ [_ [Y [_ H]]]]]|[w' [H _]]].
    - now exists Y, w.
    - now exists def, w'. }
  split; [apply save_failure_noop | apply load_failure_default].
Qed.

End Adapter.

(** The adapter run on the literals [true] and [false]: a round trip, and a
    full storage that keeps the old item. *)
Lemma storage_round_trip_witness :
  (serializable bool stringifyBool parseBool true /\
   accepts bool stringifyBool emptyWorld "ml_dashboard_datasets" true) /\
  exists w1,
    saveToStorage bool stringifyBool "ml_dashboard_datasets" true emptyWorld = Ok w1 /\
    loadFromStorage bool parseBool "ml_dashboard_datasets" false w1 = Ok (true, w1).
Proof.
  assert (Hs : serializable bool stringifyBool parseBool true).
  { exists "true". repeat split. }
  assert (Ha : accepts bool stringifyBool emptyWorld "ml_dashboard_datasets" true).
  { split; [reflexivity|]. intros text _. reflexivity. }
  split; [split; assumption|].
  exact (proj1 (storage_round_trip bool stringifyBool parseBool
                  "ml_dashboard_datasets" true false emptyWorld) Hs Ha).
Defined.

Example save_into_full_storage :
  exists w1,
    saveToStorage bool stringifyBool "ml_dashboard_datasets" true fullWorld = Ok w1 /\
    localStorage w1 = localStorage fullWorld /\
    console w1 = [("Failed to save to localStorage:", "QuotaExceededError")] /\
    loadFromStorage bool parseBool "ml_dashboard_datasets" true w1 = Ok (false, w1).
Proof. eexists. split; [reflexivity|]. repeat split. Qed.

End StorageFacts.

(** ** The sync reconciler *)
Module SyncFacts.
Import Storage Sync.

Lemma insertByDelay_perm (x : Z * result unit) (l : list (Z * result unit)) :
  Permutation (insertByDelay x l) (x :: l).
Proof.
  induction l as [|y r IH]; simpl; [reflexivity|].
  destruct (fst x <? fst y)%Z; [reflexivity|].
  rewrite IH. apply perm_swap.
Qed.

Lemma completionOrder_perm (l : list (Z * result unit)) :
  Permutation (completionOrder l) l.
Proof.
  unfold completionOrder.
  enough (H : forall acc,
             Permutation (fold_left (fun done x => insertByDelay x done) l acc)
                         (acc ++ l)%list) by apply (H []).
  induction l as [|x l IH]; intros acc; simpl.
  - now rewrite app_nil_r.
  - rewrite IH, insertByDelay_perm. apply Permutation_middle.
Qed.

Lemma settlement_errors (draws : Collection -> Draw) (cs : list Collection) :
  flat_map (fun x => match snd x with Throw message => [message] | Ok _ => [] end)
           (map (fun c => simulateServerSync c (draws c)) cs)
  = map failureMessage (List.filter (fails draws) cs).
Proof.
  induction cs as [|c cs IH]; simpl; [reflexivity|].
  rewrite IH. unfold fails, simulateServerSync, failureMessage. simpl.
  now destruct (Qle_bool (5 # 100) (failure (draws c))).
Qed.

(** The errors of a cycle are the messages of the issued calls that
    failed, each once: no failure hides another. *)
Lemma cycleErrors_perm (draws : Collection -> Draw) (mockData : Store.t) :
  Permutation (cycleErrors draws mockData)
    (map failureMessage (List.filter (fails draws) (issuedCalls mockData))).
Proof.
  unfold cycleErrors, collectErrors. rewrite <- settlement_errors.
  apply Permutation_flat_map, completionOrder_perm.
Qed.

(** *** Completion order *)

Lemma insertByDelay_order (draws : Collection -> Draw) (c : Collection)
    (order : list Collection) :
  StronglySorted (completesBefore draws) order ->
  (forall c', In c' order -> (issueRank c' < issueRank c)%nat) ->
  exists order',
    insertByDelay (simulateServerSync c (draws c))
      (map (fun x => simulateServerSync x (draws x)) order)
    = map (fun x => simulateServerSync x (draws x)) order' /\
    Permutation order' (c :: order) /\
    StronglySorted (completesBefore draws) order'.
Proof.
  induction order as [|y r IH]; intros Hsorted Hrank.
  - exists [c]. repeat split; [reflexivity | repeat constructor].
  - cbn [map insertByDelay]. apply StronglySorted_inv in Hsorted as [Hr Hy].
    change (fst (simulateServerSync c (draws c))) with (delay draws c).
    change (fst (simulateServerSync y (draws y))) with (delay draws y).
    destruct (delay draws c <? delay draws y)%Z eqn:Hlt.
    + apply Z.ltb_lt in Hlt. exists (c :: y :: r). split; [reflexivity|].
      split; [reflexivity|]. constructor; [now constructor|].
      constructor; [now left|]. rewrite List.Forall_forall in Hy |- *.
      intros z Hz. left. destruct (Hy z Hz) as [H|[H _]]; lia.
    + apply Z.ltb_ge in Hlt.
      destruct (IH Hr (fun c' Hc' => Hrank c' (or_intror Hc')))
        as [order' [Heq [Hperm Hs]]].
      exists (y :: order'). split; [cbn [map]; now rewrite Heq|]. split.
      * rewrite Hperm. apply perm_swap.
      * constructor; [exact Hs|]. rewrite List.Forall_forall in Hy |- *.
        intros z Hz. apply (Permutation_in _ Hperm) in Hz as [<-|Hz]; [|now apply Hy].
        pose proof (Hrank y (or_introl eq_refl)) as Hry.
        unfold completesBefore. lia.
Qed.

Lemma completionOrder_order (draws : Collection -> Draw) (cs : list Collection) :
  StronglySorted (fun a b => (issueRank a < issueRank b)%nat) cs ->
  forall done : list Collection,
    StronglySorted (completesBefore draws) done ->
    (forall a b, In a done -> In b cs -> (issueRank a < issueRank b)%nat) ->
    exists order,
      fold_left (fun acc x => insertByDelay x acc)
        (map (fun x => simulateServerSync x (draws x)) cs)
        (map (fun x => simulateServerSync x (draws x)) done)
      = map (fun x => simulateServerSync x (draws x)) order /\
      Permutation order (done ++ cs)%list /\
      StronglySorted (completesBefore draws) order.
Proof.
  induction cs as [|c cs IH]; intros Hcs done Hdone Hrank.
  - exists done. rewrite app_nil_r. repeat split; auto.
  - apply StronglySorted_inv in Hcs as [Hcs Hc]. cbn [map fold_left].
    destruct (insertByDelay_order draws c done Hdone
                (fun a Ha => Hrank a c Ha (or_introl eq_refl)))
      as [done' [Heq [Hperm Hs]]].
    rewrite Heq.
    destruct (IH Hcs done' Hs) as [order [Heq' [Hperm' Hs']]].
    { intros a b Ha Hb. apply (Permutation_in _ Hperm) in Ha as [<-|Ha].
      - rewrite List.Forall_forall in Hc. now apply Hc.
      - apply Hrank; [exact Ha | now right]. }
    exists order. split; [exact Heq'|]. split; [|exact Hs'].
    rewrite Hperm', Hperm. apply (Permutation_middle done cs c).
Qed.

Lemma issuedCalls_by_rank (mockData : Store.t) :
  StronglySorted (fun a b => (issueRank a < issueRank b)%nat) (issuedCalls mockData).
Proof.
  unfold issuedCalls. cbn [List.filter].
  repeat match goal with
         | |- context [if ?b then _ else _] => destruct b
         end;
    repeat (constructor; [|repeat constructor; cbn; lia]); constructor.
Qed.

(** The errors of a cycle are the failure messages of the failed calls in
    the order in which the calls complete. *)
Lemma cycleErrors_in_completion_order (draws : Collection -> Draw) (mockData : Store.t) :
  exists order,
    Permutation order (issuedCalls mockData) /\
    StronglySorted (completesBefore draws) order /\
    cycleErrors draws mockData = map failureMessage (List.filter (fails draws) order).
Proof.
  destruct (completionOrder_order draws (issuedCalls mockData)
              (issuedCalls_by_rank mockData) [] (SSorted_nil _))
    as [order [Heq [Hperm Hs]]]; [intros a b []|].
  exists order. split; [exact Hperm|]. split; [exact Hs|].
  unfold cycleErrors, collectErrors, completionOrder.
  change (@nil (Z * result unit))
    with (map (fun x => simulateServerSync x (draws x)) (@nil Collection)).
  rewrite Heq. apply settlement_errors.
Qed.

Lemma cycleErrors_nil (draws : Collection -> Draw) (mockData : Store.t) :
  cycleErrors draws mockData = [] <->
  forall c, In c (issuedCalls mockData) -> fails draws c = false.
Proof.
  split.
  - intros Hnil c Hc. destruct (fails draws c) eqn:Hf; [|reflexivity].
    assert (Hin : In (failureMessage c) (cycleErrors draws mockData)).
    { eapply Permutation_in; [symmetry; apply cycleErrors_perm|].
      apply in_map, filter_In. tauto. }
    rewrite Hnil in Hin. destruct Hin.
  - intros Hall. apply Permutation_nil. rewrite cycleErrors_perm.
    replace (List.filter (fails draws) (issuedCalls mockData)) with (@nil Collection);
      [reflexivity|].
    symmetry. induction (issuedCalls mockData) as [|c cs IH]; [reflexivity|].
    simpl. rewrite (Hall c (or_introl eq_refl)). apply IH.
    intros c' Hc'. apply Hall. now right.
Qed.

Lemma issuedCalls_spec (mockData : Store.t) (c : Collection) :
  In c (issuedCalls mockData) <-> (0 < lengthOf c mockData)%nat.
Proof.
  unfold issuedCalls. rewrite filter_In, Nat.ltb_lt.
  split; [tauto|]. intros H. split; [|exact H].
  destruct c; simpl; tauto.
Qed.

Lemma issuedCalls_NoDup (mockData : Store.t) : List.NoDup (issuedCalls mockData).
Proof.
  unfold issuedCalls. apply List.NoDup_filter.
  repeat constructor; simpl; intuition discriminate.
Qed.

(** *** The end of a cycle *)

Lemma completeSync_pendingChanges (host : Host) (errors : list string) (st : State) :
  pendingChanges (syncStatus (completeSync host errors st)) =
  if (0 <? length errors)%nat then pendingChanges (syncStatus st) else 0%nat.
Proof.
  unfold completeSync, afterSettled. destruct errors as [|e errors]; simpl.
  - destruct (shouldShowSyncAlert host (browser st)) as [[|]|m]; simpl; try reflexivity.
    destruct (markSyncAlertShown host (browser st)) as [ls|m]; reflexivity.
  - reflexivity.
Qed.

(** What [syncErrors] holds at the end: the errors of the calls, then one
    entry of the [catch] block when the alert bookkeeping threw. *)
Lemma completeSync_syncErrors (host : Host) (errors : list string) (st : State) :
  exists extra,
    syncErrors (syncStatus (completeSync host errors st)) = (errors ++ extra)%list /\
    (extra = [] \/
     errors = [] /\
     exists message, extra = [Js.template ["Sync failed: "; message]] /\
       (shouldShowSyncAlert host (browser st) = Throw message \/
        markSyncAlertShown host (browser st) = Throw message)).
Proof.
  unfold completeSync, afterSettled. destruct errors as [|e errors]; simpl.
  - destruct (shouldShowSyncAlert host (browser st)) as [[|]|m] eqn:Hshow; simpl.
    + destruct (markSyncAlertShown host (browser st)) as [ls|m] eqn:Hmark; simpl.
      * exists []. split; [reflexivity | now left].
      * eexists. split; [reflexivity|]. right. split; [reflexivity|].
        exists m. split; [reflexivity | now right].
    + exists []. split; [reflexivity | now left].
    + eexists. split; [reflexivity|]. right. split; [reflexivity|].
      exists m. split; [reflexivity | now left].
  - exists []. rewrite app_nil_r. split; [reflexivity | now left].
Qed.

Lemma completeSync_syncErrors_working (host : Host) (errors : list string) (st : State) :
  blocked (browser st) = false ->
  (forall key value, full (browser st) key value = false) ->
  syncErrors (syncStatus (completeSync host errors st)) = errors.
Proof.
  intros Hb Hf. destruct (completeSync_syncErrors host errors st)
    as [extra [-> [->|[_ [m [_ [H|H]]]]]]].
  - apply app_nil_r.
  - exfalso. unfold shouldShowSyncAlert, getItem in H. rewrite Hb in H. simpl in H.
    destruct (items (browser st) !! lastAlertKey) as [text|]; [|discriminate].
    destruct (truthy text); [|discriminate].
    destruct (getTime host text); discriminate.
  - exfalso. unfold markSyncAlertShown, setItem in H. rewrite Hb, Hf in H. discriminate.
Qed.

Lemma during_browser (events : list Event) (st : State) :
  browser (during events st) = browser st.
Proof. reflexivity. Qed.

(** While the calls are in flight only [markDataChanged] moves
    [pendingChanges]. *)
Lemma beforeCompletion_pendingChanges (events : list Event) (st : State) :
  pendingChanges (beforeCompletion events st) =
  (pendingChanges (syncStatus st) + dataChanges events)%nat.
Proof.
  unfold beforeCompletion, during, setSyncStatus. simpl.
  assert (H : forall s,
    pendingChanges (fold_left (fun s e => handle e s) events s) =
    (pendingChanges s + dataChanges events)%nat).
  { unfold dataChanges. induction events as [|e events IH]; intros s; simpl; [lia|].
    rewrite IH. destruct e; simpl; lia. }
  now rewrite H.
Qed.

(** C2.  In every cycle that [triggerSync] runs: when at least one of the
    issued calls fails, [pendingChanges] ends as it was just before the
    cycle completed; when none fails it ends at 0. *)
Theorem triggerSync_pendingChanges (host : Host) (draws : Collection -> Draw)
    (events : list Event) (st : State) :
  isSyncing (syncStatus st) = false ->
  ((exists c, In c (issuedCalls (mockData st)) /\ fails draws c = true) ->
   pendingChanges (syncStatus (triggerSync host draws events st)) =
   pendingChanges (beforeCompletion events st)) /\
  ((forall c, In c (issuedCalls (mockData st)) -> fails draws c = false) ->
   pendingChanges (syncStatus (triggerSync host draws events st)) = 0%nat).
Proof.
  intros Hidle. unfold triggerSync. rewrite Hidle.
  rewrite completeSync_pendingChanges. fold (beforeCompletion events st).
  split.
  - intros [c [Hc Hf]].
    destruct (cycleErrors draws (mockData st)) as [|e errors] eqn:He; [|reflexivity].
    rewrite cycleErrors_nil in He. rewrite (He c Hc) in Hf. discriminate.
  - intros Hall. apply cycleErrors_nil in Hall. now rewrite Hall.
Qed.

Lemma triggerSync_pendingChanges_witness :
  isSyncing (syncStatus Examples.reconciler) = false /\
  (exists c, In c (issuedCalls (mockData Examples.reconciler)) /\
             fails Examples.flaky c = true) /\
  pendingChanges
    (syncStatus (triggerSync Examples.host0 Examples.flaky [DataChanged]
                   Examples.reconciler)) =
  pendingChanges (beforeCompletion [DataChanged] Examples.reconciler).
Proof.
  assert (Hidle : isSyncing (syncStatus Examples.reconciler) = false) by reflexivity.
  assert (Hfail : exists c, In c (issuedCalls (mockData Examples.reconciler)) /\
                            fails Examples.flaky c = true).
  { exists datasets. split; [right; left; reflexivity | reflexivity]. }
  split; [exact Hidle|]. split; [exact Hfail|].
  exact (proj1 (triggerSync_pendingChanges Examples.host0 Examples.flaky [DataChanged]
                  Examples.reconciler Hidle) Hfail).
Defined.

(** A failing cycle during which one change is marked: 3 pending before, 4
    after, and the two failures reported in completion order, the old
    error gone. *)
Example triggerSync_flaky :
  let after := syncStatus (triggerSync Examples.host0 Examples.flaky [DataChanged]
                             Examples.reconciler) in
  pendingChanges after = 4%nat /\ isSyncing after = false /\
  syncErrors after = ["Failed to sync alerts: Network timeout";
                      "Failed to sync datasets: Network timeout"].
Proof. vm_compute. repeat split. Qed.

(** A clean cycle: nothing pending afterwards, one success alert, and the
    time of that alert remembered in the browser. *)
Example triggerSync_calm :
  let after := triggerSync Examples.host0 Examples.calm [] Examples.reconciler in
  pendingChanges (syncStatus after) = 0%nat /\ syncErrors (syncStatus after) = [] /\
  map Alert.message (Store.alerts (mockData after)) =
    "All data synchronized successfully"
    :: map Alert.message (Store.alerts Examples.shop) /\
  items (browser after) !! lastAlertKey = Some "2024-01-21T09:00:00.000Z".
Proof. vm_compute. repeat split. Qed.

(** C3 (as amended).  A cycle issues one call for each non-empty collection
    and none for an empty one; the errors it collects are the messages of
    all the issued calls that failed, in the order in which the calls
    complete (by the delay of their timers, and in issue order for equal
    delays); and at the end [syncErrors] holds these errors and nothing of
    earlier cycles, followed, only when no call failed and the
    local-storage bookkeeping of the success alert threw, by one
    ["Sync failed: ..."] entry.  When the storage works, [syncErrors] is
    exactly the errors of the cycle. *)
Theorem triggerSync_calls_and_errors (host : Host) (draws : Collection -> Draw)
    (events : list Event) (st : State) :
  isSyncing (syncStatus st) = false ->
  (List.NoDup (issuedCalls (mockData st)) /\
   forall c, In c (issuedCalls (mockData st)) <-> (0 < lengthOf c (mockData st))%nat) /\
  Permutation (cycleErrors draws (mockData st))
    (map failureMessage (List.filter (fails draws) (issuedCalls (mockData st)))) /\
  (exists order,
     Permutation order (issuedCalls (mockData st)) /\
     StronglySorted (completesBefore draws) order /\
     cycleErrors draws (mockData st)
     = map failureMessage (List.filter (fails draws) order)) /\
  (exists extra,
     syncErrors (syncStatus (triggerSync host draws events st)) =
       (cycleErrors draws (mockData st) ++ extra)%list /\
     (extra = [] \/
      cycleErrors draws (mockData st) = [] /\
      exists message, extra = [Js.template ["Sync failed: "; message]])) /\
  (blocked (browser st) = false ->
   (forall key value, full (browser st) key value = false) ->
   syncErrors (syncStatus (triggerSync host draws events st)) =
     cycleErrors draws (mockData st)).
Proof.
  intros Hidle. unfold triggerSync. rewrite Hidle.
  split; [split; [apply issuedCalls_NoDup | apply issuedCalls_spec]|].
  split; [apply cycleErrors_perm|].
  split; [apply cycleErrors_in_completion_order|]. split.
  - destruct (completeSync_syncErrors host (cycleErrors draws (mockData st))
                (during events (setSyncStatus started st)))
      as [extra [Heq [->|[Hnil [m [-> _]]]]]].
    + exists []. split; [exact Heq | now left].
    + eexists. split; [exact Heq|]. right. split; [exact Hnil|]. now exists m.
  - intros Hb Hf. now apply completeSync_syncErrors_working.
Qed.

Lemma triggerSync_calls_and_errors_witness :
  isSyncing (syncStatus Examples.reconciler) = false /\
  Permutation (cycleErrors Examples.flaky (mockData Examples.reconciler))
    (map failureMessage
       (List.filter (fails Examples.flaky) (issuedCalls (mockData Examples.reconciler)))).
Proof.
  assert (Hidle : isSyncing (syncStatus Examples.reconciler) = false) by reflexivity.
  split; [exact Hidle|].
  exact (proj1 (proj2 (triggerSync_calls_and_errors Examples.host0 Examples.flaky []
                         Examples.reconciler Hidle))).
Defined.

(** C3 as stated fails when the browser blocks [localStorage]: every call
    of the cycle succeeds, yet [syncErrors] ends with one entry. *)
Lemma triggerSync_reports_storage_failure :
  isSyncing (syncStatus Examples.blockedReconciler) = false /\
  cycleErrors Examples.calm (mockData Examples.blockedReconciler) = [] /\
  syncErrors (syncStatus (triggerSync Examples.host0 Examples.calm []
                            Examples.blockedReconciler)) =
    ["Sync failed: SecurityError"].
Proof. vm_compute. repeat split. Qed.

End SyncFacts.

(** ** The pipeline run simulator *)
Module SimulatorFacts.
Import Simulator.
Local Open Scope Q_scope.

(** *** One pipeline, one tick *)

Lemma advancePipeline_id (clk : Clock) (d : TickDraws) (p : Pipeline.t) :
  Pipeline.id (fst (advancePipeline clk d p)) = Pipeline.id p.
Proof.
  unfold advancePipeline.
  now destruct (Qle_bool 100 (Qmin 100 (Pipeline.progress p + advance d * 10))).
Qed.


Lemma accuracyFor_number (table : list (string * Q)) (fallback : Q)
    (algorithm : option string) :
  inherited algorithm = false ->
  exists value, accuracyFor table fallback algorithm = Some value.
Proof.
  intros H. unfold accuracyFor.
  destruct (List.find _ table) as [[key value]|]; [now eexists|].
  rewrite H. now eexists.
Qed.

(** The two ways out of [advancePipeline]: the pipeline completes at
    exactly 100 and clears the timer, or it keeps its status and moves to
    [min(100, progress + 10 * advance)], which is below 100. *)
Lemma advancePipeline_cases (clk : Clock) (d : TickDraws) (p : Pipeline.t) :
  (100 <= Pipeline.progress p + advance d * 10 /\
   snd (advancePipeline clk d p) = true /\
   Pipeline.status (fst (advancePipeline clk d p)) = Pipeline.completed /\
   Pipeline.progress (fst (advancePipeline clk d p)) = 100 /\
   (inherited (Pipeline.algorithm p) = false ->
    exists a,
      Pipeline.model_accuracy (fst (advancePipeline clk d p)) = Some (Num.Finite a) /\
      (75 # 100) <= a /\ a <= (98 # 100))) \/
  (Pipeline.progress p + advance d * 10 < 100 /\
   snd (advancePipeline clk d p) = false /\
   Pipeline.status (fst (advancePipeline clk d p)) = Pipeline.status p /\
   Pipeline.progress (fst (advancePipeline clk d p)) ==
     Pipeline.progress p + advance d * 10).
Proof.
  unfold advancePipeline.
  destruct (Qle_bool 100 (Qmin 100 (Pipeline.progress p + advance d * 10))) eqn:Hle.
  - left. apply Qle_bool_iff in Hle. cbn [fst snd Pipeline.spread Pipeline.status
      Pipeline.progress Pipeline.model_accuracy].
    split; [|split; [|split; [|split]]]; try reflexivity.
    + eapply Qle_trans; [exact Hle | apply Q.le_min_r].
    + intros Hnum.
      unfold finalBaseAccuracy.
      match goal with
      | |- context [accuracyFor ?table ?fallback ?algorithm] =>
          destruct (accuracyFor_number table fallback algorithm Hnum) as [base Hbase];
          rewrite Hbase
      end.
      eexists. split; [reflexivity|]. split.
      * apply Q.le_max_l.
      * apply Q.max_lub; [discriminate | apply Q.le_min_l].
  - right. assert (Hlt : Qmin 100 (Pipeline.progress p + advance d * 10) < 100).
    { apply Qnot_le_lt. intros H. apply Qle_bool_iff in H. congruence. }
    cbn [fst snd Pipeline.spread Pipeline.status Pipeline.progress].
    assert (Hlt' : Pipeline.progress p + advance d * 10 < 100).
    { destruct (Q.min_spec 100 (Pipeline.progress p + advance d * 10))
        as [[_ Heq]|[_ Heq]]; rewrite Heq in Hlt; [|exact Hlt].
      exfalso. exact (Qlt_irrefl _ Hlt). }
    split; [exact Hlt'|]. split; [reflexivity|]. split; [reflexivity|].
    apply Q.min_r. now apply Qlt_le_weak.
Qed.

Lemma advancePipeline_progress (clk : Clock) (d : TickDraws) (p : Pipeline.t) :
  0 <= advance d -> Pipeline.progress p <= 100 ->
  Pipeline.progress p <= Pipeline.progress (fst (advancePipeline clk d p)) /\
  Pipeline.progress (fst (advancePipeline clk d p)) <= 100.
Proof.
  intros Hadv Hp.
  destruct (advancePipeline_cases clk d p)
    as [[_ [_ [_ [-> _]]]]|[Hlt [_ [_ ->]]]].
  - split; [exact Hp | apply Qle_refl].
  - split; [|now apply Qlt_le_weak].
    rewrite <- (Qplus_0_r (Pipeline.progress p)) at 1.
    apply Qplus_le_r. apply Qmult_le_0_compat; [exact Hadv | discriminate].
Qed.

(** *** One tick of a timer on the list of pipelines *)

Lemma tick_lookup (clk : Clock) (rng : nat -> TickDraws) (h : nat) (v : View)
    (i : nat) (p : Pipeline.t) :
  Store.pipelines (store v) !! i = Some p ->
  Store.pipelines (store (tick clk rng h v)) !! i = Some p \/
  exists id, timers v !! h = Some (Some id) /\
    Store.pipelines (store (tick clk rng h v)) !! i =
      Some (fst (tickPipeline clk id (rng i) p)).
Proof.
  intros Hp. unfold tick. destruct (timers v !! h) as [[id|]|]; auto.
  right. exists id. split; [reflexivity|].
  cbn [store Store.setPipelines Store.pipelines].
  now rewrite list_lookup_fmap, list_lookup_imap, Hp.
Qed.

(** A tick never touches the alerts, nor any collection but the
    pipelines. *)
Lemma tick_frame (clk : Clock) (rng : nat -> TickDraws) (h : nat) (v : View) :
  Store.alerts (store (tick clk rng h v)) = Store.alerts (store v) /\
  Store.datasets (store (tick clk rng h v)) = Store.datasets (store v) /\
  Store.experiments (store (tick clk rng h v)) = Store.experiments (store v) /\
  Store.externalConnections (store (tick clk rng h v)) =
    Store.externalConnections (store v).
Proof. unfold tick. destruct (timers v !! h) as [[id|]|]; repeat split. Qed.

(** C5.  At every tick, a pipeline that is running (and within the
    progress range 0..100 of the data model) keeps its place and id, its
    progress does not decrease, and it either stays running or becomes
    completed with progress exactly 100. *)
Theorem tick_progress_monotone (clk : Clock) (rng : nat -> TickDraws) (h : nat)
    (v : View) (i : nat) (p : Pipeline.t) :
  (forall j, validDraws (rng j)) ->
  Store.pipelines (store v) !! i = Some p ->
  Pipeline.status p = Pipeline.running ->
  Pipeline.progress p <= 100 ->
  exists p',
    Store.pipelines (store (tick clk rng h v)) !! i = Some p' /\
    Pipeline.id p' = Pipeline.id p /\
    Pipeline.progress p <= Pipeline.progress p' /\
    Pipeline.progress p' <= 100 /\
    (Pipeline.status p' = Pipeline.running \/
     Pipeline.status p' = Pipeline.completed /\ Pipeline.progress p' = 100).
Proof.
  intros Hvalid Hp Hrun Hle.
  destruct (tick_lookup clk rng h v i p Hp) as [H|[id [_ H]]].
  - exists p. repeat split; auto. apply Qle_refl.
  - eexists. split; [exact H|]. unfold tickPipeline.
    destruct (String.eqb (Pipeline.id p) id && isRunning p).
    + split; [apply advancePipeline_id|].
      destruct (Hvalid i) as [[Hadv _] _].
      destruct (advancePipeline_progress clk (rng i) p Hadv Hle) as [H1 H2].
      split; [exact H1|]. split; [exact H2|].
      destruct (advancePipeline_cases clk (rng i) p)
        as [[_ [_ [Hs [H100 _]]]]|[_ [_ [Hs _]]]].
      * right. split; assumption.
      * left. now rewrite Hs.
    + cbn [fst]. repeat split; auto. apply Qle_refl.
Qed.

Lemma tick_progress_monotone_witness :
  ((forall j, validDraws (Examples.brisk 0 j)) /\
   Store.pipelines (store Examples.started) !! 0%nat =
     Some (Pipeline.spread Examples.forecasting Pipeline.running 0 None None None) /\
   Pipeline.status (Pipeline.spread Examples.forecasting Pipeline.running 0 None None None)
     = Pipeline.running /\
   Pipeline.progress
     (Pipeline.spread Examples.forecasting Pipeline.running 0 None None None) <= 100) /\
  exists p',
    Store.pipelines
      (store (tick Examples.clk0 (Examples.brisk 0) 0 Examples.started)) !! 0%nat
      = Some p' /\
    Pipeline.id p' =
      Pipeline.id (Pipeline.spread Examples.forecasting Pipeline.running 0 None None None) /\
    Pipeline.progress
      (Pipeline.spread Examples.forecasting Pipeline.running 0 None None None)
      <= Pipeline.progress p' /\
    Pipeline.progress p' <= 100 /\
    (Pipeline.status p' = Pipeline.running \/
     Pipeline.status p' = Pipeline.completed /\ Pipeline.progress p' = 100).
Proof.
  assert (H1 : forall j, validDraws (Examples.brisk 0 j))
    by (intros j; repeat split; discriminate).
  assert (H2 : Store.pipelines (store Examples.started) !! 0%nat =
               Some (Pipeline.spread Examples.forecasting Pipeline.running 0
                       None None None)) by reflexivity.
  assert (H3 : Pipeline.status
                 (Pipeline.spread Examples.forecasting Pipeline.running 0
                    None None None) = Pipeline.running) by reflexivity.
  assert (H4 : Pipeline.progress
                 (Pipeline.spread Examples.forecasting Pipeline.running 0
                    None None None) <= 100) by discriminate.
  split; [repeat split; try assumption; apply H1|].
  exact (tick_progress_monotone Examples.clk0 (Examples.brisk 0) 0 Examples.started 0
           _ H1 H2 H3 H4).
Defined.

(** Outside the data model's range the tick does lower the progress: a
    running pipeline at 120 is completed at 100. *)
Example tick_above_range :
  fst (advancePipeline Examples.clk0 (Examples.brisk 0 0)
         (Pipeline.spread Examples.forecasting Pipeline.running 120 None None None))
  = Pipeline.spread Examples.forecasting Pipeline.completed 100
      (Some (Num.Finite (182000 # 200000))) (Some (25 # 200))
      (Some "2024-01-21T09:00:00.000Z").
Proof. vm_compute. reflexivity. Qed.

(** *** A started simulator, tick after tick *)

Lemma tickPipeline_id (clk : Clock) (id : string) (d : TickDraws) (p : Pipeline.t) :
  Pipeline.id (fst (tickPipeline clk id d p)) = Pipeline.id p.
Proof.
  unfold tickPipeline. destruct (String.eqb (Pipeline.id p) id && isRunning p);
    [apply advancePipeline_id | reflexivity].
Qed.

Lemma isRunning_spec (p : Pipeline.t) :
  isRunning p = true <-> Pipeline.status p = Pipeline.running.
Proof. unfold isRunning. destruct (Pipeline.status p); split; congruence. Qed.

(** With a single pipeline carrying the id, the timer is cleared exactly
    when that pipeline completes. *)
Lemma tick_clears (clk : Clock) (rng : nat -> TickDraws) (id : string) (i : nat)
    (p : Pipeline.t) (ps : list Pipeline.t) :
  ps !! i = Some p -> Pipeline.id p = id -> Pipeline.status p = Pipeline.running ->
  onlyAt id i ps ->
  existsb snd (imap (fun j q => tickPipeline clk id (rng j) q) ps) =
  snd (advancePipeline clk (rng i) p).
Proof.
  intros Hp Hid Hrun Honly.
  assert (Hi : tickPipeline clk id (rng i) p = advancePipeline clk (rng i) p).
  { unfold tickPipeline. rewrite Hid, String.eqb_refl.
    now rewrite (proj2 (isRunning_spec p) Hrun). }
  destruct (snd (advancePipeline clk (rng i) p)) eqn:Hsnd.
  - apply existsb_exists. exists (advancePipeline clk (rng i) p). split; [|exact Hsnd].
    apply list_elem_of_In, list_elem_of_lookup. exists i.
    now rewrite list_lookup_imap, Hp, <- Hi.
  - apply not_true_is_false. intros H. apply existsb_exists in H as [x [Hx Hs]].
    apply list_elem_of_In, list_elem_of_lookup in Hx as [j Hj].
    rewrite list_lookup_imap in Hj. destruct (ps !! j) as [q|] eqn:Hq; [|discriminate].
    injection Hj as <-. unfold tickPipeline in Hs.
    destruct (String.eqb (Pipeline.id q) id) eqn:Heq; [|discriminate].
    apply String.eqb_eq in Heq. pose proof (Honly j q Hq Heq) as ->.
    assert (q = p) by congruence. subst q.
    rewrite (proj2 (isRunning_spec p) Hrun) in Hs. cbn [andb] in Hs. congruence.
Qed.

Lemma tick_onlyAt (clk : Clock) (rng : nat -> TickDraws) (h : nat) (v : View)
    (id : string) (i : nat) :
  onlyAt id i (Store.pipelines (store v)) ->
  onlyAt id i (Store.pipelines (store (tick clk rng h v))).
Proof.
  intros Honly j q Hq Hid.
  destruct (Store.pipelines (store v) !! j) as [q0|] eqn:Hq0.
  - destruct (tick_lookup clk rng h v j q0 Hq0) as [H|[id' [_ H]]];
      rewrite H in Hq; injection Hq as <-.
    + exact (Honly j q0 Hq0 Hid).
    + rewrite tickPipeline_id in Hid. exact (Honly j q0 Hq0 Hid).
  - exfalso. unfold tick in Hq. destruct (timers v !! h) as [[id'|]|]; try congruence.
    cbn [store Store.setPipelines Store.pipelines] in Hq.
    rewrite list_lookup_fmap, list_lookup_imap, Hq0 in Hq. discriminate.
Qed.






Lemma handleStartPipeline_found (v : View) (id : string) (i : nat) (p : Pipeline.t) :
  Store.pipelines (store v) !! i = Some p -> Pipeline.id p = id ->
  handleStartPipeline id (Store.pipelines (store v)) v =
  {| store :=
       Store.setPipelines
         (fmap (fun q =>
            if String.eqb (Pipeline.id q) id
            then Pipeline.spread q Pipeline.running 0 None
                   (Pipeline.data_drift_score q) (Pipeline.last_run q)
            else q))
         (store v);
     timers := (timers v ++ [Some id])%list |}.
Proof.
  intros Hp Hid. unfold handleStartPipeline.
  destruct (List.find (fun q => String.eqb (Pipeline.id q) id)
              (Store.pipelines (store v))) as [q|] eqn:Hfind; [reflexivity|].
  exfalso. apply list_elem_of_lookup_2, list_elem_of_In in Hp.
  apply (find_none _ _ Hfind) in Hp. rewrite Hid, String.eqb_refl in Hp. discriminate.
Qed.

Lemma handleStartPipeline_running (v : View) (id : string) (i : nat) (p : Pipeline.t) :
  Store.pipelines (store v) !! i = Some p -> Pipeline.id p = id ->
  onlyAt id i (Store.pipelines (store v)) ->
  onlyAt id i (Store.pipelines
                 (store (handleStartPipeline id (Store.pipelines (store v)) v))) /\
  Running id i (length (timers v)) 0
    (handleStartPipeline id (Store.pipelines (store v)) v).
Proof.
  intros Hp Hid Honly. unfold handleStartPipeline.
  destruct (List.find (fun q => String.eqb (Pipeline.id q) id)
              (Store.pipelines (store v))) as [q|] eqn:Hfind.
  - unfold Running. cbn [store timers Store.setPipelines Store.pipelines]. split.
    + intros j q' Hq' Hid'. rewrite list_lookup_fmap in Hq'.
      destruct (Store.pipelines (store v) !! j) as [q0|] eqn:Hq0; [|discriminate].
      injection Hq' as <-. apply (Honly j q0 Hq0).
      destruct (String.eqb (Pipeline.id q0) id) eqn:Heq.
      * now apply String.eqb_eq.
      * exact Hid'.
    + eexists. rewrite list_lookup_fmap, Hp. cbn [fmap option_fmap option_map].
      rewrite Hid, String.eqb_refl. split; [reflexivity|].
      cbn [Pipeline.spread Pipeline.id Pipeline.status Pipeline.progress].
      split; [exact Hid|]. split; [reflexivity|]. split; [apply Qle_refl|].
      split; [reflexivity|].
      rewrite lookup_app_r by lia. now rewrite Nat.sub_diag.
  - exfalso. apply list_elem_of_lookup_2, list_elem_of_In in Hp.
    apply (find_none _ _ Hfind) in Hp. rewrite Hid, String.eqb_refl in Hp. discriminate.
Qed.




(** The run of the witness, evaluated: ten ticks reach 95, the eleventh
    completes and clears the timer. *)
Example simulator_brisk_run :
  let after n := run Examples.clk0 Examples.brisk 0 0 n Examples.started in
  (Pipeline.status <$> Store.pipelines (store (after 10%nat)) !! 0%nat) = Some Pipeline.running /\
  timers (after 10%nat) = [Some "pipeline_1"] /\
  (Pipeline.status <$> Store.pipelines (store (after 11%nat)) !! 0%nat)
    = Some Pipeline.completed /\
  (Pipeline.model_accuracy <$> Store.pipelines (store (after 11%nat)) !! 0%nat)
    = Some (Some (Num.Finite (182000 # 200000))) /\
  timers (after 11%nat) = [None].
Proof. vm_compute. repeat split. Qed.



(** *** No bound on the number of ticks *)

Lemma RunningBelow_weaken (id : string) (i h : nat) (hi hi' : Q) (v : View) :
  hi <= hi' -> RunningBelow id i h hi v -> RunningBelow id i h hi' v.
Proof.
  intros Hle [p [Hp [Hid [Hs [Hlo [Hhi Ht]]]]]]. exists p. repeat split; auto.
  now apply Qle_trans with hi.
Qed.

Lemma tick_running_below (clk : Clock) (rng : nat -> TickDraws) (h : nat) (v : View)
    (id : string) (i : nat) (hi eps : Q) :
  onlyAt id i (Store.pipelines (store v)) ->
  RunningBelow id i h hi v ->
  0 <= advance (rng i) -> advance (rng i) <= eps -> hi + 10 * eps < 100 ->
  RunningBelow id i h (hi + 10 * eps) (tick clk rng h v).
Proof.
  intros Honly [p [Hp [Hid [Hs [Hlo [Hhi Ht]]]]]] Hadv Heps Hbound.
  unfold tick. rewrite Ht.
  rewrite (tick_clears clk rng id i p _ Hp Hid Hs Honly).
  assert (Hi : tickPipeline clk id (rng i) p = advancePipeline clk (rng i) p).
  { unfold tickPipeline. rewrite Hid, String.eqb_refl.
    now rewrite (proj2 (isRunning_spec p) Hs). }
  assert (Hstep : Pipeline.progress p + advance (rng i) * 10 <= hi + 10 * eps).
  { apply Qplus_le_compat; [exact Hhi|].
    rewrite (Qmult_comm (advance (rng i))). apply Qmult_le_l; [reflexivity | exact Heps]. }
  destruct (advancePipeline_cases clk (rng i) p)
    as [[H100 _]|[Hlt [Hsnd [Hst Hprog]]]].
  - exfalso. apply (Qlt_irrefl 100). eapply Qle_lt_trans; [exact H100|].
    eapply Qle_lt_trans; [exact Hstep | exact Hbound].
  - rewrite Hsnd. exists (fst (advancePipeline clk (rng i) p)).
    cbn [store timers Store.setPipelines Store.pipelines].
    rewrite list_lookup_fmap, list_lookup_imap, Hp.
    cbn [fmap option_fmap option_map]. rewrite Hi.
    split; [reflexivity|]. split; [now rewrite advancePipeline_id|].
    split; [now rewrite Hst|]. rewrite Hprog. split; [|split; [exact Hstep | exact Ht]].
    rewrite <- (Qplus_0_r 0). apply Qplus_le_compat; [exact Hlo|].
    apply Qmult_le_0_compat; [exact Hadv | discriminate].
Qed.

Lemma run_below (clk : Clock) (rng : nat -> nat -> TickDraws) (h : nat)
    (id : string) (i : nat) (eps : Q) :
  0 <= eps ->
  (forall k j, 0 <= advance (rng k j) /\ advance (rng k j) <= eps) ->
  forall (n k : nat) (v : View) (hi : Q),
    onlyAt id i (Store.pipelines (store v)) ->
    RunningBelow id i h hi v ->
    hi + 10 * eps * inject_Z (Z.of_nat n) < 100 ->
    RunningBelow id i h (hi + 10 * eps * inject_Z (Z.of_nat n)) (run clk rng h k n v).
Proof.
  intros Heps Hadv. induction n as [|n IH]; intros k v hi Honly Hinv Hbound.
  - cbn [run]. eapply RunningBelow_weaken; [|exact Hinv].
    rewrite Qmult_0_r, Qplus_0_r. apply Qle_refl.
  - cbn [run].
    assert (Hsucc : hi + 10 * eps * inject_Z (Z.of_nat (S n))
                    == hi + 10 * eps + 10 * eps * inject_Z (Z.of_nat n)).
    { rewrite Nat2Z.inj_succ, <- Z.add_1_r, inject_Z_plus. ring. }
    rewrite Hsucc in Hbound.
    assert (Hn : 0 <= 10 * eps * inject_Z (Z.of_nat n)).
    { apply Qmult_le_0_compat.
      - apply Qmult_le_0_compat; [discriminate | exact Heps].
      - change 0 with (inject_Z 0). rewrite <- Zle_Qle. lia. }
    assert (Hone : hi + 10 * eps < 100).
    { eapply Qle_lt_trans; [|exact Hbound].
      rewrite <- (Qplus_0_r (hi + 10 * eps)) at 1. now apply Qplus_le_r. }
    destruct (Hadv k i) as [H0 H1].
    pose proof (tick_running_below clk (rng k) h v id i hi eps Honly Hinv H0 H1 Hone)
      as Hstep.
    eapply RunningBelow_weaken;
      [|exact (IH (S k) _ _ (tick_onlyAt clk (rng k) h v id i Honly) Hstep Hbound)].
    rewrite Hsucc. apply Qle_refl.
Qed.

(** A started simulator whose draws advance by at most [eps] is still
    running after [N] ticks whenever [10 * eps * N < 100]: nine ticks never
    suffice, and small draws need as many ticks as one likes. *)
Theorem simulator_needs_ticks (clk : Clock) (rng : nat -> nat -> TickDraws) (v : View)
    (id : string) (i : nat) (p : Pipeline.t) (eps : Q) (N : nat) :
  Store.pipelines (store v) !! i = Some p -> Pipeline.id p = id ->
  onlyAt id i (Store.pipelines (store v)) ->
  (forall k j, 0 <= advance (rng k j) /\ advance (rng k j) <= eps) ->
  10 * eps * inject_Z (Z.of_nat N) < 100 ->
  RunningBelow id i (length (timers v)) (10 * eps * inject_Z (Z.of_nat N))
    (run clk rng (length (timers v)) 0 N
       (handleStartPipeline id (Store.pipelines (store v)) v)).
Proof.
  intros Hp Hid Honly Hadv Hbound.
  destruct (handleStartPipeline_running v id i p Hp Hid Honly)
    as [Honly0 [q [Hq [Hqid [Hs [_ [_ Ht]]]]]]].
  assert (Heps : 0 <= eps).
  { destruct (Hadv 0%nat 0%nat) as [H0 H1]. now apply Qle_trans with (advance (rng 0%nat 0%nat)). }
  assert (Hq0 : Pipeline.progress q = 0).
  { rewrite (handleStartPipeline_found v id i p Hp Hid) in Hq.
    cbn [store Store.setPipelines Store.pipelines] in Hq.
    rewrite list_lookup_fmap, Hp in Hq. cbn [fmap option_fmap option_map] in Hq.
    rewrite Hid, String.eqb_refl in Hq. now injection Hq as <-. }
  assert (Hinv : RunningBelow id i (length (timers v)) 0
                   (handleStartPipeline id (Store.pipelines (store v)) v)).
  { exists q. repeat split; auto; rewrite Hq0; apply Qle_refl. }
  rewrite <- (Qplus_0_l (10 * eps * inject_Z (Z.of_nat N))) in Hbound.
  eapply RunningBelow_weaken;
    [|exact (run_below clk rng _ id i eps Heps Hadv N 0%nat _ 0 Honly0 Hinv Hbound)].
  rewrite Qplus_0_l. apply Qle_refl.
Qed.

Lemma slowDraws_valid (N k j : nat) :
  validDraws (slowDraws N k j) /\ 0 < advance (slowDraws N k j).
Proof.
  unfold validDraws, unit_interval, slowDraws. cbn [advance variability finalNoise drift].
  repeat split; try discriminate.
  unfold Qlt. cbn [Qnum Qden]. lia.
Qed.

(** For every number of ticks there are draws, all in (0, 1), under which
    the started simulator of the example is still running after that many
    ticks. *)
Lemma simulator_has_no_tick_bound (N : nat) :
  (forall k j, validDraws (slowDraws N k j) /\ 0 < advance (slowDraws N k j)) /\
  RunningBelow "pipeline_1" 0 0 10
    (run Examples.clk0 (slowDraws N) 0 0 N Examples.started).
Proof.
  split; [intros k j; apply slowDraws_valid|].
  assert (H3 : onlyAt "pipeline_1" 0 (Store.pipelines (store Examples.view0))).
  { intros [|[|j]] q Hq Hid; [reflexivity| |discriminate Hq].
    injection Hq as <-. discriminate Hid. }
  assert (Hsmall : 10 * (1 # Pos.of_succ_nat (S N)) * inject_Z (Z.of_nat N) <= 10).
  { unfold Qle, Qmult, inject_Z. cbn [Qnum Qden]. lia. }
  eapply RunningBelow_weaken; [exact Hsmall|].
  apply (simulator_needs_ticks Examples.clk0 (slowDraws N) Examples.view0 "pipeline_1" 0
           Examples.forecasting (1 # Pos.of_succ_nat (S N)) N eq_refl eq_refl H3).
  - intros k j. split; [discriminate | apply Qle_refl].
  - eapply Qle_lt_trans; [exact Hsmall | reflexivity].
Qed.

(** C8: the code keeps the timer.  [handleStopPipeline] never changes the
    timers; after start and stop the interval of the stopped pipeline is
    still active, and a second start leaves two of them running. *)
Theorem handleStopPipeline_keeps_timer :
  (forall id v, timers (handleStopPipeline id v) = timers v) /\
  activeTimers "pipeline_1" (handleStopPipeline "pipeline_1" Examples.started)
    = [0%nat] /\
  activeTimers "pipeline_1"
    (handleStartPipeline "pipeline_1"
       (Store.pipelines (store (handleStopPipeline "pipeline_1" Examples.started)))
       (handleStopPipeline "pipeline_1" Examples.started))
    = [0%nat; 1%nat].
Proof. split; [reflexivity|]. vm_compute. split; reflexivity. Qed.

(** After stop and restart both intervals advance the pipeline: one round
    of firings moves it by two draws. *)
Example restart_runs_twice_as_fast :
  let restarted :=
    handleStartPipeline "pipeline_1"
      (Store.pipelines (store (handleStopPipeline "pipeline_1" Examples.started)))
      (handleStopPipeline "pipeline_1" Examples.started) in
  (Pipeline.progress <$>
     Store.pipelines
       (store (tick Examples.clk0 (Examples.brisk 0) 1
                 (tick Examples.clk0 (Examples.brisk 0) 0 restarted))) !! 0%nat)
  = Some (Qmin 100 (Qmin 100 (0 + (95 # 100) * 10) + (95 # 100) * 10)).
Proof. vm_compute. reflexivity. Qed.

(** C9: the pipeline simulator writes no alert.  No tick changes the
    alerts, in particular not the one that completes the pipeline; the
    experiment simulator does add its completion alert. *)
Theorem pipeline_completion_writes_no_alert :
  (forall clk rng h v, Store.alerts (store (tick clk rng h v)) = Store.alerts (store v)) /\
  ((Pipeline.status <$>
      Store.pipelines
        (store (run Examples.clk0 Examples.brisk 0 0 11 Examples.started)) !! 0%nat)
     = Some Pipeline.completed /\
   Store.alerts (store (run Examples.clk0 Examples.brisk 0 0 11 Examples.started))
     = Store.alerts (store Examples.started)) /\
  (forall clk d id prev,
     Store.alerts (Training.trainingCompleted clk d id prev) =
     Store.newAlert clk Alert.low "Model training completed successfully"
     :: Store.alerts prev).
Proof.
  split; [|split].
  - intros clk rng h v. apply tick_frame.
  - vm_compute. split; reflexivity.
  - reflexivity.
Qed.

End SimulatorFacts.

(** ** The experiment training simulator *)
Module TrainingFacts.
Import Training.
Local Open Scope Q_scope.

Lemma perturb_bounds (x r spread : Q) :
  7 # 10 <= perturb x r spread /\ perturb x r spread <= 95 # 100.
Proof.
  unfold perturb. split.
  - apply Q.le_max_l.
  - apply Q.max_lub; [discriminate | apply Q.le_min_l].
Qed.

(** When the timeout fires, the experiment with the given id is completed
    and one completion alert is put at the head of the alerts. *)
Lemma trainingCompleted_spec (clk : Clock) (d : Draws) (experimentId : string)
    (prev : Store.t) (i : nat) (e : Experiment.t) :
  Store.experiments prev !! i = Some e -> Experiment.id e = experimentId ->
  (exists e', Store.experiments (trainingCompleted clk d experimentId prev) !! i = Some e' /\
     Experiment.id e' = experimentId /\
     Experiment.status e' = Experiment.completed) /\
  Store.alerts (trainingCompleted clk d experimentId prev) =
    Store.newAlert clk Alert.low "Model training completed successfully"
    :: Store.alerts prev.
Proof.
  intros He Hid. split; [|reflexivity].
  unfold trainingCompleted. cbn [Store.setAlerts Store.setExperiments Store.experiments].
  rewrite list_lookup_fmap, He. cbn [fmap option_fmap option_map].
  rewrite Hid, String.eqb_refl. eexists. split; [reflexivity|]. split; [exact Hid|].
  reflexivity.
Qed.

(** Training [Sales model v1] of the [shop] store. *)
Example training_shop :
  let after :=
    trainingCompleted Examples.clk0 Examples.trainingDraws "experiment_1"
      (startModelTraining "experiment_1" Examples.shop) in
  (Experiment.status <$> Store.experiments after) =
    [Experiment.completed; Experiment.completed] /\
  (Experiment.duration <$> Store.experiments after) = [Some 240%Z; Some 245%Z] /\
  (Alert.message <$> Store.alerts after) =
    "Model training completed successfully"
    :: (Alert.message <$> Store.alerts Examples.shop).
Proof. vm_compute. repeat split. Qed.

End TrainingFacts.

(** ** The other operations of the entity store *)
Module CrudFacts.
Import Store Crud.
Local Open Scope Q_scope.

Lemma filter_keeps_all {A : Type} (f : A -> bool) (l : list A) :
  (forall x, In x l -> f x = true) -> List.filter f l = l.
Proof.
  induction l as [|a l IH]; intros H; simpl; [reflexivity|].
  rewrite (H a (or_introl eq_refl)). f_equal. apply IH. intros x Hx. apply H. now right.
Qed.

Lemma addPipeline_id (clk : Clock) (p : Pipeline.t) (snap prev : t) :
  Pipeline.id (fst (addPipeline clk p snap prev)) = Pipeline.id p.
Proof.
  unfold addPipeline. cbn [fst]. destruct (datasets snap); [reflexivity|].
  now destruct (noDataset p).
Qed.

Lemma addPipeline_pipelines (clk : Clock) (p : Pipeline.t) (snap prev : t) :
  pipelines (snd (addPipeline clk p snap prev)) =
  fst (addPipeline clk p snap prev) :: pipelines prev.
Proof. reflexivity. Qed.

(** X1.  Adding a pipeline whose id is new and deleting it again gives back the
    pipelines as they were; the other collections are untouched, and the
    alerts have gained the two reports, newest first. *)
Theorem addPipeline_deletePipeline (clk1 clk2 : Clock) (p : Pipeline.t) (st : t) :
  (forall q, In q (pipelines st) -> Pipeline.id q <> Pipeline.id p) ->
  pipelines (deletePipeline clk2 (Pipeline.id p) (snd (addPipeline clk1 p st st)))
    = pipelines st /\
  datasets (deletePipeline clk2 (Pipeline.id p) (snd (addPipeline clk1 p st st)))
    = datasets st /\
  experiments (deletePipeline clk2 (Pipeline.id p) (snd (addPipeline clk1 p st st)))
    = experiments st /\
  externalConnections
    (deletePipeline clk2 (Pipeline.id p) (snd (addPipeline clk1 p st st)))
    = externalConnections st /\
  map Alert.message
    (alerts (deletePipeline clk2 (Pipeline.id p) (snd (addPipeline clk1 p st st))))
    = "Pipeline deleted successfully"
      :: Js.template ["Pipeline "; Js.dquote; Pipeline.name p; Js.dquote;
                      " created successfully"]
      :: map Alert.message (alerts st).
Proof.
  intros Hfresh. unfold deletePipeline.
  cbn [pipelines datasets experiments externalConnections alerts setAlerts setPipelines].
  rewrite addPipeline_pipelines. cbn [List.filter].
  rewrite addPipeline_id, String.eqb_refl. cbn [negb].
  repeat split.
  - apply filter_keeps_all. intros q Hq. apply negb_true_iff, String.eqb_neq.
    now apply Hfresh.
  - unfold addPipeline. cbn [snd alerts setAlerts setPipelines map Alert.message newAlert].
    do 2 f_equal. destruct (datasets st); [reflexivity|]. now destruct (noDataset p).
Qed.

Lemma addPipeline_deletePipeline_witness :
  (forall q, In q (pipelines Examples.shop) ->
     Pipeline.id q <> Pipeline.id (Examples.pipeline "pipeline_3" "Fraud Detection" None)) /\
  pipelines
    (deletePipeline Examples.clk0
       (Pipeline.id (Examples.pipeline "pipeline_3" "Fraud Detection" None))
       (snd (addPipeline Examples.clk0
               (Examples.pipeline "pipeline_3" "Fraud Detection" None)
               Examples.shop Examples.shop)))
  = pipelines Examples.shop.
Proof.
  assert (H : forall q, In q (pipelines Examples.shop) ->
            Pipeline.id q <>
            Pipeline.id (Examples.pipeline "pipeline_3" "Fraud Detection" None)).
  { intros q [<-|[<-|[]]]; discriminate. }
  split; [exact H|].
  exact (proj1 (addPipeline_deletePipeline Examples.clk0 Examples.clk0
                  (Examples.pipeline "pipeline_3" "Fraud Detection" None)
                  Examples.shop H)).
Defined.

(** X2.  A pipeline added without a dataset is attached to the first dataset of
    the store, so deleting that dataset takes the pipeline with it. *)
Theorem addPipeline_then_deleteDataset (clk1 clk2 : Clock) (p : Pipeline.t) (st : t)
    (first : Dataset.t) (rest : list Dataset.t) :
  datasets st = first :: rest ->
  noDataset p = true ->
  Pipeline.dataset_id (fst (addPipeline clk1 p st st)) = Some (Dataset.id first) /\
  forall q,
    In q (pipelines (deleteDataset clk2 (Dataset.id first)
                       (snd (addPipeline clk1 p st st))
                       (snd (addPipeline clk1 p st st)))) ->
    Pipeline.id q <> Pipeline.id p.
Proof.
  intros Hds Hno.
  assert (Hfst : fst (addPipeline clk1 p st st) = withDataset p (Some (Dataset.id first))).
  { unfold addPipeline. cbn [fst]. now rewrite Hds, Hno. }
  split; [now rewrite Hfst|].
  assert (Hfound : Cascade.lookupDataset (snd (addPipeline clk1 p st st))
                     (Dataset.id first) = Some first).
  { unfold Cascade.lookupDataset, addPipeline.
    cbn [snd datasets setAlerts setPipelines]. rewrite Hds. cbn [List.find].
    now rewrite String.eqb_refl. }
  intros q Hq. rewrite (StoreFacts.deleteDataset_found _ _ _ _ _ Hfound) in Hq.
  cbn [pipelines] in Hq. unfold withoutIds in Hq.
  apply filter_In in Hq as [_ Hq]. apply negb_true_iff in Hq.
  intros Heq. apply not_true_iff_false in Hq. apply Hq.
  apply JsFacts.arrayIncludes_spec. rewrite Heq, <- (addPipeline_id clk1 p st st).
  apply in_map. apply StoreFacts.in_relatedPipelines. split.
  - rewrite addPipeline_pipelines. now left.
  - now rewrite Hfst.
Qed.

Lemma addPipeline_then_deleteDataset_witness :
  (datasets Examples.shop = [Examples.sales; Examples.customers] /\
   noDataset (Examples.pipeline "pipeline_3" "Fraud Detection" None) = true) /\
  Pipeline.dataset_id
    (fst (addPipeline Examples.clk0 (Examples.pipeline "pipeline_3" "Fraud Detection" None)
            Examples.shop Examples.shop))
  = Some (Dataset.id Examples.sales).
Proof.
  split; [split; reflexivity|].
  exact (proj1 (addPipeline_then_deleteDataset Examples.clk0 Examples.clk0
                  (Examples.pipeline "pipeline_3" "Fraud Detection" None)
                  Examples.shop Examples.sales [Examples.customers] eq_refl eq_refl)).
Defined.

(** X3.  Deleting by an id that nothing carries: [deletePipeline] and
    [deleteExperiment] leave the collections as they are and still report a
    deletion; [deleteExternalConnection] does nothing at all. *)
Theorem delete_unknown_id (clk : Clock) (id : string) (st : t) :
  ((forall q, In q (pipelines st) -> Pipeline.id q <> id) ->
   deletePipeline clk id st =
   setAlerts (cons (newAlert clk Alert.low "Pipeline deleted successfully")) st) /\
  ((forall e, In e (experiments st) -> Experiment.id e <> id) ->
   deleteExperiment clk id st =
   setAlerts (cons (newAlert clk Alert.low "Model deleted successfully")) st) /\
  ((forall c, In c (externalConnections st) -> ExternalConnection.id c <> id) ->
   deleteExternalConnection clk id st st = st).
Proof.
  split; [|split]; intros H.
  - unfold deletePipeline, setPipelines, setAlerts. cbn [alerts pipelines datasets
      experiments externalConnections].
    rewrite filter_keeps_all; [reflexivity|].
    intros q Hq. apply negb_true_iff, String.eqb_neq. now apply H.
  - unfold deleteExperiment, setExperiments, setAlerts. cbn [alerts pipelines datasets
      experiments externalConnections].
    rewrite filter_keeps_all; [reflexivity|].
    intros e He. apply negb_true_iff, String.eqb_neq. now apply H.
  - unfold deleteExternalConnection.
    destruct (List.find (fun c => String.eqb (ExternalConnection.id c) id)
                (externalConnections st)) as [c|] eqn:Hfind.
    + exfalso. apply find_some in Hfind as [Hin Heq].
      apply String.eqb_eq in Heq. exact (H c Hin Heq).
    + unfold setExternalConnections. rewrite filter_keeps_all; [now destruct st|].
      intros c Hc. apply negb_true_iff, String.eqb_neq. now apply H.
Qed.

(** *** External connections and their shadow datasets *)

Lemma floor_of_draw (r : Q) (n : Z) :
  (0 < n)%Z -> 0 <= r -> r < 1 ->
  (0 <= Math_floor (r * inject_Z n) <= n - 1)%Z.
Proof.
  intros Hn H0 H1. unfold Math_floor. split.
  - change 0%Z with (Qfloor 0). apply Qfloor_resp_le.
    apply Qmult_le_0_compat; [exact H0|]. change 0 with (inject_Z 0).
    rewrite <- Zle_Qle. lia.
  - enough (Qfloor (r * inject_Z n) < n)%Z by lia.
    rewrite Zlt_Qlt. eapply Qle_lt_trans; [apply Qfloor_le|].
    rewrite <- (Qmult_1_l (inject_Z n)) at 2. apply Qmult_lt_compat_r; [|exact H1].
    change 0 with (inject_Z 0). rewrite <- Zlt_Qlt. exact Hn.
Qed.

(** X4.  The shadow dataset of a new connection carries the connection's name
    followed by " (External)", has as many rows as the connection has
    records, between 1000 and 100999, between 5 and 24 columns and a null
    percentage in [0, 5). *)
Theorem addExternalConnection_shadow (clk : Clock) (d : ConnectionDraws)
    (data : ConnectionData) (st : t) :
  (0 <= recordDraw d /\ recordDraw d < 1) ->
  (0 <= columnsDraw d /\ columnsDraw d < 1) ->
  (0 <= nullDraw d /\ nullDraw d < 1) ->
  exists (shadow : Dataset.t) (columns : Z) (nulls : Q),
    datasets (snd (addExternalConnection clk d data st)) = shadow :: datasets st /\
    externalConnections (snd (addExternalConnection clk d data st)) =
      fst (addExternalConnection clk d data st) :: externalConnections st /\
    Dataset.name shadow =
      (ExternalConnection.name (fst (addExternalConnection clk d data st))
       ++ " (External)")%string /\
    Dataset.size shadow =
      Num.ofZ (ExternalConnection.recordCount (fst (addExternalConnection clk d data st))) /\
    (1000 <= ExternalConnection.recordCount (fst (addExternalConnection clk d data st))
          <= 100999)%Z /\
    Dataset.columns shadow = Num.ofZ columns /\ (5 <= columns <= 24)%Z /\
    Dataset.null_percentage shadow = Num.Finite nulls /\ 0 <= nulls /\ nulls < 5.
Proof.
  intros [Hr0 Hr1] [Hc0 Hc1] [Hn0 Hn1].
  exists (shadowDataset clk d data), (Math_floor (columnsDraw d * 20) + 5)%Z,
         (nullDraw d * 5).
  pose proof (floor_of_draw (recordDraw d) 100000 eq_refl Hr0 Hr1) as Hrec.
  pose proof (floor_of_draw (columnsDraw d) 20 eq_refl Hc0 Hc1) as Hcol.
  cbn [inject_Z] in Hrec, Hcol.
  split; [reflexivity|]. split; [reflexivity|]. split.
  { reflexivity. }
  split; [reflexivity|]. split.
  { cbn [fst addExternalConnection newConnection ExternalConnection.recordCount].
    change (100000 : Q) with (inject_Z 100000). lia. }
  split; [reflexivity|]. split.
  { change (20 : Q) with (inject_Z 20). lia. }
  split; [reflexivity|]. split.
  - apply Qmult_le_0_compat; [exact Hn0 | discriminate].
  - rewrite <- (Qmult_1_l 5) at 2. apply Qmult_lt_compat_r; [reflexivity | exact Hn1].
Qed.

Lemma addExternalConnection_shadow_witness :
  ((0 <= recordDraw Scenarios.halves /\ recordDraw Scenarios.halves < 1) /\
   (0 <= columnsDraw Scenarios.halves /\ columnsDraw Scenarios.halves < 1) /\
   (0 <= nullDraw Scenarios.halves /\ nullDraw Scenarios.halves < 1)) /\
  exists (shadow : Dataset.t) (columns : Z) (nulls : Q),
    datasets (snd (addExternalConnection Examples.clk0 Scenarios.halves
                     Scenarios.warehouse Examples.shop))
      = shadow :: datasets Examples.shop /\
    externalConnections
      (snd (addExternalConnection Examples.clk0 Scenarios.halves
              Scenarios.warehouse Examples.shop))
      = fst (addExternalConnection Examples.clk0 Scenarios.halves
               Scenarios.warehouse Examples.shop)
        :: externalConnections Examples.shop /\
    Dataset.name shadow =
      (ExternalConnection.name
         (fst (addExternalConnection Examples.clk0 Scenarios.halves
                 Scenarios.warehouse Examples.shop))
       ++ " (External)")%string /\
    Dataset.size shadow =
      Num.ofZ (ExternalConnection.recordCount
                 (fst (addExternalConnection Examples.clk0 Scenarios.halves
                         Scenarios.warehouse Examples.shop))) /\
    (1000 <= ExternalConnection.recordCount
               (fst (addExternalConnection Examples.clk0 Scenarios.halves
                       Scenarios.warehouse Examples.shop))
          <= 100999)%Z /\
    Dataset.columns shadow = Num.ofZ columns /\ (5 <= columns <= 24)%Z /\
    Dataset.null_percentage shadow = Num.Finite nulls /\ 0 <= nulls /\ nulls < 5.
Proof.
  assert (H : 0 <= 1 # 2 /\ 1 # 2 < 1) by (split; [discriminate | reflexivity]).
  split; [repeat split; try discriminate|].
  exact (addExternalConnection_shadow Examples.clk0 Scenarios.halves Scenarios.warehouse
           Examples.shop H H H).
Defined.

(** X5.  Creating a connection and deleting it again restores the connections
    and the datasets, provided the new id is not already in use and no
    dataset of the store already bears the shadow name; the alerts gain the
    two reports. *)
Theorem addExternalConnection_deleteExternalConnection (clk1 clk2 : Clock)
    (d : ConnectionDraws) (data : ConnectionData) (st : t) :
  (forall c, In c (externalConnections st) ->
     ExternalConnection.id c <> ExternalConnection.id (newConnection clk1 d data)) ->
  (forall x, In x (datasets st) -> Dataset.name x <> shadowName (cd_name data)) ->
  externalConnections
    (deleteExternalConnection clk2 (ExternalConnection.id (newConnection clk1 d data))
       (snd (addExternalConnection clk1 d data st))
       (snd (addExternalConnection clk1 d data st))) = externalConnections st /\
  datasets
    (deleteExternalConnection clk2 (ExternalConnection.id (newConnection clk1 d data))
       (snd (addExternalConnection clk1 d data st))
       (snd (addExternalConnection clk1 d data st))) = datasets st /\
  pipelines
    (deleteExternalConnection clk2 (ExternalConnection.id (newConnection clk1 d data))
       (snd (addExternalConnection clk1 d data st))
       (snd (addExternalConnection clk1 d data st))) = pipelines st /\
  length (alerts
    (deleteExternalConnection clk2 (ExternalConnection.id (newConnection clk1 d data))
       (snd (addExternalConnection clk1 d data st))
       (snd (addExternalConnection clk1 d data st)))) = S (S (length (alerts st))).
Proof.
  intros Hc Hd. unfold deleteExternalConnection, addExternalConnection.
  cbn [snd externalConnections setAlerts setDatasets setExternalConnections List.find].
  rewrite String.eqb_refl.
  cbn [externalConnections datasets pipelines alerts setAlerts setDatasets
       setExternalConnections List.filter length].
  rewrite String.eqb_refl. cbn [negb].
  change (Dataset.name (shadowDataset clk1 d data)) with (shadowName (cd_name data)).
  change (ExternalConnection.name (newConnection clk1 d data)) with (cd_name data).
  rewrite String.eqb_refl. cbn [negb]. repeat split.
  - apply filter_keeps_all. intros c Hin. apply negb_true_iff, String.eqb_neq.
    now apply Hc.
  - apply filter_keeps_all. intros x Hin. apply negb_true_iff, String.eqb_neq.
    now apply Hd.
Qed.

Lemma addExternalConnection_deleteExternalConnection_witness :
  ((forall c, In c (externalConnections Examples.shop) ->
      ExternalConnection.id c <>
      ExternalConnection.id
        (newConnection Scenarios.clk1 Scenarios.halves Scenarios.warehouse)) /\
   (forall x, In x (datasets Examples.shop) ->
      Dataset.name x <> shadowName (cd_name Scenarios.warehouse))) /\
  datasets
    (deleteExternalConnection Scenarios.clk1
       (ExternalConnection.id
          (newConnection Scenarios.clk1 Scenarios.halves Scenarios.warehouse))
       (snd (addExternalConnection Scenarios.clk1 Scenarios.halves Scenarios.warehouse
               Examples.shop))
       (snd (addExternalConnection Scenarios.clk1 Scenarios.halves Scenarios.warehouse
               Examples.shop))) = datasets Examples.shop.
Proof.
  assert (H1 : forall c, In c (externalConnections Examples.shop) ->
             ExternalConnection.id c <>
             ExternalConnection.id
               (newConnection Scenarios.clk1 Scenarios.halves Scenarios.warehouse)).
  { intros c [<-|[]]. vm_compute. discriminate. }
  assert (H2 : forall x, In x (datasets Examples.shop) ->
             Dataset.name x <> shadowName (cd_name Scenarios.warehouse)).
  { intros x [<-|[<-|[]]]; vm_compute; discriminate. }
  split; [split; assumption|].
  exact (proj1 (proj2 (addExternalConnection_deleteExternalConnection
                         Scenarios.clk1 Scenarios.clk1 Scenarios.halves
                         Scenarios.warehouse Examples.shop H1 H2))).
Defined.

Lemma includes_refl (s : string) : Js.includes s s = true.
Proof.
  apply JsFacts.includes_spec. exists EmptyString, EmptyString.
  change (s = s ++ EmptyString)%string.
  induction s as [|c s IH]; [reflexivity|].
  change (String c s = String c (s ++ EmptyString))%string. now f_equal.
Qed.

(** X6.  Deleting the shadow dataset of a connection that was just created
    removes that connection as well: afterwards no dataset has the shadow's
    id and no connection has the new connection's id. *)
Theorem deleteDataset_of_shadow (clk1 clk2 : Clock) (d : ConnectionDraws)
    (data : ConnectionData) (st : t) :
  (forall x,
     In x (datasets (deleteDataset clk2 (Dataset.id (shadowDataset clk1 d data))
                       (snd (addExternalConnection clk1 d data st))
                       (snd (addExternalConnection clk1 d data st)))) ->
     Dataset.id x <> Dataset.id (shadowDataset clk1 d data)) /\
  (forall c,
     In c (externalConnections
             (deleteDataset clk2 (Dataset.id (shadowDataset clk1 d data))
                (snd (addExternalConnection clk1 d data st))
                (snd (addExternalConnection clk1 d data st)))) ->
     ExternalConnection.id c <> ExternalConnection.id (newConnection clk1 d data)).
Proof.
  assert (Hfound : Cascade.lookupDataset (snd (addExternalConnection clk1 d data st))
                     (Dataset.id (shadowDataset clk1 d data))
                   = Some (shadowDataset clk1 d data)).
  { unfold Cascade.lookupDataset, addExternalConnection.
    cbn [snd datasets setAlerts setDatasets setExternalConnections List.find].
    now rewrite String.eqb_refl. }
  rewrite (StoreFacts.deleteDataset_found _ _ _ _ _ Hfound).
  cbn [datasets externalConnections]. split.
  - intros x Hx. apply filter_In in Hx as [_ Hx].
    now apply negb_true_iff, String.eqb_neq in Hx.
  - intros c Hcin Heq. unfold withoutIds in Hcin.
    apply filter_In in Hcin as [_ Hcin]. apply negb_true_iff, not_true_iff_false in Hcin.
    apply Hcin. apply JsFacts.arrayIncludes_spec. rewrite Heq. apply in_map.
    unfold relatedConnections. apply filter_In. split.
    + cbn [snd addExternalConnection externalConnections setAlerts setDatasets
           setExternalConnections]. now left.
    + unfold connectionRelated. apply includes_refl.
Qed.

(** *** Uploads *)

(** X7.  An uploaded dataset is put first and gets a null percentage
    between 0 and 10 that is a whole number of hundredths.  Under a
    [DataSyncProvider] the upload is counted as one more pending change;
    outside a provider the exception of [useDataSync] is swallowed and the
    sync status stays as it is. *)
Theorem addDataset_null_percentage (clk : Clock) (r : Q)
    (context : option DataSyncContext) (newDataset : NewDataset) (st : t)
    (sync : Sync.SyncStatus) :
  0 <= r -> r < 1 ->
  datasets (snd (fst (addDataset clk r context newDataset st sync)))
    = fst (fst (addDataset clk r context newDataset st sync)) :: datasets st /\
  (exists k : Z,
     (0 <= k <= 1000)%Z /\
     Dataset.null_percentage (fst (fst (addDataset clk r context newDataset st sync)))
       = Num.Finite (inject_Z k / 100)) /\
  Sync.pendingChanges (snd (addDataset clk r (Some provided) newDataset st sync))
    = S (Sync.pendingChanges sync) /\
  snd (addDataset clk r None newDataset st sync) = sync /\
  (exists error, useDataSync None = Storage.Throw error).
Proof.
  intros H0 H1. split; [reflexivity|]. split.
  - exists (Math_round (r * 10 * 100)). split; [|reflexivity].
    unfold Math_round. split.
    + change 0%Z with (Qfloor 0). apply Qfloor_resp_le.
      rewrite <- (Qplus_0_r 0). apply Qplus_le_compat; [|discriminate].
      apply Qmult_le_0_compat; [|discriminate].
      apply Qmult_le_0_compat; [exact H0 | discriminate].
    + enough (Qfloor (r * 10 * 100 + (1 # 2)) < 1001)%Z by lia.
      rewrite Zlt_Qlt. eapply Qle_lt_trans; [apply Qfloor_le|].
      apply Qlt_le_trans with (1 * 10 * 100 + (1 # 2)); [|discriminate].
      apply Qplus_lt_le_compat; [|apply Qle_refl].
      apply Qmult_lt_compat_r; [reflexivity|].
      apply Qmult_lt_compat_r; [reflexivity | exact H1].
  - split; [|split; [reflexivity | now eexists]].
    cbn [addDataset snd dataSync useDataSync provided markDataChanged Sync.handle
         Sync.pendingChanges]. lia.
Qed.

Lemma addDataset_null_percentage_witness :
  (0 <= 345678 # 1000000 /\ 345678 # 1000000 < 1) /\
  Sync.pendingChanges
    (snd (addDataset Examples.clk0 (345678 # 1000000) (Some provided) Scenarios.upload
            Examples.shop Examples.pending3)) = 4%nat /\
  exists k : Z,
    (0 <= k <= 1000)%Z /\
    Dataset.null_percentage
      (fst (fst (addDataset Examples.clk0 (345678 # 1000000) (Some provided)
                   Scenarios.upload Examples.shop Examples.pending3)))
      = Num.Finite (inject_Z k / 100).
Proof.
  assert (H0 : 0 <= 345678 # 1000000) by discriminate.
  assert (H1 : 345678 # 1000000 < 1) by reflexivity.
  split; [split; assumption|].
  pose proof (addDataset_null_percentage Examples.clk0 (345678 # 1000000)
                (Some provided) Scenarios.upload Examples.shop Examples.pending3 H0 H1)
    as H.
  split; [exact (proj1 (proj2 (proj2 H))) | exact (proj1 (proj2 H))].
Defined.

(** *** The merge dialog *)

Lemma selection_idempotent (has : string -> bool) (st : t) :
  selectedDatasets (map Dataset.id (MergeModal.selection has st)) st
  = MergeModal.selection has st.
Proof.
  unfold selectedDatasets, MergeModal.selection.
  assert (H : forall l : list Dataset.t,
    List.filter
      (fun x => Js.arrayIncludes
                  (map Dataset.id (List.filter (fun y => has (Dataset.id y)) l))
                  (Dataset.id x)) l
    = List.filter (fun y => has (Dataset.id y)) l).
  { intros l. apply filter_ext_in. intros x Hx. apply eq_true_iff_eq.
    rewrite JsFacts.arrayIncludes_spec, in_map_iff. split.
    - intros [y [Hid Hy]]. apply filter_In in Hy as [_ Hy]. now rewrite <- Hid.
    - intros Hhas. exists x. split; [reflexivity|]. apply filter_In. tauto. }
  apply H.
Qed.

(** X8.  Whatever is selected in the data view, even with dataset ids that
    repeat, the dataset that the merge dialog creates has exactly the three
    totals the dialog previewed; it is put in front of the datasets of the
    moment, none of which is removed, and the alert reports the number of
    selected datasets. *)
Theorem merge_preview_is_result (clk : Clock) (has : string -> bool) (name : string)
    (snap prev : t) :
  Dataset.size (fst (MergeModal.handleStartMerge clk has name snap prev))
    = MergeModal.totalRows (MergeModal.selection has snap) /\
  Dataset.columns (fst (MergeModal.handleStartMerge clk has name snap prev))
    = MergeModal.totalColumns (MergeModal.selection has snap) /\
  Dataset.null_percentage (fst (MergeModal.handleStartMerge clk has name snap prev))
    = MergeModal.avgMissingData (MergeModal.selection has snap) /\
  datasets (snd (MergeModal.handleStartMerge clk has name snap prev))
    = fst (MergeModal.handleStartMerge clk has name snap prev) :: datasets prev /\
  length (alerts (snd (MergeModal.handleStartMerge clk has name snap prev)))
    = S (length (alerts prev)).
Proof.
  unfold MergeModal.handleStartMerge, mergeDatasets. cbn [fst snd].
  rewrite selection_idempotent. repeat split.
Qed.

End CrudFacts.

(** ** The model comparison *)
Module ComparisonFacts.
Import Comparison.
Local Open Scope Q_scope.

Lemma Qlt_bool_spec (x y : Q) : Qlt_bool x y = true <-> x < y.
Proof.
  unfold Qlt_bool. rewrite negb_true_iff, <- not_true_iff_false, Qle_bool_iff.
  split; [apply Qnot_le_lt | apply Qlt_not_le].
Qed.

Lemma pick_cases (metric : Metric) (best model : Experiment.t) (x y : Q) :
  metricOf metric best = Some x -> metricOf metric model = Some y ->
  (pick metric best model = model /\ strictlyBetter metric model best) \/
  (pick metric best model = best /\ atLeastAsGood metric best model).
Proof.
  intros Hx Hy.
  assert (Hcases : forall a b : Q, (Qlt_bool a b = true /\ a < b) \/
                                   (Qlt_bool a b = false /\ b <= a)).
  { intros a b. destruct (Qlt_bool a b) eqn:H; [left | right]; split; auto.
    - now apply Qlt_bool_spec.
    - apply Qnot_lt_le. intros Hlt. apply Qlt_bool_spec in Hlt. congruence. }
  unfold strictlyBetter, atLeastAsGood.
  destruct metric; unfold pick; rewrite Hx, Hy; cbn [lessThan];
    match goal with
    | |- context [Qlt_bool ?a ?b] =>
        destruct (Hcases a b) as [[-> H]|[-> H]];
          [left; split; [reflexivity | exists y, x; auto]
          |right; split; [reflexivity | exists x, y; auto]]
    end.
Qed.

Lemma strictlyBetter_trans (metric : Metric) (a b c : Experiment.t) :
  strictlyBetter metric a b -> strictlyBetter metric b c -> strictlyBetter metric a c.
Proof.
  intros [x [y [Hx [Hy H1]]]] [y' [z [Hy' [Hz H2]]]].
  assert (y' = y) by congruence. subst y'. exists x, z. split; [exact Hx|].
  split; [exact Hz|]. destruct metric; eauto using Qlt_trans.
Qed.

Lemma strictlyBetter_atLeastAsGood (metric : Metric) (a b c : Experiment.t) :
  strictlyBetter metric a b -> atLeastAsGood metric b c -> strictlyBetter metric a c.
Proof.
  intros [x [y [Hx [Hy H1]]]] [y' [z [Hy' [Hz H2]]]].
  assert (y' = y) by congruence. subst y'. exists x, z. split; [exact Hx|].
  split; [exact Hz|]. destruct metric; eauto using Qlt_le_trans, Qle_lt_trans.
Qed.

Lemma fold_pick_in (metric : Metric) (rest : list Experiment.t) (first : Experiment.t) :
  In (fold_left (pick metric) rest first) (first :: rest).
Proof.
  revert first. induction rest as [|x rest IH]; intros first; [now left|].
  cbn [fold_left]. destruct (IH (pick metric first x)) as [H|H]; [|now right; right].
  rewrite <- H. unfold pick.
  destruct metric;
    match goal with
    | |- context [if ?b then _ else _] => destruct b
    end; cbn; tauto.
Qed.

Lemma fold_pick_firstBest (metric : Metric) (first : Experiment.t)
    (rest : list Experiment.t) :
  (forall m, In m (first :: rest) -> metricOf metric m <> None) ->
  exists pre post,
    first :: rest = (pre ++ fold_left (pick metric) rest first :: post)%list /\
    (forall m, In m pre -> strictlyBetter metric (fold_left (pick metric) rest first) m) /\
    (forall m, In m post -> atLeastAsGood metric (fold_left (pick metric) rest first) m).
Proof.
  induction rest as [|x rest IH] using rev_ind; intros Hall.
  - exists [], []. repeat split; intros m [].
  - rewrite fold_left_app. cbn [fold_left].
    destruct IH as [pre [post [Hl [Hpre Hpost]]]].
    { intros m Hm. apply Hall. destruct Hm as [<-|Hm]; [now left | right].
      apply in_or_app. now left. }
    assert (Hbest : exists b, metricOf metric (fold_left (pick metric) rest first) = Some b).
    { pose proof (fold_pick_in metric rest first) as Hin.
      destruct (metricOf metric (fold_left (pick metric) rest first)) as [b|] eqn:Hb;
        [now exists b|].
      exfalso. apply (Hall (fold_left (pick metric) rest first)); [|exact Hb].
      destruct Hin as [<-|Hin]; [now left | right]. apply in_or_app. now left. }
    assert (Hx : exists y, metricOf metric x = Some y).
    { destruct (metricOf metric x) as [y|] eqn:Hy; [now exists y|].
      exfalso. apply (Hall x); [|exact Hy]. right. apply in_or_app. right. now left. }
    destruct Hbest as [b Hb]. destruct Hx as [y Hy].
    destruct (pick_cases metric (fold_left (pick metric) rest first) x b y Hb Hy)
      as [[-> Hx]|[-> Hx]].
    + exists (first :: rest), []. split; [reflexivity|]. split; [|intros m []].
      intros m Hm. rewrite Hl in Hm. apply in_app_or in Hm as [Hm|[<-|Hm]].
      * eapply strictlyBetter_trans; [exact Hx | now apply Hpre].
      * exact Hx.
      * eapply strictlyBetter_atLeastAsGood; [exact Hx | now apply Hpost].
    + exists pre, (post ++ [x])%list. split; [|split; [exact Hpre|]].
      * change (first :: rest ++ [x])%list with ((first :: rest) ++ [x])%list.
        rewrite Hl, <- app_assoc. reflexivity.
      * intros m Hm. apply in_app_or in Hm as [Hm|[<-|[]]]; [now apply Hpost | exact Hx].
Qed.

Lemma fold_pick_undefined (metric : Metric) (rest : list Experiment.t)
    (first : Experiment.t) :
  metricOf metric first = None -> fold_left (pick metric) rest first = first.
Proof.
  intros Hnone. induction rest as [|x rest IH]; [reflexivity|].
  cbn [fold_left]. replace (pick metric first x) with first; [exact IH|].
  unfold pick. destruct metric; rewrite Hnone; cbn [lessThan];
    try reflexivity; now destruct (metricOf _ x).
Qed.

Lemma fold_pick_defined (metric : Metric) (rest : list Experiment.t)
    (first : Experiment.t) :
  fold_left (pick metric) rest first = first \/
  metricOf metric (fold_left (pick metric) rest first) <> None.
Proof.
  induction rest as [|x rest IH] using rev_ind; [now left|].
  rewrite fold_left_app. cbn [fold_left].
  set (best := fold_left (pick metric) rest first) in *.
  assert (H : pick metric best x = best \/
              (pick metric best x = x /\ metricOf metric x <> None)).
  { unfold pick. destruct metric;
      match goal with
      | |- context [if lessThan ?a ?b then _ else _] =>
          destruct (lessThan a b) eqn:Hlt; [right; split; [reflexivity|] | now left]
      end;
      unfold lessThan in Hlt;
      repeat match type of Hlt with
             | context [match ?o with _ => _ end] => destruct o eqn:?
             end; congruence. }
  destruct H as [->|[-> Hx]]; [exact IH | now right].
Qed.

(** X9.  [getBestModel] returns [null] exactly for an empty array and
    otherwise a model of the array.  When every model of the array has the
    metric, the result is at least as good on it as every model (lowest
    training time, highest value of the other metrics), and among equally
    good models it is the one that comes first in the array as it stands at
    the call: every model before it is strictly worse.  When the first
    model of the array lacks the metric, as the seeded experiments lack
    [auc_roc] and [training_time], the result is that first model whatever
    the others score; and a model that lacks the metric is never returned
    unless it is the first. *)
Theorem getBestModel_first_best (metric : Metric) (selectedModels : list Experiment.t) :
  match getBestModel metric selectedModels with
  | None => selectedModels = []
  | Some best =>
      In best selectedModels /\
      ((forall m, In m selectedModels -> metricOf metric m <> None) ->
       exists pre post,
         selectedModels = (pre ++ best :: post)%list /\
         (forall m, In m pre -> strictlyBetter metric best m) /\
         (forall m, In m post -> atLeastAsGood metric best m)) /\
      (forall first rest,
         selectedModels = first :: rest ->
         (metricOf metric first = None -> best = first) /\
         (best = first \/ metricOf metric best <> None))
  end.
Proof.
  destruct selectedModels as [|first rest]; [reflexivity|]. cbn [getBestModel].
  split; [apply fold_pick_in|]. split.
  - apply fold_pick_firstBest.
  - intros first' rest' [= <- <-]. split.
    + intros Hnone. now apply fold_pick_undefined.
    + apply fold_pick_defined.
Qed.

End ComparisonFacts.

(** ** The alerts view *)
Module AlertsViewFacts.
Import AlertsView.

Lemma filter_length_split {A : Type} (f : A -> bool) (l : list A) :
  (length (List.filter f l) + length (List.filter (fun x => negb (f x)) l))%nat = length l.
Proof.
  induction l as [|x l IH]; [reflexivity|]. cbn [List.filter].
  destruct (f x); cbn [negb length]; lia.
Qed.

(** X10.  Acknowledging an alert takes every active alert with that id out of
    the active list, exactly as dismissing would, and takes nothing else out; no
    alert is lost or reordered, an alert is always in exactly one of the
    two lists, and acknowledging twice is acknowledging once. *)
Theorem handleAcknowledge_active (alertId : string) (alerts : list Alert.t) :
  activeAlerts (handleAcknowledge alertId alerts)
    = handleDismiss alertId (activeAlerts alerts) /\
  map Alert.id (handleAcknowledge alertId alerts) = map Alert.id alerts /\
  (length (acknowledgedAlerts (handleAcknowledge alertId alerts))
   + length (activeAlerts (handleAcknowledge alertId alerts)))%nat = length alerts /\
  handleAcknowledge alertId (handleAcknowledge alertId alerts)
    = handleAcknowledge alertId alerts.
Proof.
  split; [|split; [|split]].
  - unfold activeAlerts, handleAcknowledge, handleDismiss.
    induction alerts as [|a alerts IH]; [reflexivity|].
    cbn [fmap list_fmap List.filter].
    change (list_fmap _ _ ?f alerts) with (f <$> alerts). 
    destruct (String.eqb (Alert.id a) alertId) eqn:Hid.
    + cbn [acknowledge Alert.acknowledged negb].
      destruct (Alert.acknowledged a); cbn [negb List.filter]; rewrite ?Hid; cbn [negb];
        exact IH.
    + destruct (Alert.acknowledged a); cbn [negb List.filter]; rewrite ?Hid; cbn [negb];
        [exact IH | now f_equal].
  - unfold handleAcknowledge. induction alerts as [|a alerts IH]; [reflexivity|].
    cbn [fmap list_fmap map]. f_equal; [|exact IH].
    now destruct (String.eqb (Alert.id a) alertId).
  - unfold acknowledgedAlerts, activeAlerts. rewrite filter_length_split.
    unfold handleAcknowledge. now rewrite length_fmap.
  - unfold handleAcknowledge. induction alerts as [|a alerts IH]; [reflexivity|].
    cbn [fmap list_fmap]. f_equal; [|exact IH].
    destruct (String.eqb (Alert.id a) alertId) eqn:Hid.
    + cbn [acknowledge Alert.id]. now rewrite Hid.
    + now rewrite Hid.
Qed.

(** Dismissing removes every alert with the id, acknowledged or not, and
    keeps the others in order; dismissing an id that no alert has changes
    nothing. *)
Theorem handleDismiss_removes (alertId : string) (alerts : list Alert.t) :
  (forall a, In a (handleDismiss alertId alerts) <->
             In a alerts /\ Alert.id a <> alertId) /\
  handleDismiss alertId (handleAcknowledge alertId alerts) = handleDismiss alertId alerts /\
  ((forall a, In a alerts -> Alert.id a <> alertId) ->
   handleDismiss alertId alerts = alerts).
Proof.
  split; [|split].
  - intros a. unfold handleDismiss. rewrite filter_In, negb_true_iff, String.eqb_neq.
    reflexivity.
  - unfold handleDismiss, handleAcknowledge.
    induction alerts as [|a alerts IH]; [reflexivity|].
    cbn [fmap list_fmap List.filter].
    destruct (String.eqb (Alert.id a) alertId) eqn:Hid.
    + cbn [acknowledge Alert.id]. rewrite Hid. cbn [negb]. exact IH.
    + rewrite Hid. cbn [negb]. now f_equal.
  - intros H. apply CrudFacts.filter_keeps_all. intros a Ha.
    apply negb_true_iff, String.eqb_neq. now apply H.
Qed.

End AlertsViewFacts.

(** ** The status bar *)
Module StatusBarFacts.
Import StatusBar.
Local Open Scope Z_scope.

(** X11.  [formatLastSync] says "Just now" for less than a minute, also for a
    date in the future; whole minutes from 1 to 59 below an hour; whole
    hours from 1 to 23 below a day; the date from a day on. *)
Theorem age_ranges (now date : Z) :
  match age now date with
  | JustNow => now - date < 60000
  | MinutesAgo diffMins =>
      1 <= diffMins <= 59 /\
      60000 * diffMins <= now - date < 60000 * (diffMins + 1)
  | HoursAgo hours =>
      1 <= hours <= 23 /\
      3600000 * hours <= now - date < 3600000 * (hours + 1)
  | OnDate => 86400000 <= now - date
  end.
Proof.
  unfold age. set (diffMs := now - date).
  pose proof (Z.div_mod diffMs 60000 ltac:(lia)) as Hd.
  pose proof (Z.mod_pos_bound diffMs 60000 ltac:(lia)) as Hm.
  destruct (diffMs / 60000 <? 1) eqn:H1; [apply Z.ltb_lt in H1; lia|].
  apply Z.ltb_ge in H1.
  destruct (diffMs / 60000 <? 60) eqn:H2; [apply Z.ltb_lt in H2; lia|].
  apply Z.ltb_ge in H2.
  pose proof (Z.div_mod (diffMs / 60000) 60 ltac:(lia)) as Hd'.
  pose proof (Z.mod_pos_bound (diffMs / 60000) 60 ltac:(lia)) as Hm'.
  destruct (diffMs / 60000 <? 1440) eqn:H3; [apply Z.ltb_lt in H3; lia|].
  apply Z.ltb_ge in H3. lia.
Qed.

End StatusBarFacts.

(** ** The session *)
Module AuthFacts.
Import Storage Auth.

Lemma acceptedPassword_spec (password : string) :
  acceptedPassword password = true <->
  password = "admin123" \/ password = "viewer123".
Proof.
  unfold acceptedPassword. now rewrite orb_true_iff, !String.eqb_eq.
Qed.

Lemma find_mockUser (u : User) :
  In u mockUsers ->
  List.find (fun x => String.eqb (email x) (email u)) mockUsers = Some u.
Proof. intros [<-|[<-|[]]]; reflexivity. Qed.

Section Login.
Variable stringify : User -> string.

(** X12.  Either of the two passwords signs in either of the two accounts: the
    password is not checked against the account.  When the storage takes
    the write, [login] resolves to [true], the user is the account of the
    e-mail address and its serialization is stored. *)
Theorem login_accepts_either_password (u : User) (password : string) (s : Session) :
  In u mockUsers ->
  password = "admin123" \/ password = "viewer123" ->
  blocked (storage s) = false ->
  full (storage s) userKey (stringify u) = false ->
  snd (login stringify (email u) password s) = Ok true /\
  user (fst (login stringify (email u) password s)) = Some u /\
  isLoading (fst (login stringify (email u) password s)) = false /\
  getItem userKey (storage (fst (login stringify (email u) password s)))
    = Ok (Some (stringify u)).
Proof.
  intros Hu Hp Hb Hf. apply acceptedPassword_spec in Hp.
  unfold login. rewrite (find_mockUser u Hu), Hp. unfold setItem. rewrite Hb, Hf.
  cbn [fst snd user isLoading storage]. repeat split.
  unfold getItem. cbn [blocked items]. f_equal. apply lookup_insert_eq.
Qed.

(** X13.  When the storage refuses the write, [login] rejects with the storage's
    exception after the user has been set: the session is signed in,
    nothing is stored, and the loading flag stays up. *)
Theorem login_storage_failure (u : User) (password : string) (s : Session) :
  In u mockUsers ->
  password = "admin123" \/ password = "viewer123" ->
  blocked (storage s) = true \/ full (storage s) userKey (stringify u) = true ->
  (exists error, snd (login stringify (email u) password s) = Throw error) /\
  user (fst (login stringify (email u) password s)) = Some u /\
  isLoading (fst (login stringify (email u) password s)) = true /\
  storage (fst (login stringify (email u) password s)) = storage s.
Proof.
  intros Hu Hp Hs. apply acceptedPassword_spec in Hp.
  unfold login. rewrite (find_mockUser u Hu), Hp. unfold setItem.
  destruct (blocked (storage s)) eqn:Hb.
  - cbn [fst snd user isLoading storage]. repeat split. now eexists.
  - destruct Hs as [Hs|Hs]; [discriminate|]. rewrite Hs.
    cbn [fst snd user isLoading storage]. repeat split. now eexists.
Qed.

(** A wrong password or an unknown address resolves to [false] and leaves
    the user and the storage as they were. *)
Theorem login_rejected (address password : string) (s : Session) :
  (forall u, In u mockUsers -> email u <> address) \/
  (password <> "admin123" /\ password <> "viewer123") ->
  snd (login stringify address password s) = Ok false /\
  user (fst (login stringify address password s)) = user s /\
  storage (fst (login stringify address password s)) = storage s /\
  isLoading (fst (login stringify address password s)) = false.
Proof.
  intros H. unfold login.
  destruct (List.find (fun u => String.eqb (email u) address) mockUsers) as [u|] eqn:Hfind;
    [|repeat split].
  destruct (acceptedPassword password) eqn:Hp; [|repeat split].
  exfalso. destruct H as [H|[H1 H2]].
  - apply find_some in Hfind as [Hin Heq]. apply String.eqb_eq in Heq.
    exact (H u Hin Heq).
  - apply acceptedPassword_spec in Hp as [Hp|Hp]; contradiction.
Qed.

(** X14.  Signing out after a successful sign-in removes the stored user: the
    session has no user and the storage has no entry under the key, so the
    next page load starts signed out. *)
Theorem login_then_logout (u : User) (password : string) (s : Session) :
  In u mockUsers ->
  password = "admin123" \/ password = "viewer123" ->
  blocked (storage s) = false ->
  full (storage s) userKey (stringify u) = false ->
  snd (logout (fst (login stringify (email u) password s))) = Ok tt /\
  user (fst (logout (fst (login stringify (email u) password s)))) = None /\
  getItem userKey (storage (fst (logout (fst (login stringify (email u) password s)))))
    = Ok None /\
  forall key, key <> userKey ->
    getItem key (storage (fst (logout (fst (login stringify (email u) password s)))))
    = getItem key (storage s).
Proof.
  intros Hu Hp Hb Hf. apply acceptedPassword_spec in Hp.
  unfold login. rewrite (find_mockUser u Hu), Hp. unfold setItem. rewrite Hb, Hf.
  cbn [fst]. unfold logout, removeItem. cbn [storage blocked items full].
  cbn [fst snd user storage]. unfold getItem. cbn [blocked items]. rewrite Hb.
  repeat split.
  - f_equal. apply lookup_delete_eq.
  - intros key Hkey. f_equal.
    rewrite lookup_delete_ne, lookup_insert_ne by congruence. reflexivity.
Qed.

End Login.

Lemma login_accepts_either_password_witness :
  (In Scenarios.administrator mockUsers /\
   ("viewer123" = "admin123" \/ "viewer123" = "viewer123") /\
   blocked (storage Scenarios.signedOut) = false /\
   full (storage Scenarios.signedOut) userKey (Scenarios.userText Scenarios.administrator)
     = false) /\
  snd (login Scenarios.userText (email Scenarios.administrator) "viewer123"
         Scenarios.signedOut) = Ok true /\
  user (fst (login Scenarios.userText (email Scenarios.administrator) "viewer123"
               Scenarios.signedOut)) = Some Scenarios.administrator.
Proof.
  assert (H1 : In Scenarios.administrator mockUsers) by (left; reflexivity).
  assert (H2 : "viewer123" = "admin123" \/ "viewer123" = "viewer123")
    by (right; reflexivity).
  assert (H3 : blocked (storage Scenarios.signedOut) = false) by reflexivity.
  assert (H4 : full (storage Scenarios.signedOut) userKey
                 (Scenarios.userText Scenarios.administrator) = false) by reflexivity.
  split; [repeat split; assumption|].
  pose proof (login_accepts_either_password Scenarios.userText Scenarios.administrator
                "viewer123" Scenarios.signedOut H1 H2 H3 H4) as H.
  split; [exact (proj1 H) | exact (proj1 (proj2 H))].
Defined.

Lemma login_storage_failure_witness :
  (In Scenarios.administrator mockUsers /\
   ("admin123" = "admin123" \/ "admin123" = "viewer123") /\
   (blocked (storage Scenarios.privateMode) = true \/
    full (storage Scenarios.privateMode) userKey
      (Scenarios.userText Scenarios.administrator) = true)) /\
  isLoading (fst (login Scenarios.userText (email Scenarios.administrator) "admin123"
                    Scenarios.privateMode)) = true.
Proof.
  assert (H1 : In Scenarios.administrator mockUsers) by (left; reflexivity).
  assert (H2 : "admin123" = "admin123" \/ "admin123" = "viewer123")
    by (left; reflexivity).
  assert (H3 : blocked (storage Scenarios.privateMode) = true \/
               full (storage Scenarios.privateMode) userKey
                 (Scenarios.userText Scenarios.administrator) = true)
    by (left; reflexivity).
  split; [repeat split; assumption|].
  exact (proj1 (proj2 (proj2 (login_storage_failure Scenarios.userText
                                Scenarios.administrator "admin123"
                                Scenarios.privateMode H1 H2 H3)))).
Defined.

Lemma login_rejected_witness :
  ((forall u, In u mockUsers -> email u <> "admin@mlpipeline.com") \/
   ("letmein" <> "admin123" /\ "letmein" <> "viewer123")) /\
  snd (login Scenarios.userText "admin@mlpipeline.com" "letmein" Scenarios.signedOut)
    = Ok false.
Proof.
  assert (H : (forall u, In u mockUsers -> email u <> "admin@mlpipeline.com") \/
              ("letmein" <> "admin123" /\ "letmein" <> "viewer123"))
    by (right; split; discriminate).
  split; [exact H|].
  exact (proj1 (login_rejected Scenarios.userText "admin@mlpipeline.com" "letmein"
                  Scenarios.signedOut H)).
Defined.

Lemma login_then_logout_witness :
  (In Scenarios.administrator mockUsers /\
   ("admin123" = "admin123" \/ "admin123" = "viewer123") /\
   blocked (storage Scenarios.signedOut) = false /\
   full (storage Scenarios.signedOut) userKey (Scenarios.userText Scenarios.administrator)
     = false) /\
  getItem userKey
    (storage (fst (logout (fst (login Scenarios.userText (email Scenarios.administrator)
                                  "admin123" Scenarios.signedOut)))))
    = Ok None.
Proof.
  assert (H1 : In Scenarios.administrator mockUsers) by (left; reflexivity).
  assert (H2 : "admin123" = "admin123" \/ "admin123" = "viewer123")
    by (left; reflexivity).
  assert (H3 : blocked (storage Scenarios.signedOut) = false) by reflexivity.
  assert (H4 : full (storage Scenarios.signedOut) userKey
                 (Scenarios.userText Scenarios.administrator) = false) by reflexivity.
  split; [repeat split; assumption|].
  exact (proj1 (proj2 (proj2 (login_then_logout Scenarios.userText
                                Scenarios.administrator "admin123" Scenarios.signedOut
                                H1 H2 H3 H4)))).
Defined.

End AuthFacts.

(** ** The reconciler's interval and its watching effect *)
Module ReconcilerFacts.
Import Storage Sync Reconciler.

Lemma cycle_without_failures (draws : Collection -> Draw) (mockData : Store.t) :
  (forall c, fails draws c = false) -> cycleErrors draws mockData = [].
Proof. intros H. apply SyncFacts.cycleErrors_nil. intros c _. apply H. Qed.

Lemma sameLengths_refl (mockData : Store.t) : sameLengths mockData mockData = true.
Proof. unfold sameLengths. apply forallb_forall. intros c _. apply Nat.eqb_refl. Qed.

Lemma autoSyncRound_idle (host : Host) (draws : Collection -> Draw) (st : State) :
  pendingChanges (syncStatus st) = 0%nat -> autoSyncRound host draws st = st.
Proof.
  intros H. unfold autoSyncRound, autoSync. rewrite H. cbn [Nat.ltb Nat.leb andb].
  unfold watcher. rewrite sameLengths_refl. now destruct st.
Qed.

Lemma due_shows (host : Host) (ls : LocalStorage) :
  blocked ls = false ->
  items ls !! lastAlertKey = None \/
  items ls !! lastAlertKey = Some EmptyString \/
  (exists text lastAlertTime,
     items ls !! lastAlertKey = Some text /\ getTime host text = Some lastAlertTime /\
     (24 * 60 * 60 * 1000 <= Z.of_N (now_ms (clock host)) - lastAlertTime)%Z) ->
  shouldShowSyncAlert host ls = Ok true.
Proof.
  intros Hb Hdue. unfold shouldShowSyncAlert, getItem. rewrite Hb. cbn [bind].
  destruct Hdue as [->|[->|[text [t [-> [Ht Hold]]]]]]; [reflexivity | reflexivity|].
  destruct (truthy text); [|reflexivity]. rewrite Ht. f_equal. now apply Z.leb_le.
Qed.

(** X15.  A cycle of the interval in which every call succeeds and the
    success alert is due (none was shown before, the stored time is empty,
    or it lies 24 hours or more back) resets the pending changes to 0, adds
    the alert and records the time; the watching effect then counts the new
    alert as a change of the data, so the round ends with one pending
    change although nothing but the reconciler touched the data. *)
Theorem sync_alert_counts_as_change (host : Host) (draws : Collection -> Draw)
    (st : State) :
  isSyncing (syncStatus st) = false ->
  isOnline (syncStatus st) = true ->
  (0 < pendingChanges (syncStatus st))%nat ->
  storageWorks st ->
  items (browser st) !! lastAlertKey = None \/
  items (browser st) !! lastAlertKey = Some EmptyString \/
  (exists text lastAlertTime,
     items (browser st) !! lastAlertKey = Some text /\
     getTime host text = Some lastAlertTime /\
     (24 * 60 * 60 * 1000 <= Z.of_N (now_ms (clock host)) - lastAlertTime)%Z) ->
  (forall c, fails draws c = false) ->
  pendingChanges (syncStatus (autoSyncRound host draws st)) = 1%nat /\
  isSyncing (syncStatus (autoSyncRound host draws st)) = false /\
  syncErrors (syncStatus (autoSyncRound host draws st)) = [] /\
  lastSync (syncStatus (autoSyncRound host draws st)) = now_iso (clock host) /\
  Store.alerts (mockData (autoSyncRound host draws st))
    = syncAlert host :: Store.alerts (mockData st) /\
  items (browser (autoSyncRound host draws st)) !! lastAlertKey
    = Some (now_iso (clock host)).
Proof.
  intros Hsync Honline Hpending [Hblocked Hfull] Hdue Hdraws.
  apply Nat.ltb_lt in Hpending.
  unfold autoSyncRound, autoSync. rewrite Hpending, Hsync, Honline. cbn [negb andb].
  unfold triggerSync. rewrite Hsync, (cycle_without_failures _ _ Hdraws).
  unfold completeSync, afterSettled, during, setSyncStatus.
  cbn [length Nat.eqb fold_left syncStatus mockData browser].
  rewrite (due_shows host (browser st) Hblocked Hdue).
  unfold markSyncAlertShown, setItem. cbn [browser]. rewrite Hblocked, Hfull.
  cbn [syncStatus mockData browser]. unfold watcher, sameLengths, collections.
  cbn [forallb lengthOf Store.setAlerts Store.alerts Store.pipelines Store.datasets
       Store.experiments Store.externalConnections length].
  rewrite !Nat.eqb_refl.
  replace (length (Store.alerts (mockData st)) =? S (length (Store.alerts (mockData st))))%nat
    with false by (symmetry; apply Nat.eqb_neq; lia).
  cbn [andb handle settled started pendingChanges isSyncing syncErrors lastSync length
       Nat.ltb Nat.leb items].
  repeat split. apply lookup_insert_eq.
Qed.

(** X16.  A cycle in which every call succeeds less than 24 hours after the last
    success alert resets the pending changes to 0 and touches neither the
    data nor the storage; from then on the interval does nothing until the
    data change again. *)
Theorem clean_cycle_settles (host : Host) (draws : Collection -> Draw) (st : State)
    (text : string) (lastAlertTime : Z) :
  isSyncing (syncStatus st) = false ->
  isOnline (syncStatus st) = true ->
  (0 < pendingChanges (syncStatus st))%nat ->
  storageWorks st ->
  items (browser st) !! lastAlertKey = Some text ->
  truthy text = true ->
  getTime host text = Some lastAlertTime ->
  (Z.of_N (now_ms (clock host)) - lastAlertTime < 24 * 60 * 60 * 1000)%Z ->
  (forall c, fails draws c = false) ->
  pendingChanges (syncStatus (autoSyncRound host draws st)) = 0%nat /\
  syncErrors (syncStatus (autoSyncRound host draws st)) = [] /\
  mockData (autoSyncRound host draws st) = mockData st /\
  browser (autoSyncRound host draws st) = browser st /\
  forall host' draws',
    autoSyncRound host' draws' (autoSyncRound host draws st)
    = autoSyncRound host draws st.
Proof.
  intros Hsync Honline Hpending [Hblocked Hfull] Hkey Htruthy Htime Hrecent Hdraws.
  apply Nat.ltb_lt in Hpending. apply Z.leb_gt in Hrecent.
  assert (Hround : autoSyncRound host draws st =
          {| syncStatus := settled host [] (started (syncStatus st));
             mockData := mockData st; browser := browser st |}).
  { unfold autoSyncRound, autoSync. rewrite Hpending, Hsync, Honline. cbn [negb andb].
    unfold triggerSync. rewrite Hsync, (cycle_without_failures _ _ Hdraws).
    unfold completeSync, afterSettled, during, setSyncStatus.
    cbn [length Nat.eqb fold_left syncStatus mockData browser].
    unfold shouldShowSyncAlert, getItem. rewrite Hblocked, Hkey. cbn [bind].
    rewrite Htruthy, Htime, Hrecent. cbn [syncStatus mockData browser].
    unfold watcher. now rewrite sameLengths_refl. }
  rewrite Hround. cbn [syncStatus mockData browser settled pendingChanges syncErrors length
                       Nat.ltb Nat.leb].
  repeat split. intros host' draws'. now apply autoSyncRound_idle.
Qed.

Lemma sync_alert_counts_as_change_witness :
  (isSyncing (syncStatus Scenarios.synced) = false /\
   isOnline (syncStatus Scenarios.synced) = true /\
   (0 < pendingChanges (syncStatus Scenarios.synced))%nat /\
   storageWorks Scenarios.synced /\
   (items (browser Scenarios.synced) !! lastAlertKey = None \/
    items (browser Scenarios.synced) !! lastAlertKey = Some EmptyString \/
    (exists text lastAlertTime,
       items (browser Scenarios.synced) !! lastAlertKey = Some text /\
       getTime Scenarios.nextDay text = Some lastAlertTime /\
       (24 * 60 * 60 * 1000
        <= Z.of_N (now_ms (clock Scenarios.nextDay)) - lastAlertTime)%Z)) /\
   (forall c, fails Examples.calm c = false)) /\
  pendingChanges (syncStatus (autoSyncRound Scenarios.nextDay Examples.calm
                                Scenarios.synced)) = 1%nat.
Proof.
  assert (H1 : isSyncing (syncStatus Scenarios.synced) = false) by reflexivity.
  assert (H2 : isOnline (syncStatus Scenarios.synced) = true) by reflexivity.
  assert (H3 : (0 < pendingChanges (syncStatus Scenarios.synced))%nat) by (cbn; lia).
  assert (H4 : storageWorks Scenarios.synced) by (split; reflexivity).
  assert (H5 : items (browser Scenarios.synced) !! lastAlertKey = None \/
               items (browser Scenarios.synced) !! lastAlertKey = Some EmptyString \/
               (exists text lastAlertTime,
                  items (browser Scenarios.synced) !! lastAlertKey = Some text /\
                  getTime Scenarios.nextDay text = Some lastAlertTime /\
                  (24 * 60 * 60 * 1000
                   <= Z.of_N (now_ms (clock Scenarios.nextDay)) - lastAlertTime)%Z)).
  { right. right. exists "2024-01-21T09:00:00.000Z", 1705827600000%Z.
    split; [vm_compute; reflexivity|]. split; [reflexivity|]. vm_compute. discriminate. }
  assert (H6 : forall c, fails Examples.calm c = false) by (intros []; reflexivity).
  split; [repeat split; assumption|].
  exact (proj1 (sync_alert_counts_as_change Scenarios.nextDay Examples.calm
                  Scenarios.synced H1 H2 H3 H4 H5 H6)).
Defined.

Lemma clean_cycle_settles_witness :
  (isSyncing (syncStatus Scenarios.synced) = false /\
   isOnline (syncStatus Scenarios.synced) = true /\
   (0 < pendingChanges (syncStatus Scenarios.synced))%nat /\
   storageWorks Scenarios.synced /\
   items (browser Scenarios.synced) !! lastAlertKey = Some "2024-01-21T09:00:00.000Z" /\
   truthy "2024-01-21T09:00:00.000Z" = true /\
   getTime Scenarios.host1 "2024-01-21T09:00:00.000Z" = Some 1705827600000%Z /\
   (Z.of_N (now_ms (clock Scenarios.host1)) - 1705827600000 < 24 * 60 * 60 * 1000)%Z /\
   (forall c, fails Examples.calm c = false)) /\
  pendingChanges (syncStatus (autoSyncRound Scenarios.host1 Examples.calm
                                Scenarios.synced)) = 0%nat /\
  mockData (autoSyncRound Scenarios.host1 Examples.calm Scenarios.synced)
    = mockData Scenarios.synced.
Proof.
  assert (H1 : isSyncing (syncStatus Scenarios.synced) = false) by reflexivity.
  assert (H2 : isOnline (syncStatus Scenarios.synced) = true) by reflexivity.
  assert (H3 : (0 < pendingChanges (syncStatus Scenarios.synced))%nat) by (cbn; lia).
  assert (H4 : storageWorks Scenarios.synced) by (split; reflexivity).
  assert (H5 : items (browser Scenarios.synced) !! lastAlertKey
               = Some "2024-01-21T09:00:00.000Z") by (vm_compute; reflexivity).
  assert (H6 : truthy "2024-01-21T09:00:00.000Z" = true) by reflexivity.
  assert (H7 : getTime Scenarios.host1 "2024-01-21T09:00:00.000Z"
               = Some 1705827600000%Z) by reflexivity.
  assert (H8 : (Z.of_N (now_ms (clock Scenarios.host1)) - 1705827600000
                < 24 * 60 * 60 * 1000)%Z) by (vm_compute; reflexivity).
  assert (H9 : forall c, fails Examples.calm c = false) by (intros []; reflexivity).
  split; [repeat split; assumption|].
  pose proof (clean_cycle_settles Scenarios.host1 Examples.calm Scenarios.synced
                "2024-01-21T09:00:00.000Z" 1705827600000%Z
                H1 H2 H3 H4 H5 H6 H7 H8 H9) as H.
  split; [exact (proj1 H) | exact (proj1 (proj2 (proj2 H)))].
Defined.

Lemma completeSync_isSyncing (host : Host) (errors : list string) (st : State) :
  isSyncing (syncStatus (completeSync host errors st)) = false.
Proof.
  unfold completeSync, afterSettled. destruct errors as [|e errors]; simpl.
  - destruct (shouldShowSyncAlert host (browser st)) as [[|]|m]; simpl; try reflexivity.
    destruct (markSyncAlertShown host (browser st)) as [ls|m]; reflexivity.
  - reflexivity.
Qed.

(** X17.  Coming back online only marks the reconciler online when the render
    saw no pending change or a cycle is running; otherwise it starts a
    cycle at once, and when no call of that cycle fails the pending count
    is 0 afterwards, whatever changed while the calls were in flight. *)
Theorem handleOnline_outcome (host : Host) (draws : Collection -> Draw)
    (events : list Event) (st : State) :
  (pendingChanges (syncStatus st) = 0%nat ->
   handleOnline host draws events st = setSyncStatus (handle WentOnline) st) /\
  (isSyncing (syncStatus st) = true ->
   handleOnline host draws events st = setSyncStatus (handle WentOnline) st) /\
  ((0 < pendingChanges (syncStatus st))%nat ->
   isSyncing (syncStatus st) = false ->
   (forall c, fails draws c = false) ->
   pendingChanges (syncStatus (handleOnline host draws events st)) = 0%nat /\
   isSyncing (syncStatus (handleOnline host draws events st)) = false).
Proof.
  unfold handleOnline. split; [|split].
  - intros ->. reflexivity.
  - intros Hsync. destruct (0 <? pendingChanges (syncStatus st))%nat; [|reflexivity].
    unfold triggerSync. cbn [setSyncStatus syncStatus handle isSyncing].
    now rewrite Hsync.
  - intros Hpending Hsync Hdraws. apply Nat.ltb_lt in Hpending. rewrite Hpending.
    unfold triggerSync. cbn [setSyncStatus syncStatus handle isSyncing mockData].
    rewrite Hsync, (cycle_without_failures _ _ Hdraws).
    split; [|apply completeSync_isSyncing].
    now rewrite SyncFacts.completeSync_pendingChanges.
Qed.

End ReconcilerFacts.

(** ** Timers and the pipelines they no longer drive *)
Module LifecycleFacts.
Import Simulator PipelinesView.
Local Open Scope Q_scope.

Lemma tickPipeline_not_running (clk : Clock) (id : string) (d : TickDraws)
    (p : Pipeline.t) :
  Pipeline.id p <> id \/ Pipeline.status p <> Pipeline.running ->
  tickPipeline clk id d p = (p, false).
Proof.
  intros H. unfold tickPipeline.
  destruct (String.eqb (Pipeline.id p) id) eqn:Hid; [|reflexivity].
  destruct (isRunning p) eqn:Hr; [|reflexivity].
  apply String.eqb_eq in Hid. apply SimulatorFacts.isRunning_spec in Hr. tauto.
Qed.

Lemma imap_not_running (clk : Clock) (id : string) (ps : list Pipeline.t) :
  (forall p, In p ps -> Pipeline.id p <> id \/ Pipeline.status p <> Pipeline.running) ->
  forall rng : nat -> TickDraws,
    imap (fun i p => tickPipeline clk id (rng i) p) ps = (fun p => (p, false)) <$> ps.
Proof.
  induction ps as [|p ps IH]; intros H rng; [reflexivity|].
  cbn [imap fmap list_fmap]. f_equal.
  - apply tickPipeline_not_running, H. now left.
  - apply (IH (fun q Hq => H q (or_intror Hq)) (rng ∘ S)).
Qed.

Lemma tick_not_running (clk : Clock) (rng : nat -> TickDraws) (h : nat) (v : View)
    (id : string) :
  timers v !! h = Some (Some id) ->
  (forall p, In p (Store.pipelines (store v)) ->
     Pipeline.id p <> id \/ Pipeline.status p <> Pipeline.running) ->
  tick clk rng h v = v.
Proof.
  intros Ht H. unfold tick. rewrite Ht, (imap_not_running clk id _ H).
  assert (Hfst : forall ps : list Pipeline.t,
            fst <$> ((fun p => (p, false)) <$> ps) = ps).
  { induction ps as [|q ps IH]; [reflexivity|]. cbn [fmap list_fmap]. f_equal. exact IH. }
  assert (Hsnd : forall ps : list Pipeline.t,
            existsb snd ((fun p : Pipeline.t => (p, false)) <$> ps) = false).
  { induction ps as [|q ps IH]; [reflexivity|]. exact IH. }
  rewrite Hfst, Hsnd. destruct v as [[ps ds es als cs] ts]. reflexivity.
Qed.

Lemma run_not_running (clk : Clock) (rng : nat -> nat -> TickDraws) (h : nat) (v : View)
    (id : string) :
  timers v !! h = Some (Some id) ->
  (forall p, In p (Store.pipelines (store v)) ->
     Pipeline.id p <> id \/ Pipeline.status p <> Pipeline.running) ->
  forall n k, run clk rng h k n v = v.
Proof.
  intros Ht H n. induction n as [|n IH]; intros k; [reflexivity|].
  cbn [run]. rewrite (tick_not_running clk (rng k) h v id Ht H). apply IH.
Qed.

(** X18.  Stopping a pipeline freezes it: however often its timer fires
    afterwards, nothing in the view changes, the progress shown stays where
    it was, and the timer is still there. *)
Theorem stop_freezes_pipeline (clk : Clock) (rng : nat -> nat -> TickDraws) (h : nat)
    (v : View) (id : string) :
  timers v !! h = Some (Some id) ->
  forall n k,
    run clk rng h k n (handleStopPipeline id v) = handleStopPipeline id v /\
    (Pipeline.progress <$> Store.pipelines (store (run clk rng h k n (handleStopPipeline id v))))
      = (Pipeline.progress <$> Store.pipelines (store v)) /\
    timers (run clk rng h k n (handleStopPipeline id v)) !! h = Some (Some id).
Proof.
  intros Ht n k.
  assert (Hrun : run clk rng h k n (handleStopPipeline id v) = handleStopPipeline id v).
  { apply (run_not_running clk rng h _ id); [exact Ht|].
    intros p Hp. cbn [handleStopPipeline store Store.setPipelines Store.pipelines] in Hp.
    apply list_elem_of_In, list_elem_of_fmap in Hp as [q [-> _]].
    destruct (String.eqb (Pipeline.id q) id) eqn:Hid.
    - right. discriminate.
    - left. now apply String.eqb_neq. }
  rewrite Hrun. split; [reflexivity|]. split; [|exact Ht].
  cbn [handleStopPipeline store Store.setPipelines Store.pipelines].
  rewrite <- list_fmap_compose. apply list_fmap_ext. intros i q _.
  cbn. now destruct (String.eqb (Pipeline.id q) id).
Qed.

Lemma stop_freezes_pipeline_witness :
  timers Examples.started !! 0%nat = Some (Some "pipeline_1") /\
  run Examples.clk0 Examples.brisk 0 0 11 (handleStopPipeline "pipeline_1" Examples.started)
    = handleStopPipeline "pipeline_1" Examples.started.
Proof.
  assert (H : timers Examples.started !! 0%nat = Some (Some "pipeline_1")) by reflexivity.
  split; [exact H|].
  exact (proj1 (stop_freezes_pipeline Examples.clk0 Examples.brisk 0 Examples.started
                  "pipeline_1" H 11%nat 0%nat)).
Defined.

(** X19.  Deleting a pipeline does not clear its timer: the timer keeps firing
    for good, without changing anything. *)
Theorem delete_leaves_timer (clk clk' : Clock) (rng : nat -> nat -> TickDraws) (h : nat)
    (v : View) (id : string) :
  timers v !! h = Some (Some id) ->
  Js.truthy id = true ->
  forall n k,
    timers (run clk' rng h k n (confirmDelete clk (Some id) v)) !! h = Some (Some id) /\
    run clk' rng h k n (confirmDelete clk (Some id) v) = confirmDelete clk (Some id) v /\
    forall p, In p (Store.pipelines (store (confirmDelete clk (Some id) v))) ->
              Pipeline.id p <> id.
Proof.
  intros Ht Hid n k. unfold confirmDelete. rewrite Hid.
  assert (Hgone : forall p,
            In p (Store.pipelines (Crud.deletePipeline clk id (store v))) ->
            Pipeline.id p <> id).
  { intros p Hp. cbn [Crud.deletePipeline Store.setAlerts Store.setPipelines
                      Store.pipelines] in Hp.
    apply filter_In in Hp as [_ Hp]. now apply negb_true_iff, String.eqb_neq in Hp. }
  rewrite (run_not_running clk' rng h
             {| store := Crud.deletePipeline clk id (store v); timers := timers v |}
             id Ht (fun p Hp => or_introl (Hgone p Hp))).
  split; [exact Ht|]. split; [reflexivity | exact Hgone].
Qed.

Lemma delete_leaves_timer_witness :
  (timers Examples.started !! 0%nat = Some (Some "pipeline_1") /\
   Js.truthy "pipeline_1" = true) /\
  timers (run Examples.clk0 Examples.brisk 0 0 11
            (confirmDelete Examples.clk0 (Some "pipeline_1") Examples.started)) !! 0%nat
    = Some (Some "pipeline_1").
Proof.
  assert (H1 : timers Examples.started !! 0%nat = Some (Some "pipeline_1"))
    by reflexivity.
  assert (H2 : Js.truthy "pipeline_1" = true) by reflexivity.
  split; [split; assumption|].
  exact (proj1 (delete_leaves_timer Examples.clk0 Examples.clk0 Examples.brisk 0
                  Examples.started "pipeline_1" H1 H2 11%nat 0%nat)).
Defined.

Lemma tick_keeps_not_running (clk : Clock) (rng : nat -> TickDraws) (h : nat) (v : View)
    (i : nat) (p : Pipeline.t) :
  Store.pipelines (store v) !! i = Some p ->
  Pipeline.status p <> Pipeline.running ->
  Store.pipelines (store (tick clk rng h v)) !! i = Some p.
Proof.
  intros Hp Hs.
  destruct (SimulatorFacts.tick_lookup clk rng h v i p Hp) as [H|[id [_ H]]]; [exact H|].
  rewrite H. now rewrite tickPipeline_not_running by now right.
Qed.

(** X20.  No timer ever changes a pipeline that is not running: an idle,
    completed or failed pipeline keeps its record through any number of
    firings of any timer. *)
Theorem run_changes_only_running (clk : Clock) (rng : nat -> nat -> TickDraws)
    (h : nat) (i : nat) (p : Pipeline.t) :
  Pipeline.status p <> Pipeline.running ->
  forall (n k : nat) (v : View),
    Store.pipelines (store v) !! i = Some p ->
    Store.pipelines (store (run clk rng h k n v)) !! i = Some p.
Proof.
  intros Hs n. induction n as [|n IH]; intros k v Hp; [exact Hp|].
  cbn [run]. apply IH. now apply tick_keeps_not_running.
Qed.

Lemma run_changes_only_running_witness :
  (Pipeline.status Examples.churn <> Pipeline.running /\
   Store.pipelines (store Examples.started) !! 1%nat = Some Examples.churn) /\
  Store.pipelines (store (run Examples.clk0 Examples.brisk 0 0 11 Examples.started))
    !! 1%nat = Some Examples.churn.
Proof.
  assert (H1 : Pipeline.status Examples.churn <> Pipeline.running) by discriminate.
  assert (H2 : Store.pipelines (store Examples.started) !! 1%nat = Some Examples.churn)
    by reflexivity.
  split; [split; assumption|].
  exact (run_changes_only_running Examples.clk0 Examples.brisk 0 1 Examples.churn H1
           11%nat 0%nat Examples.started H2).
Defined.

(** X21.  Saving settings leaves the run state of every pipeline alone (id,
    status, progress, accuracy, drift score and dataset stay as they are,
    in the same order), changes no pipeline with another id, and adds one
    alert, also when no pipeline has the id. *)
Theorem updatePipelineSettings_keeps_run_state (clk : Clock) (pipelineId : string)
    (settings : Crud.Settings) (prev : Store.t) :
  (Pipeline.id <$> Store.pipelines (Crud.updatePipelineSettings clk pipelineId settings prev))
    = (Pipeline.id <$> Store.pipelines prev) /\
  (Pipeline.status <$> Store.pipelines (Crud.updatePipelineSettings clk pipelineId settings prev))
    = (Pipeline.status <$> Store.pipelines prev) /\
  (Pipeline.progress <$> Store.pipelines (Crud.updatePipelineSettings clk pipelineId settings prev))
    = (Pipeline.progress <$> Store.pipelines prev) /\
  (Pipeline.model_accuracy <$>
     Store.pipelines (Crud.updatePipelineSettings clk pipelineId settings prev))
    = (Pipeline.model_accuracy <$> Store.pipelines prev) /\
  (Pipeline.dataset_id <$>
     Store.pipelines (Crud.updatePipelineSettings clk pipelineId settings prev))
    = (Pipeline.dataset_id <$> Store.pipelines prev) /\
  (forall i p, Store.pipelines prev !! i = Some p -> Pipeline.id p <> pipelineId ->
     Store.pipelines (Crud.updatePipelineSettings clk pipelineId settings prev) !! i
       = Some p) /\
  length (Store.alerts (Crud.updatePipelineSettings clk pipelineId settings prev))
    = S (length (Store.alerts prev)).
Proof.
  cbn [Crud.updatePipelineSettings Store.setAlerts Store.setPipelines Store.pipelines
       Store.alerts length].
  assert (H : forall (A : Type) (f : Pipeline.t -> A),
            (forall p, f (Crud.applySettings settings p) = f p) ->
            (f <$> ((fun p => if String.eqb (Pipeline.id p) pipelineId
                              then Crud.applySettings settings p else p)
                      <$> Store.pipelines prev))
            = (f <$> Store.pipelines prev)).
  { intros A f Hf. rewrite <- list_fmap_compose. apply list_fmap_ext. intros i p _.
    cbn. destruct (String.eqb (Pipeline.id p) pipelineId); [apply Hf | reflexivity]. }
  repeat split; try (apply H; reflexivity).
  intros i p Hp Hid. rewrite list_lookup_fmap, Hp. cbn.
  apply String.eqb_neq in Hid. now rewrite Hid.
Qed.

End LifecycleFacts.

(** ** The experiment training simulator, continued *)
Module TrainingRunFacts.
Import Training.
Local Open Scope Q_scope.

(** X22.  When the training of an experiment completes, the experiment is
    completed, its duration is between 180 and 300 seconds, its accuracy,
    precision and recall lie between 0.7 and 0.95, and its F1 score, AUC
    and training time are those it had before: they are not recomputed. *)
Theorem trainingCompleted_ranges (clk : Clock) (d : Draws) (experimentId : string)
    (prev : Store.t) (i : nat) (e : Experiment.t) :
  Store.experiments prev !! i = Some e ->
  Experiment.id e = experimentId ->
  0 <= durationDraw d -> durationDraw d < 1 ->
  exists e',
    Store.experiments (trainingCompleted clk d experimentId prev) !! i = Some e' /\
    Experiment.status e' = Experiment.completed /\
    (exists seconds, Experiment.duration e' = Some seconds /\ (180 <= seconds <= 300)%Z) /\
    (7 # 10 <= Experiment.accuracy (Experiment.metrics e') /\
     Experiment.accuracy (Experiment.metrics e') <= 95 # 100) /\
    (7 # 10 <= Experiment.precision (Experiment.metrics e') /\
     Experiment.precision (Experiment.metrics e') <= 95 # 100) /\
    (7 # 10 <= Experiment.recall (Experiment.metrics e') /\
     Experiment.recall (Experiment.metrics e') <= 95 # 100) /\
    Experiment.f1_score (Experiment.metrics e') = Experiment.f1_score (Experiment.metrics e) /\
    Experiment.auc_roc (Experiment.metrics e') = Experiment.auc_roc (Experiment.metrics e) /\
    Experiment.training_time (Experiment.metrics e')
      = Experiment.training_time (Experiment.metrics e).
Proof.
  intros He Hid H0 H1. apply String.eqb_eq in Hid.
  eexists. split.
  { cbn [trainingCompleted Store.setAlerts Store.setExperiments Store.experiments].
    rewrite list_lookup_fmap, He. cbn [fmap option_fmap option_map]. rewrite Hid.
    reflexivity. }
  cbn [Experiment.spread Experiment.status Experiment.duration Experiment.metrics
       Experiment.accuracy Experiment.precision Experiment.recall Experiment.f1_score
       Experiment.auc_roc Experiment.training_time].
  split; [reflexivity|]. split.
  { eexists. split; [reflexivity|]. unfold Math_round. split.
    - change 180%Z with (Qfloor 180). apply Qfloor_resp_le.
      rewrite <- (Qplus_0_r 180) at 1. rewrite <- Qplus_assoc.
      apply Qplus_le_compat; [apply Qle_refl|].
      rewrite <- (Qplus_0_r 0). apply Qplus_le_compat; [|discriminate].
      apply Qmult_le_0_compat; [exact H0 | discriminate].
    - enough (Qfloor (180 + durationDraw d * 120 + (1 # 2)) < 301)%Z by lia.
      rewrite Zlt_Qlt. eapply Qle_lt_trans; [apply Qfloor_le|].
      change (inject_Z 301) with 301. lra. }
  repeat split; apply TrainingFacts.perturb_bounds.
Qed.

Lemma trainingCompleted_ranges_witness :
  (Store.experiments (startModelTraining "experiment_1" Examples.shop) !! 0%nat
     = Some (Experiment.spread Examples.salesModel Experiment.running
               (Experiment.duration Examples.salesModel)
               (Experiment.metrics Examples.salesModel)) /\
   Experiment.id (Experiment.spread Examples.salesModel Experiment.running
                    (Experiment.duration Examples.salesModel)
                    (Experiment.metrics Examples.salesModel)) = "experiment_1" /\
   0 <= durationDraw Examples.trainingDraws /\ durationDraw Examples.trainingDraws < 1) /\
  exists e',
    Store.experiments
      (trainingCompleted Examples.clk0 Examples.trainingDraws "experiment_1"
         (startModelTraining "experiment_1" Examples.shop)) !! 0%nat = Some e' /\
    Experiment.status e' = Experiment.completed.
Proof.
  assert (H1 : Store.experiments (startModelTraining "experiment_1" Examples.shop) !! 0%nat
               = Some (Experiment.spread Examples.salesModel Experiment.running
                         (Experiment.duration Examples.salesModel)
                         (Experiment.metrics Examples.salesModel))) by reflexivity.
  assert (H2 : Experiment.id (Experiment.spread Examples.salesModel Experiment.running
                                (Experiment.duration Examples.salesModel)
                                (Experiment.metrics Examples.salesModel))
               = "experiment_1") by reflexivity.
  assert (H3 : 0 <= durationDraw Examples.trainingDraws) by discriminate.
  assert (H4 : durationDraw Examples.trainingDraws < 1) by reflexivity.
  split; [repeat split; assumption|].
  destruct (trainingCompleted_ranges Examples.clk0 Examples.trainingDraws "experiment_1"
              (startModelTraining "experiment_1" Examples.shop) 0 _ H1 H2 H3 H4)
    as [e' [He' [Hs _]]].
  exists e'. split; assumption.
Defined.

(** X23.  Deleting an experiment while it trains does not cancel the training:
    when the timer fires, the experiments are those left by the deletion,
    none with that id, and the alert of a successful training is written
    on top of the alert of the deletion. *)
Theorem training_outlives_deletion (clk clk' : Clock) (d : Draws) (experimentId : string)
    (prev : Store.t) :
  Store.experiments
    (trainingCompleted clk' d experimentId
       (Crud.deleteExperiment clk experimentId (startModelTraining experimentId prev)))
    = List.filter (fun e => negb (String.eqb (Experiment.id e) experimentId))
        (Store.experiments prev) /\
  (Alert.message <$>
     Store.alerts
       (trainingCompleted clk' d experimentId
          (Crud.deleteExperiment clk experimentId (startModelTraining experimentId prev))))
    = "Model training completed successfully" :: "Model deleted successfully"
      :: (Alert.message <$> Store.alerts prev).
Proof.
  split; [|reflexivity].
  cbn [trainingCompleted Crud.deleteExperiment startModelTraining Store.setAlerts
       Store.setExperiments Store.experiments].
  induction (Store.experiments prev) as [|e es IH]; [reflexivity|].
  cbn [fmap list_fmap List.filter].
  destruct (String.eqb (Experiment.id e) experimentId) eqn:Hid.
  - cbn [Experiment.spread Experiment.id]. rewrite Hid. cbn [negb]. exact IH.
  - rewrite Hid. cbn [negb fmap list_fmap]. rewrite Hid. f_equal. exact IH.
Qed.

End TrainingRunFacts.

(** ** Column-name inference *)
Module ColumnsFacts.
Import Columns.

Lemma digits_then_underscore (d1 d2 : Decimal.uint) (r1 r2 : string) :
  (NilEmpty.string_of_uint d1 ++ String "_" r1)%string
  = (NilEmpty.string_of_uint d2 ++ String "_" r2)%string ->
  d1 = d2.
Proof.
  revert d2. induction d1 as [|d1 IH|d1 IH|d1 IH|d1 IH|d1 IH|d1 IH|d1 IH|d1 IH|d1 IH|d1 IH];
    intros [|d2|d2|d2|d2|d2|d2|d2|d2|d2|d2] H; cbn in H;
    try reflexivity; try discriminate H;
    injection H as H; f_equal; now apply IH.
Qed.

Lemma ofNat_then_underscore (i j : nat) (r1 r2 : string) :
  (Js.ofNat i ++ String "_" r1)%string = (Js.ofNat j ++ String "_" r2)%string -> i = j.
Proof.
  intros H. apply digits_then_underscore in H.
  rewrite <- (DecimalNat.Unsigned.of_to i), <- (DecimalNat.Unsigned.of_to j).
  now f_equal.
Qed.

Lemma suffix_shape (datasetHash : Z) (i : nat) :
  exists r,
    nth (Z.to_nat (Z.abs (datasetHash + Z.of_nat i) mod 8)) suffixVariants EmptyString
    = String "_" r /\
    In (String "_" r) suffixVariants.
Proof.
  pose proof (Z.mod_pos_bound (Z.abs (datasetHash + Z.of_nat i)) 8 ltac:(lia)) as Hb.
  set (k := Z.to_nat (Z.abs (datasetHash + Z.of_nat i) mod 8)).
  assert (Hk : (k < 8)%nat) by (unfold k; lia). clearbody k.
  do 8 (destruct k as [|k]; [eexists; split; [reflexivity | cbn; tauto]|]). lia.
Qed.

Lemma columnName_bank (bank : list string) (datasetHash : Z) (i : nat) (name : string) :
  nth_error bank i = Some name -> columnName bank datasetHash i = name.
Proof. intros H. unfold columnName. now rewrite H. Qed.

Lemma columnName_generated (bank : list string) (datasetHash : Z) (i : nat) :
  (length bank <= i)%nat ->
  exists r,
    In (String "_" r) suffixVariants /\
    columnName bank datasetHash i
    = Js.template ["feature_"; Js.ofNat (i + 1); String "_" r].
Proof.
  intros H. apply nth_error_None in H. unfold columnName. rewrite H.
  destruct (suffix_shape datasetHash i) as [r [-> Hin]]. now exists r.
Qed.

Lemma selectedColumns_bank (datasetName : string) :
  In (selectedColumns datasetName) columnSets.
Proof.
  unfold selectedColumns, columnSets.
  repeat match goal with
         | |- context [if ?b then _ else _] => destruct b
         end; cbn; tauto.
Qed.

Ltac distinct_strings :=
  repeat (apply List.NoDup_cons;
          [cbn; intros H; repeat (destruct H as [H|H]; [discriminate H|]); exact H|]);
  apply List.NoDup_nil.

Lemma banks_distinct (bank : list string) :
  In bank columnSets ->
  List.NoDup bank /\
  forall name, In name bank -> String.prefix "feature_" name = false.
Proof.
  intros Hin. cbn in Hin.
  repeat (destruct Hin as [<-|Hin]; [split; [distinct_strings|
    intros name Hn; cbn in Hn;
    repeat (destruct Hn as [<-|Hn]; [reflexivity|]); destruct Hn]|]).
  destruct Hin.
Qed.

Lemma columnName_injective (bank : list string) (datasetHash : Z) (i j : nat) :
  In bank columnSets ->
  columnName bank datasetHash i = columnName bank datasetHash j -> i = j.
Proof.
  intros Hbank Heq. destruct (banks_distinct bank Hbank) as [Hnodup Hprefix].
  assert (Hgen : forall a b name,
            nth_error bank a = Some name -> (length bank <= b)%nat ->
            columnName bank datasetHash a = columnName bank datasetHash b -> False).
  { intros a b name Ha Hb H. rewrite (columnName_bank _ _ _ _ Ha) in H.
    destruct (columnName_generated bank datasetHash b Hb) as [r [_ Hr]].
    rewrite Hr in H. apply nth_error_In, Hprefix in Ha. rewrite H in Ha.
    assert (Ht : String.prefix "feature_"
                   (Js.template ["feature_"; Js.ofNat (b + 1); String "_" r]) = true)
      by (apply JsFacts.prefix_spec; eexists; reflexivity).
    congruence. }
  destruct (nth_error bank i) as [ni|] eqn:Hi, (nth_error bank j) as [nj|] eqn:Hj.
  - rewrite (columnName_bank _ _ _ _ Hi), (columnName_bank _ _ _ _ Hj) in Heq. subst nj.
    apply (proj1 (NoDup_nth_error bank) Hnodup).
    + apply nth_error_Some. congruence.
    + congruence.
  - apply nth_error_None in Hj. destruct (Hgen i j ni Hi Hj Heq).
  - apply nth_error_None in Hi. symmetry in Heq. destruct (Hgen j i nj Hj Hi Heq).
  - apply nth_error_None in Hi, Hj.
    destruct (columnName_generated bank datasetHash i Hi) as [r1 [_ H1]].
    destruct (columnName_generated bank datasetHash j Hj) as [r2 [_ H2]].
    rewrite H1, H2 in Heq.
    assert (Happ : forall p x y : string, (p ++ x)%string = (p ++ y)%string -> x = y).
    { induction p as [|c p IH]; intros x y Hp; [exact Hp|]. injection Hp. apply IH. }
    change (("feature_" ++ (Js.ofNat (i + 1) ++ String "_" r1))%string
            = ("feature_" ++ (Js.ofNat (j + 1) ++ String "_" r2))%string) in Heq.
    apply Happ, ofNat_then_underscore in Heq. lia.
Qed.

Section Analyze.
Variable toString : Num.number -> string.

(** X24.  The analysis returns as many names as the loop has steps (the number
    of columns, rounded up; none for NaN or a negative number), and no
    name twice; only for an infinite number of columns it never returns. *)
Theorem analyzeDatasetColumns_distinct (dataset : Dataset.t) :
  match analyzeDatasetColumns toString dataset with
  | Some names =>
      List.NoDup names /\
      iterations (Dataset.columns dataset) = Some (length names)
  | None => Dataset.columns dataset = Num.PosInfinity
  end.
Proof.
  unfold analyzeDatasetColumns.
  destruct (iterations (Dataset.columns dataset)) as [n|] eqn:Hn.
  - split; [|now rewrite length_map, length_seq].
    apply List.NoDup_map_NoDup_ForallPairs; [|apply List.seq_NoDup].
    intros i j _ _ H.
    exact (columnName_injective _ _ i j (selectedColumns_bank _) H).
  - destruct (Dataset.columns dataset); try discriminate Hn. reflexivity.
Qed.

(** X25.  The names are the first names of the bank chosen from the dataset's
    name, in the bank's order; past the end of the bank the name at
    position [i] is [feature_] followed by [i + 1] and one of the eight
    suffixes. *)
Theorem analyzeDatasetColumns_names (dataset : Dataset.t) (names : list string)
    (i : nat) (name : string) :
  analyzeDatasetColumns toString dataset = Some names ->
  names !! i = Some name ->
  (forall known, selectedColumns (Dataset.name dataset) !! i = Some known -> name = known) /\
  ((length (selectedColumns (Dataset.name dataset)) <= i)%nat ->
   exists suffix,
     In suffix suffixVariants /\
     name = Js.template ["feature_"; Js.ofNat (i + 1); suffix]).
Proof.
  unfold analyzeDatasetColumns.
  destruct (iterations (Dataset.columns dataset)) as [n|]; [|discriminate].
  intros [= <-] Hi.
  change (map ?f ?l) with (f <$> l) in Hi.
  rewrite list_lookup_fmap in Hi.
  destruct (seq 0 n !! i) as [k|] eqn:Hk; [|discriminate Hi].
  apply lookup_seq in Hk as [-> _]. cbn in Hi. injection Hi as <-. split.
  - intros known Hknown. apply columnName_bank.
    revert Hknown. generalize (selectedColumns (Dataset.name dataset)) i.
    induction l as [|x l IH]; intros [|j] H; try discriminate H; [exact H|].
    now apply IH.
  - intros Hlen. destruct (columnName_generated _ (datasetHash toString dataset) i Hlen)
      as [r [Hin Hr]]. now exists (String "_" r).
Qed.

End Analyze.

Lemma analyzeDatasetColumns_names_witness :
  (analyzeDatasetColumns integerToString Examples.customers
     = Some (map (columnName customer (datasetHash integerToString Examples.customers))
               (seq 0 18)) /\
   map (columnName customer (datasetHash integerToString Examples.customers)) (seq 0 18)
     !! 2%nat = Some "email") /\
  (forall known,
     selectedColumns (Dataset.name Examples.customers) !! 2%nat = Some known ->
     "email" = known).
Proof.
  assert (H1 : analyzeDatasetColumns integerToString Examples.customers
               = Some (map (columnName customer
                              (datasetHash integerToString Examples.customers))
                         (seq 0 18))) by reflexivity.
  assert (H2 : map (columnName customer (datasetHash integerToString Examples.customers))
                 (seq 0 18) !! 2%nat = Some "email") by reflexivity.
  split; [split; assumption|].
  exact (proj1 (analyzeDatasetColumns_names integerToString Examples.customers
                  _ 2 "email" H1 H2)).
Defined.

End ColumnsFacts.

(** ** The progress bar *)
Module ProgressBarFacts.
Import ProgressBar.
Local Open Scope Q_scope.

(** X26.  The width of the bar is a percentage between 0 and 100 whatever the
    value and the maximum are, a zero or negative maximum included; the one
    exception is 0 of 0, which gives NaN.  Within the range the width is
    the value's share of the maximum. *)
Theorem percentage_range (value max : Q) :
  match percentage value max with
  | Num.Finite width =>
      0 <= width /\ width <= 100 /\
      (0 < max -> 0 <= value -> value <= max -> width == value / max * 100)
  | Num.NaN => value == 0 /\ max == 0
  | Num.PosInfinity | Num.NegInfinity => False
  end.
Proof.
  unfold percentage. destruct (Qeq_bool max 0) eqn:Hmax.
  - apply Qeq_bool_iff in Hmax. destruct (value ?= 0) eqn:Hv.
    + split; [now apply Qeq_alt | exact Hmax].
    + repeat split; try discriminate. intros H. rewrite Hmax in H.
      now apply Qlt_irrefl in H.
    + repeat split; try discriminate. intros H. rewrite Hmax in H.
      now apply Qlt_irrefl in H.
  - split; [|split].
    + apply Q.min_glb; [discriminate | apply Q.le_max_l].
    + apply Q.le_min_l.
    + intros Hpos H0 H1.
      assert (Hshare : 0 <= value / max * 100 /\ value / max * 100 <= 100).
      { assert (Hinv : 0 < / max) by now apply Qinv_lt_0_compat.
        assert (Hle : value / max <= 1).
        { apply Qle_shift_div_r; [exact Hpos|]. now rewrite Qmult_1_l. }
        assert (Hge : 0 <= value / max).
        { apply Qle_shift_div_l; [exact Hpos|]. now rewrite Qmult_0_l. }
        split; lra. }
      destruct Hshare as [Hlo Hhi].
      rewrite (Q.max_r 0 (value / max * 100) Hlo).
      now rewrite (Q.min_r 100 (value / max * 100) Hhi).
Qed.

End ProgressBarFacts.

(** ** The Data view's selection *)
Module DataViewFacts.
Import DataView.

Lemma View_eq (v w : View) :
  store v = store w -> selectedDatasets v = selectedDatasets w -> v = w.
Proof. destruct v, w. cbn. now intros -> ->. Qed.

(** X27.  Clicking a dataset's checkbox twice leaves the selection as it was. *)
Theorem handleSelectDataset_twice (datasetId : string) (v : View) :
  handleSelectDataset datasetId (handleSelectDataset datasetId v) = v.
Proof.
  apply View_eq; [reflexivity|]. cbn [handleSelectDataset selectedDatasets].
  destruct (decide (datasetId ∈ selectedDatasets v)) as [Hin|Hout].
  - destruct (decide (datasetId ∈ selectedDatasets v ∖ {[datasetId]})) as [H|_].
    + apply elem_of_difference in H as [_ H]. destruct H. now apply elem_of_singleton.
    + apply set_eq. intros x.
      rewrite elem_of_union, elem_of_difference, elem_of_singleton.
      destruct (decide (x = datasetId)) as [->|Hne]; tauto.
  - destruct (decide (datasetId ∈ selectedDatasets v ∪ {[datasetId]})) as [_|H].
    + apply set_eq. intros x.
      rewrite elem_of_difference, elem_of_union, elem_of_singleton.
      destruct (decide (x = datasetId)) as [->|Hne]; tauto.
    + destruct H. apply elem_of_union. right. now apply elem_of_singleton.
Qed.

(** X28.  Deleting a dataset takes its id out of the selection and keeps the
    selection within the datasets of the store, whatever render the
    handler comes from. *)
Theorem confirmDelete_selection (clk : Clock) (id : string) (snap : Store.t) (v : View) :
  selectionWithin v ->
  Js.truthy id = true ->
  selectionWithin (confirmDelete clk (Some id) snap v) /\
  id ∉ selectedDatasets (confirmDelete clk (Some id) snap v).
Proof.
  intros Hwithin Hid. unfold confirmDelete. rewrite Hid.
  split;
    [|cbn [selectedDatasets]; intros H; apply elem_of_difference in H as [_ H];
      apply H; now apply elem_of_singleton].
  intros x Hx. cbn [selectedDatasets store] in *.
  apply elem_of_difference in Hx as [Hx Hne].
  destruct (Hwithin x Hx) as [d [Hd Hdx]]. exists d. split; [|exact Hdx].
  destruct (Cascade.lookupDataset snap id) as [found|] eqn:Hfind.
  - rewrite (StoreFacts.deleteDataset_found clk id snap (store v) found Hfind).
    cbn [Store.datasets]. apply filter_In. split; [exact Hd|].
    apply negb_true_iff, String.eqb_neq. intros Heq. apply Hne.
    apply elem_of_singleton. congruence.
  - unfold Cascade.lookupDataset in Hfind. unfold Store.deleteDataset.
    now rewrite Hfind.
Qed.

Lemma confirmDelete_selection_witness :
  (selectionWithin Scenarios.dataView /\ Js.truthy "dataset_2" = true) /\
  "dataset_2" ∉ selectedDatasets
    (confirmDelete Examples.clk0 (Some "dataset_2") Examples.shop Scenarios.dataView).
Proof.
  assert (H1 : selectionWithin Scenarios.dataView).
  { intros id Hid. cbn [Scenarios.dataView selectedDatasets] in Hid.
    apply elem_of_singleton in Hid as ->.
    exists Examples.customers. split; [right; left; reflexivity | reflexivity]. }
  assert (H2 : Js.truthy "dataset_2" = true) by reflexivity.
  split; [split; assumption|].
  exact (proj2 (confirmDelete_selection Examples.clk0 "dataset_2" Examples.shop
                  Scenarios.dataView H1 H2)).
Defined.

(** X29.  Deleting a connection removes its shadow dataset from the store but
    not from the selection: a selected shadow dataset stays counted as
    selected although no dataset of the store has its id any more. *)
Theorem confirmDeleteConnection_stale_selection (clk clk' : Clock)
    (d : Crud.ConnectionDraws) (data : Crud.ConnectionData) (v : View) :
  (forall x, In x (Store.datasets (store v)) ->
     Dataset.id x <> Dataset.id (Crud.shadowDataset clk d data)) ->
  Dataset.id (Crud.shadowDataset clk d data) ∉ selectedDatasets v ->
  Js.truthy (ExternalConnection.id (Crud.newConnection clk d data)) = true /\
  Dataset.id (Crud.shadowDataset clk d data)
    ∈ selectedDatasets
        (confirmDeleteConnection clk' (Some (ExternalConnection.id (Crud.newConnection clk d data)))
           (snd (Crud.addExternalConnection clk d data (store v)))
           (handleSelectDataset (Dataset.id (Crud.shadowDataset clk d data))
              {| store := snd (Crud.addExternalConnection clk d data (store v));
                 selectedDatasets := selectedDatasets v |})) /\
  forall x,
    In x (Store.datasets
            (store
               (confirmDeleteConnection clk'
                  (Some (ExternalConnection.id (Crud.newConnection clk d data)))
                  (snd (Crud.addExternalConnection clk d data (store v)))
                  (handleSelectDataset (Dataset.id (Crud.shadowDataset clk d data))
                     {| store := snd (Crud.addExternalConnection clk d data (store v));
                        selectedDatasets := selectedDatasets v |})))) ->
    Dataset.id x <> Dataset.id (Crud.shadowDataset clk d data).
Proof.
  intros Hfresh Hout. split; [reflexivity|].
  unfold confirmDeleteConnection.
  change (Js.truthy (ExternalConnection.id (Crud.newConnection clk d data))) with true.
  cbn [selectedDatasets store handleSelectDataset]. split.
  - destruct (decide (Dataset.id (Crud.shadowDataset clk d data) ∈ selectedDatasets v));
      [contradiction | apply elem_of_union; right; now apply elem_of_singleton].
  - intros x Hx. unfold Crud.deleteExternalConnection, Crud.addExternalConnection in Hx.
    cbn [snd Store.externalConnections Store.setAlerts Store.setDatasets
         Store.setExternalConnections List.find] in Hx.
    rewrite String.eqb_refl in Hx.
    cbn [Store.datasets Store.setAlerts Store.setDatasets Store.setExternalConnections
         List.filter] in Hx.
    change (Dataset.name (Crud.shadowDataset clk d data))
      with (Crud.shadowName (Crud.cd_name data)) in Hx.
    change (ExternalConnection.name (Crud.newConnection clk d data))
      with (Crud.cd_name data) in Hx.
    rewrite String.eqb_refl in Hx. cbn [negb] in Hx.
    apply filter_In in Hx as [Hx _]. now apply Hfresh.
Qed.

Lemma confirmDeleteConnection_stale_selection_witness :
  ((forall x, In x (Store.datasets (store Scenarios.dataView)) ->
      Dataset.id x <>
      Dataset.id (Crud.shadowDataset Scenarios.clk1 Scenarios.halves Scenarios.warehouse)) /\
   Dataset.id (Crud.shadowDataset Scenarios.clk1 Scenarios.halves Scenarios.warehouse)
     ∉ selectedDatasets Scenarios.dataView) /\
  Dataset.id (Crud.shadowDataset Scenarios.clk1 Scenarios.halves Scenarios.warehouse)
    ∈ selectedDatasets
        (confirmDeleteConnection Scenarios.clk1
           (Some (ExternalConnection.id
                    (Crud.newConnection Scenarios.clk1 Scenarios.halves
                       Scenarios.warehouse)))
           (snd (Crud.addExternalConnection Scenarios.clk1 Scenarios.halves
                   Scenarios.warehouse (store Scenarios.dataView)))
           (handleSelectDataset
              (Dataset.id (Crud.shadowDataset Scenarios.clk1 Scenarios.halves
                             Scenarios.warehouse))
              {| store := snd (Crud.addExternalConnection Scenarios.clk1 Scenarios.halves
                                 Scenarios.warehouse (store Scenarios.dataView));
                 selectedDatasets := selectedDatasets Scenarios.dataView |})).
Proof.
  assert (H1 : forall x, In x (Store.datasets (store Scenarios.dataView)) ->
             Dataset.id x <>
             Dataset.id (Crud.shadowDataset Scenarios.clk1 Scenarios.halves
                           Scenarios.warehouse)).
  { intros x [<-|[<-|[]]]; vm_compute; discriminate. }
  assert (H2 : Dataset.id (Crud.shadowDataset Scenarios.clk1 Scenarios.halves
                             Scenarios.warehouse)
               ∉ selectedDatasets Scenarios.dataView).
  { intros H. cbn [Scenarios.dataView selectedDatasets] in H.
    apply elem_of_singleton in H. vm_compute in H. discriminate H. }
  split; [split; assumption|].
  exact (proj1 (proj2 (confirmDeleteConnection_stale_selection Scenarios.clk1
                         Scenarios.clk1 Scenarios.halves Scenarios.warehouse
                         Scenarios.dataView H1 H2))).
Defined.

(** X30.  With dataset ids that are all different, Select All checks every
    dataset when not everything is counted as selected, and a second click
    clears the selection. *)
Theorem handleSelectAll_toggles (v : View) :
  List.NoDup (map Dataset.id (Store.datasets (store v))) ->
  size (selectedDatasets v) <> length (Store.datasets (store v)) ->
  (forall d, In d (Store.datasets (store v)) ->
     Dataset.id d ∈ selectedDatasets (handleSelectAll v)) /\
  selectionWithin (handleSelectAll v) /\
  selectedDatasets (handleSelectAll (handleSelectAll v)) = ∅.
Proof.
  intros Hnodup Hsize. apply Nat.eqb_neq in Hsize.
  assert (Hall : selectedDatasets (handleSelectAll v)
                 = list_to_set (map Dataset.id (Store.datasets (store v)))).
  { cbn [handleSelectAll selectedDatasets]. now rewrite Hsize. }
  split; [|split].
  - intros d Hd. rewrite Hall. apply elem_of_list_to_set, list_elem_of_In.
    now apply in_map.
  - intros id Hid. rewrite Hall in Hid.
    apply elem_of_list_to_set, list_elem_of_In, in_map_iff in Hid as [d [Hd Hin]].
    now exists d.
  - cbn [handleSelectAll selectedDatasets store]. rewrite Hsize.
    rewrite size_list_to_set by now apply NoDup_ListNoDup.
    now rewrite length_map, Nat.eqb_refl.
Qed.

Lemma handleSelectAll_toggles_witness :
  (List.NoDup (map Dataset.id (Store.datasets (store Scenarios.dataView))) /\
   size (selectedDatasets Scenarios.dataView)
     <> length (Store.datasets (store Scenarios.dataView))) /\
  selectedDatasets (handleSelectAll (handleSelectAll Scenarios.dataView)) = ∅.
Proof.
  assert (H1 : List.NoDup (map Dataset.id (Store.datasets (store Scenarios.dataView)))).
  { cbn. repeat (apply List.NoDup_cons;
      [cbn; intros H; repeat (destruct H as [H|H]; [discriminate H|]); exact H|]).
    apply List.NoDup_nil. }
  assert (H2 : size (selectedDatasets Scenarios.dataView)
               <> length (Store.datasets (store Scenarios.dataView))).
  { cbn [Scenarios.dataView selectedDatasets]. rewrite size_singleton. discriminate. }
  split; [split; assumption|].
  exact (proj2 (proj2 (handleSelectAll_toggles Scenarios.dataView H1 H2))).
Defined.

End DataViewFacts.
